(** * Period cache and report aggregation of [gcal_report/gcal_app.py]

    A shallow embedding of the [GoogleCalendarReport] class: period keys,
    event durations, title categorisation, the SQLite period store with its
    transaction, event retrieval and the event loop of the report.

    Conventions of the embedding.
    - A Python [str] is a [string]; its characters are the code points
      below 256.
    - A Python [float] holding a number of hours is an exact rational [Q]:
      rounding is not modelled.
    - A Python dict with optional keys is a record of [option] fields;
      [None] is an absent key.
    - A raised exception is the [Raise] constructor of [result].
    - [datetime.fromisoformat] and [datetime.isoformat] belong to the
      Python library; they are the variables of Section [App]. *)

From Stdlib Require Import List String Ascii Bool Arith ZArith QArith Lia.
Import ListNotations.

Local Open Scope string_scope.
Local Open Scope list_scope.

(** ** Exceptions and results *)

Inductive exn : Type :=
| KeyError (key : string)
| ValueError
| TypeError
| SqliteError
| HttpError.

Inductive result (A : Type) : Type :=
| Ok (a : A)
| Raise (e : exn).

Arguments Ok {A} a.
Arguments Raise {A} e.

Definition bind {A B : Type} (m : result A) (k : A -> result B) : result B :=
  match m with
  | Ok a => k a
  | Raise e => Raise e
  end.

Notation "x <- m ;; k" := (bind m (fun x => k))
  (at level 61, m at next level, right associativity).

(** [d[key]] on a dict whose [key] may be absent. *)
Definition subscript {A : Type} (key : string) (field : option A) : result A :=
  match field with
  | Some a => Ok a
  | None => Raise (KeyError key)
  end.

(** ** The three patterns applied to titles *)

Module Re.

Definition newline : ascii := "010"%char.

(** [[A-Z]] *)
Definition upper (c : ascii) : bool :=
  ((65 <=? nat_of_ascii c) && (nat_of_ascii c <=? 90))%nat.

(** [[ _]] *)
Definition space_or_underscore (c : ascii) : bool :=
  Ascii.eqb c " " || Ascii.eqb c "_".

(** [\s] of a [str] pattern, on the code points below 256. *)
Definition whitespace (c : ascii) : bool :=
  let n := nat_of_ascii c in
  (((9 <=? n) && (n <=? 13)) || ((28 <=? n) && (n <=? 32))
   || (n =? 133) || (n =? 160))%nat.

(** What a greedy any-character group consumes: [.] matches everything
    but a newline. *)
Fixpoint dot_star (s : string) : string :=
  match s with
  | EmptyString => EmptyString
  | String c rest =>
      if Ascii.eqb c newline then EmptyString else String c (dot_star rest)
  end.

(** Any characters and then [$]: the rest holds no newline, or one
    newline that ends it. *)
Fixpoint dot_star_eol (s : string) : bool :=
  match s with
  | EmptyString => true
  | String c rest =>
      if Ascii.eqb c newline
      then match rest with EmptyString => true | _ => false end
      else dot_star_eol rest
  end.

(** [re.match] of the report's pattern, [^@([A-Z]{3})[ _]] followed by a
    group of any characters: groups 1 and 2. *)
Definition category_match (summary : string) : option (string * string) :=
  match summary with
  | String "@" (String a (String b (String c (String sep rest)))) =>
      if upper a && upper b && upper c && space_or_underscore sep
      then Some (String a (String b (String c EmptyString)), dot_star rest)
      else None
  | _ => None
  end.

(** [re.match] of the store's pattern, [^@([A-Z]{3})\s+] followed by a
    group of any characters: group 1.  After one whitespace character the
    rest of the pattern always matches. *)
Definition stored_category_match (summary : string) : option string :=
  match summary with
  | String "@" (String a (String b (String c (String sep _)))) =>
      if upper a && upper b && upper c && whitespace sep
      then Some (String a (String b (String c EmptyString)))
      else None
  | _ => None
  end.

(** [re.match] of the summary's pattern, [^@[A-Z]{3}[ _]] followed by any
    characters and [$], as a truth value. *)
Definition recurring_match (summary : string) : bool :=
  match summary with
  | String "@" (String a (String b (String c (String sep rest)))) =>
      upper a && upper b && upper c && space_or_underscore sep
      && dot_star_eol rest
  | _ => false
  end.

(** [summary.count('@')] *)
Fixpoint count_at (s : string) : nat :=
  match s with
  | EmptyString => O
  | String c rest =>
      if Ascii.eqb c "@" then S (count_at rest) else count_at rest
  end.

End Re.




(** ** Dates, times and their differences

    The fields of a [datetime.datetime].  [dt_utcoffset] is the fixed UTC
    offset in microseconds of an aware value and [None] for a naive one. *)

Record datetime : Type := mk_datetime {
  dt_year : Z;
  dt_month : Z;
  dt_day : Z;
  dt_hour : Z;
  dt_minute : Z;
  dt_second : Z;
  dt_microsecond : Z;
  dt_utcoffset : option Z
}.

(** A [datetime.timedelta], as its length in microseconds. *)
Definition timedelta : Type := Z.

Module Calendar.
Local Open Scope Z_scope.

Definition is_leap (y : Z) : bool :=
  (y mod 4 =? 0) && (negb (y mod 100 =? 0) || (y mod 400 =? 0)).

Definition days_before_year (y : Z) : Z :=
  let p := y - 1 in p * 365 + p / 4 - p / 100 + p / 400.

Definition days_before_month (y m : Z) : Z :=
  nth (Z.to_nat (m - 1))
      [0; 31; 59; 90; 120; 151; 181; 212; 243; 273; 304; 334] 0
  + (if (2 <? m) && is_leap y then 1 else 0).

(** [d.toordinal()]: the proleptic Gregorian day number. *)
Definition toordinal (d : datetime) : Z :=
  days_before_year (dt_year d) + days_before_month (dt_year d) (dt_month d)
  + dt_day d.

Definition microseconds_per_day : Z := 86400 * 1000000.

(** Microseconds of the wall-clock reading since the start of day 0. *)
Definition wall_clock (d : datetime) : Z :=
  (toordinal d * 86400 + dt_hour d * 3600 + dt_minute d * 60 + dt_second d)
  * 1000000 + dt_microsecond d.

(** The absolute instant of an aware value with offset [off]. *)
Definition instant (d : datetime) (off : Z) : Z := wall_clock d - off.

(** [a - b] on two datetimes: naive values are subtracted as wall-clock
    readings, aware values as instants, and mixing them is a TypeError. *)
Definition sub (a b : datetime) : result timedelta :=
  match dt_utcoffset a, dt_utcoffset b with
  | None, None => Ok (wall_clock a - wall_clock b)
  | Some oa, Some ob => Ok (wall_clock a - wall_clock b + ob - oa)
  | _, _ => Raise TypeError
  end.

(** [delta.days]: whole days, rounded towards minus infinity. *)
Definition days (delta : timedelta) : Z := delta / microseconds_per_day.

(** [delta.total_seconds()] *)
Definition total_seconds (delta : timedelta) : Q := delta # 1000000.

Definition digit (n : Z) : ascii := ascii_of_nat (48 + Z.to_nat (n mod 10)).

Definition pad2 (n : Z) : string :=
  String (digit (n / 10)) (String (digit n) EmptyString).

Definition pad4 (n : Z) : string :=
  String (digit (n / 1000)) (String (digit (n / 100)) (pad2 n)).

(** [d.strftime("%Y%m%d")]; the year is written with four digits, which
    is what every platform prints from the year 1000 on. *)
Definition strftime_Ymd (d : datetime) : string :=
  (pad4 (dt_year d) ++ pad2 (dt_month d) ++ pad2 (dt_day d))%string.

(** [d.strftime("%Y-%m-%d")] *)
Definition strftime_Y_m_d (d : datetime) : string :=
  (pad4 (dt_year d) ++ "-" ++ pad2 (dt_month d) ++ "-"
   ++ pad2 (dt_day d))%string.

(** [d.strftime("%H:%M")] *)
Definition strftime_HM (d : datetime) : string :=
  (pad2 (dt_hour d) ++ ":" ++ pad2 (dt_minute d))%string.

(** The calendar date of a value is printable with four year digits. *)
Definition printable (d : datetime) : Prop :=
  1000 <= dt_year d <= 9999 /\ 1 <= dt_month d <= 12 /\ 1 <= dt_day d <= 31.

End Calendar.

Definition march_1_2024 : datetime := mk_datetime 2024 3 1 0 0 0 0 None.
Definition march_2_2024 : datetime := mk_datetime 2024 3 2 0 0 0 0 None.




(** ** Configuration and events *)

(** The keys of [self.config] that the class reads. *)
Record config : Type := mk_config {
  cfg_all_day_event_hours : option Q;
  cfg_working_days_per_week : option Z;
  cfg_calendars : option (list string)
}.

(** [d.get(key, default)] *)
Definition dict_get {A : Type} (field : option A) (default : A) : A :=
  match field with
  | Some a => a
  | None => default
  end.

(** [key in d] *)
Definition has_key {A : Type} (field : option A) : bool :=
  match field with
  | Some _ => true
  | None => false
  end.

(** The dict under an event's ['start'] or ['end']. *)
Record time_dict : Type := mk_time_dict {
  td_date : option string;
  td_dateTime : option string
}.

(** An event dict.  ['colorId'] can be present and hold [None], which is
    [Some None] here; ['duration'] and ['category'] are the keys that only
    events read back from the database carry. *)
Record event : Type := mk_event {
  ev_id : option string;
  ev_summary : option string;
  ev_start : option time_dict;
  ev_end : option time_dict;
  ev_colorId : option (option string);
  ev_duration : option Q;
  ev_category : option string
}.

Definition all_day_span (start_ end_ : string)
    : option time_dict * option time_dict :=
  (Some (mk_time_dict (Some start_) None),
   Some (mk_time_dict (Some end_) None)).

Definition timed_span (start_ end_ : string)
    : option time_dict * option time_dict :=
  (Some (mk_time_dict None (Some start_)),
   Some (mk_time_dict None (Some end_))).

(** An event as the calendar service sends it. *)
Definition api_event (id summary : string)
    (span : option time_dict * option time_dict) : event :=
  mk_event (Some id) (Some summary) (fst span) (snd span) None None None.

(** [s.replace('Z', '+00:00')] *)
Fixpoint replace_Z (s : string) : string :=
  match s with
  | EmptyString => EmptyString
  | String c rest =>
      if Ascii.eqb c "Z" then ("+00:00" ++ replace_Z rest)%string
      else String c (replace_Z rest)
  end.

(** ** The SQLite database

    A table is the list of its rows in rowid order. *)

Record event_row : Type := mk_event_row {
  r_id : string;
  r_summary : string;
  r_start_time : string;
  r_end_time : string;
  r_duration : Q;
  r_is_all_day : Z;
  r_category : string;
  r_period_key : string;
  r_color : option string
}.

Record period_row : Type := mk_period_row {
  p_period_key : string;
  p_period_type : string;
  p_start_date : string;
  p_end_date : string;
  p_is_complete : Z
}.

Record tables : Type := mk_tables {
  events_table : list event_row;
  periods_table : list period_row
}.

(** [INSERT OR REPLACE] on a table whose primary key is [pk]: the row in
    conflict is deleted and the new row gets the next rowid. *)
Definition insert_or_replace {R : Type} (pk : R -> string) (r : R)
    (table : list R) : list R :=
  filter (fun x => negb (String.eqb (pk x) (pk r))) table ++ [r].

Definition insert_event (r : event_row) (t : tables) : tables :=
  mk_tables (insert_or_replace r_id r (events_table t)) (periods_table t).

Definition insert_period (p : period_row) (t : tables) : tables :=
  mk_tables (events_table t)
            (insert_or_replace p_period_key p (periods_table t)).

(** A connection: what is committed, and the tables as the open
    transaction sees them, when one is open. *)
Record conn : Type := mk_conn {
  committed : tables;
  pending : option tables
}.

Definition current (c : conn) : tables := dict_get (pending c) (committed c).

(** Statements run against a connection and can fail: [faults n] tells
    whether the database engine refuses the [n]-th statement of a call.
    The connection outlives an exception, so it is returned either way. *)
Definition sql (A : Type) : Type := nat * conn -> result A * (nat * conn).

Definition sql_ret {A : Type} (a : A) : sql A := fun st => (Ok a, st).

Definition sql_bind {A B : Type} (m : sql A) (k : A -> sql B) : sql B :=
  fun st =>
    match m st with
    | (Ok a, st') => k a st'
    | (Raise e, st') => (Raise e, st')
    end.

Definition sql_lift {A : Type} (r : result A) : sql A := fun st => (r, st).

Notation "x <~ m ;; k" := (sql_bind m (fun x => k))
  (at level 61, m at next level, right associativity).

Section Statements.
Variable faults : nat -> bool.

Definition statement {A : Type} (run : conn -> result A * conn) : sql A :=
  fun '(n, c) =>
    if faults n then (Raise SqliteError, (S n, c))
    else let '(r, c') := run c in (r, (S n, c')).

(** [BEGIN TRANSACTION]; SQLite refuses it inside a transaction. *)
Definition begin_transaction : sql unit :=
  statement (fun c =>
    match pending c with
    | Some _ => (Raise SqliteError, c)
    | None => (Ok tt, mk_conn (committed c) (Some (committed c)))
    end).

(** A writing statement; it opens a transaction when none is open. *)
Definition execute_write (w : tables -> tables) : sql unit :=
  statement (fun c => (Ok tt, mk_conn (committed c) (Some (w (current c))))).

(** A [SELECT]. *)
Definition execute_query {A : Type} (q : tables -> A) : sql A :=
  statement (fun c => (Ok (q (current c)), c)).

(** [db_conn.commit()] *)
Definition commit : sql unit :=
  statement (fun c => (Ok tt, mk_conn (current c) None)).

End Statements.

(** [db_conn.rollback()] *)
Definition rollback (c : conn) : conn := mk_conn (committed c) None.

Definition no_faults : nat -> bool := fun _ => false.

(** The fault that refuses statement [k] and no other. *)
Definition fail_at (k : nat) : nat -> bool := fun n => Nat.eqb n k.

(** ** The calendar service

    What the successive [events().list(...).execute()] calls on one calendar
    answer: pages of items, chained by a page token, or an exception. *)

Inductive response : Type :=
| LastPage (items : option (list event))
| NextPage (items : option (list event)) (next : response)
| Failure (e : exn).

(** Calendar id, [timeMin] and [timeMax] to the answers of the service. *)
Definition calendar_service : Type := string -> string -> string -> response.

(** The fields of [self]. *)
Record GoogleCalendarReport : Type := mk_app {
  app_config : config;
  app_service : option calendar_service;
  db_conn : option conn
}.

Definition with_conn (self : GoogleCalendarReport) (c : conn)
    : GoogleCalendarReport :=
  mk_app (app_config self) (app_service self) (Some c).

(** ** The methods of [GoogleCalendarReport] *)

Definition get_period_key (period_type : string)
    (start_date end_date : datetime) : string :=
  let start_str := Calendar.strftime_Ymd start_date in
  let end_str := Calendar.strftime_Ymd end_date in
  (period_type ++ "_" ++ start_str ++ "_" ++ end_str)%string.

Definition is_period_in_database (faults : nat -> bool)
    (self : GoogleCalendarReport) (period_key : string) : bool :=
  match db_conn self with
  | None => false
  | Some c =>
      match fst (execute_query faults
                   (fun t =>
                      find (fun p => String.eqb (p_period_key p) period_key)
                           (periods_table t)) (O, c)) with
      | Ok (Some p) => Z.eqb (p_is_complete p) 1
      | Ok None => false
      | Raise _ => false
      end
  end.

Definition event_of_row (row : event_row) : event :=
  let is_all_day := negb (Z.eqb (r_is_all_day row) 0) in
  let time_of (column : string) :=
    if is_all_day then mk_time_dict (Some column) None
    else mk_time_dict None (Some column) in
  mk_event (Some (r_id row)) (Some (r_summary row))
    (Some (time_of (r_start_time row))) (Some (time_of (r_end_time row)))
    (Some (match r_color row with
           | Some EmptyString => None
           | other => other
           end))
    (Some (r_duration row)) (Some (r_category row)).

Definition get_events_from_database (faults : nat -> bool)
    (self : GoogleCalendarReport) (period_key : string) : list event :=
  match db_conn self with
  | None => []
  | Some c =>
      match fst (execute_query faults
                   (fun t =>
                      filter (fun r => String.eqb (r_period_key r) period_key)
                             (events_table t)) (O, c)) with
      | Ok rows => map event_of_row rows
      | Raise _ => []
      end
  end.

(** The pages of one calendar, appended to [events_result]. *)
Fixpoint fetch_pages (answer : response) (events_result : list event)
    : result (list event) :=
  match answer with
  | LastPage items => Ok (events_result ++ dict_get items [])
  | NextPage items next => fetch_pages next (events_result ++ dict_get items [])
  | Failure e => Raise e
  end.

Fixpoint fetch_calendars (service : calendar_service)
    (time_min time_max : string)
    (calendars : list string) (events_result : list event)
    : result (list event) :=
  match calendars with
  | [] => Ok events_result
  | calendar_id :: others =>
      fetched <- fetch_pages (service calendar_id time_min time_max)
                   events_result ;;
      fetch_calendars service time_min time_max others fetched
  end.

(** ** The values the report is printed from *)

(** The text of a duration: ["N day(s)"], ["N min"] or ["H hrs"]. *)
Inductive duration_label : Type :=
| DayCount (days : Z)
| MinuteCount (minutes : Z)
| HourCount (hours : Q).

(** The dict [event_data] built for every event of the report. *)
Record event_data : Type := mk_event_data {
  ed_summary : string;
  ed_subcategory : string;
  ed_date : string;
  ed_start : string;
  ed_end : string;
  ed_duration : Q;
  ed_duration_str : duration_label;
  ed_category : string;
  ed_color : option string
}.

(** The dicts and lists filled by the loop over the events; a dict is the
    list of its items in insertion order. *)
Record tallies : Type := mk_tallies {
  event_durations : list (string * Q);
  event_count : list (string * nat);
  categorized_events : list (string * list event_data);
  uncategorized_events : list event_data;
  category_durations : list (string * Q)
}.

Definition empty_tallies : tallies := mk_tallies [] [] [] [] [].

(** [d[key] = f(d[key])] on a [defaultdict] whose missing values are
    [default]. *)
Fixpoint dict_update {V : Type} (default : V) (f : V -> V) (key : string)
    (d : list (string * V)) : list (string * V) :=
  match d with
  | [] => [(key, f default)]
  | (k, v) :: rest =>
      if String.eqb k key then (k, f v) :: rest
      else (k, v) :: dict_update default f key rest
  end.

(** [d[key]] on a [defaultdict]. *)
Fixpoint dict_lookup {V : Type} (default : V) (key : string)
    (d : list (string * V)) : V :=
  match d with
  | [] => default
  | (k, v) :: rest =>
      if String.eqb k key then v else dict_lookup default key rest
  end.

(** [int(x)]: rounding towards zero. *)
Definition int_of_Q (x : Q) : Z := Z.quot (Qnum x) (Zpos (Qden x)).

(** The stable sort of Python, where [before x y] tells that [x] can stay in
    front of a later [y].  With [reverse=True] elements of equal key keep
    their order too. *)
Fixpoint insert_sorted {A : Type} (before : A -> A -> bool) (x : A)
    (l : list A) : list A :=
  match l with
  | [] => [x]
  | y :: rest =>
      if before x y then x :: l else y :: insert_sorted before x rest
  end.

Definition stable_sort {A : Type} (before : A -> A -> bool) (l : list A)
    : list A :=
  fold_right (insert_sorted before) [] l.

(** A printed row of the summary of recurring events. *)
Inductive total_label : Type :=
| Minutes (minutes : Z)
| Hours (hours : Q)
| Days (days : Q).

Record recurring_row : Type := mk_recurring_row {
  rr_event : string;
  rr_occurrences : nat;
  rr_total_time : total_label
}.

(** The body of the loop over the sorted items of [event_durations].  The
    source reads
<<
    if summary.count('@') > 1 or not re.match(..., summary):
        continue
            # Format duration
            ...
            print(...)
>>
    where the formatting and the [print] are indented under the [if], after
    its [continue]; nothing follows the [if] in the loop body. *)
Definition recurring_step (event_count : list (string * nat))
    (printed : list recurring_row) (item : string * Q) : list recurring_row :=
  let '(summary, total_duration) := item in
  if (1 <? Re.count_at summary)%nat || negb (Re.recurring_match summary)
  then printed
  else printed.

Record report : Type := mk_report {
  rep_all_events : list event_data;
  rep_sorted_categories : list (string * Q);
  rep_categorized_events : list (string * list event_data);
  rep_uncategorized_events : list event_data;
  rep_recurring_rows : list recurring_row;
  rep_total_events : nat
}.

Inductive report_output : Type :=
| NoEventsFound
| Printed (r : report).

Section App.

(** [datetime.datetime.fromisoformat]; [Raise ValueError] on a string it
    does not accept. *)
Variable fromisoformat : string -> result datetime.

(** [d.isoformat()] *)
Variable isoformat : datetime -> string.

Definition calculate_event_duration (self : GoogleCalendarReport)
    (event : event) : result Q :=
  match ev_start event, ev_end event with
  | Some start_, Some end_ =>
      match td_date start_, td_date end_ with
      | Some start_text, Some end_text =>
          let hours_per_day :=
            dict_get (cfg_all_day_event_hours (app_config self)) 8%Q in
          start_date <- fromisoformat start_text ;;
          end_date <- fromisoformat end_text ;;
          delta <- Calendar.sub end_date start_date ;;
          Ok (inject_Z (Calendar.days delta) * hours_per_day)%Q
      | _, _ =>
          match td_dateTime start_, td_dateTime end_ with
          | Some start_text, Some end_text =>
              start_time <- fromisoformat (replace_Z start_text) ;;
              end_time <- fromisoformat (replace_Z end_text) ;;
              duration <- Calendar.sub end_time start_time ;;
              Ok (Calendar.total_seconds duration / 3600)%Q
          | _, _ => Ok 0%Q
          end
      end
  | _, _ => Ok 0%Q
  end.

(** [event.get(key, {}).get('dateTime', '')] *)
Definition get_dateTime (field : option time_dict) : string :=
  match field with
  | Some d => dict_get (td_dateTime d) ""
  | None => ""
  end.

(** The category column the store computes from a summary. *)
Definition stored_category (summary : string) : string :=
  match Re.stored_category_match summary with
  | Some letters => letters
  | None => "Other"
  end.

(** The body of the store loop for one event: the row to write, or [None]
    when the event is passed over by [continue]. *)
Definition row_of_event (self : GoogleCalendarReport) (period_key : string)
    (event : event)
    : result (option event_row) :=
  match ev_id event, ev_summary event with
  | Some event_id, Some summary =>
      let category := stored_category summary in
      start_ <- subscript "start" (ev_start event) ;;
      span <- match td_date start_ with
              | Some start_time =>
                  end_ <- subscript "end" (ev_end event) ;;
                  match td_date end_ with
                  | Some end_time => Ok (1%Z, start_time, end_time)
                  | None => Ok (0%Z, get_dateTime (ev_start event),
                                get_dateTime (ev_end event))
                  end
              | None => Ok (0%Z, get_dateTime (ev_start event),
                            get_dateTime (ev_end event))
              end ;;
      let '(is_all_day, start_time, end_time) := span in
      duration <- calculate_event_duration self event ;;
      let color := dict_get (ev_colorId event) (Some "") in
      Ok (Some (mk_event_row event_id summary start_time end_time duration
                  is_all_day category period_key color))
  | _, _ => Ok None
  end.

Section Store.
Variable faults : nat -> bool.

Fixpoint store_events (self : GoogleCalendarReport) (period_key : string)
    (events : list event) : sql unit :=
  match events with
  | [] => sql_ret tt
  | event :: others =>
      row <~ sql_lift (row_of_event self period_key event) ;;
      _ <~ match row with
           | Some r => execute_write faults (insert_event r)
           | None => sql_ret tt
           end ;;
      store_events self period_key others
  end.

(** The [try] block of [store_period_in_database]. *)
Definition store_transaction (self : GoogleCalendarReport)
    (period_type : string)
    (start_date end_date : datetime) (events : list event) : sql unit :=
  let period_key := get_period_key period_type start_date end_date in
  _ <~ begin_transaction faults ;;
  _ <~ execute_write faults
         (insert_period (mk_period_row period_key period_type
                           (isoformat start_date) (isoformat end_date) 1)) ;;
  _ <~ store_events self period_key events ;;
  commit faults.

Definition store_period_in_database (self : GoogleCalendarReport)
    (period_type : string)
    (start_date end_date : datetime) (events : list event)
    : bool * GoogleCalendarReport :=
  match db_conn self with
  | None => (false, self)
  | Some c =>
      match store_transaction self period_type start_date end_date events
              (O, c) with
      | (Ok _, (_, c')) => (true, with_conn self c')
      | (Raise _, (_, c')) => (false, with_conn self (rollback c'))
      end
  end.

End Store.

(** [faults_check] and [faults_load] are the faults met by the statement of
    [is_period_in_database] and of [get_events_from_database]. *)
Definition get_events (faults_check faults_load : nat -> bool)
    (self : GoogleCalendarReport)
    (start_date end_date : datetime) (period_type : string)
    : result (list event) :=
  let period_key := get_period_key period_type start_date end_date in
  if is_period_in_database faults_check self period_key
  then Ok (get_events_from_database faults_load self period_key)
  else
    match app_service self with
    | None => Ok []
    | Some service =>
        let time_min := isoformat start_date in
        let time_max := isoformat end_date in
        let calendars :=
          dict_get (cfg_calendars (app_config self)) ["primary"] in
        match fetch_calendars service time_min time_max calendars [] with
        | Ok events_result => Ok events_result
        | Raise HttpError => Ok []
        | Raise e => Raise e
        end
    end.

(** *** The report

    [generate_report] prints; the embedding returns the values it prints
    from: the chronological listing, the categories by total duration,
    the uncategorised events and the rows of the summary of recurring
    events.  The time summary table and the grouping by subcategory are
    left out. *)

Definition process_event (self : GoogleCalendarReport) (acc : tallies)
    (event : event)
    : result tallies :=
  match ev_summary event with
  | None => Ok acc
  | Some summary =>
      let '(category, subcategory) :=
        match Re.category_match summary with
        | Some groups => groups
        | None => ("Other", summary)
        end in
      start_ <- subscript "start" (ev_start event) ;;
      shown <-
        match td_date start_ with
        | Some start_date_str =>
            end_ <- subscript "end" (ev_end event) ;;
            end_date_str <- subscript "date" (td_date end_) ;;
            start_day <- fromisoformat start_date_str ;;
            end_day <- fromisoformat end_date_str ;;
            delta <- Calendar.sub end_day start_day ;;
            let days := Calendar.days delta in
            let hours_per_day :=
              dict_get (cfg_all_day_event_hours (app_config self)) 8%Q in
            Ok (start_date_str, "All day", "",
                (inject_Z days * hours_per_day)%Q, DayCount days)
        | None =>
            start_text <- subscript "dateTime" (td_dateTime start_) ;;
            start_dt <- fromisoformat (replace_Z start_text) ;;
            end_ <- subscript "end" (ev_end event) ;;
            end_text <- subscript "dateTime" (td_dateTime end_) ;;
            end_dt <- fromisoformat (replace_Z end_text) ;;
            delta <- Calendar.sub end_dt start_dt ;;
            let duration := (Calendar.total_seconds delta / 3600)%Q in
            Ok (Calendar.strftime_Y_m_d start_dt, Calendar.strftime_HM start_dt,
                Calendar.strftime_HM end_dt, duration,
                if Qle_bool 1 duration then HourCount duration
                else MinuteCount (int_of_Q (duration * 60)%Q))
        end ;;
      let '(start_date_str, start_time_str, end_time_str, duration,
            duration_str) := shown in
      let event_data :=
        mk_event_data summary subcategory start_date_str start_time_str
          end_time_str duration duration_str category
          (dict_get (ev_colorId event) (Some "")) in
      Ok (mk_tallies
            (dict_update 0%Q (fun total => (total + duration)%Q) summary
               (event_durations acc))
            (dict_update O S summary (event_count acc))
            (if String.eqb category "Other" then categorized_events acc
             else dict_update [] (fun l => l ++ [event_data]) category
                    (categorized_events acc))
            (if String.eqb category "Other"
             then uncategorized_events acc ++ [event_data]
             else uncategorized_events acc)
            (dict_update 0%Q (fun total => (total + duration)%Q) category
               (category_durations acc)))
  end.

(** The loop over the events; an exception of one event ends it. *)
Fixpoint process_events (self : GoogleCalendarReport) (acc : tallies)
    (events : list event)
    : result tallies :=
  match events with
  | [] => Ok acc
  | event :: others =>
      acc' <- process_event self acc event ;;
      process_events self acc' others
  end.

Definition generate_report (self : GoogleCalendarReport) (events : list event)
    (start_date end_date : datetime) (period_type : string)
    : result report_output :=
  match events with
  | [] => Ok NoEventsFound
  | _ =>
      acc <- process_events self empty_tallies events ;;
      let all_events :=
        stable_sort (fun x y => String.leb (ed_date x) (ed_date y))
          (flat_map snd (categorized_events acc) ++ uncategorized_events acc) in
      let sorted_categories :=
        stable_sort (fun x y => Qle_bool (snd y) (snd x))
          (map (fun entry =>
                  (fst entry,
                   dict_lookup 0%Q (fst entry) (category_durations acc)))
               (categorized_events acc)) in
      let uncategorized :=
        stable_sort (fun x y => Qle_bool (ed_duration y) (ed_duration x))
          (uncategorized_events acc) in
      let recurring :=
        fold_left (recurring_step (event_count acc))
          (stable_sort (fun x y => Qle_bool (snd y) (snd x))
             (event_durations acc)) [] in
      Ok (Printed (mk_report all_events sorted_categories
                     (categorized_events acc) uncategorized recurring
                     (List.length events)))
  end.

(** *** The menu of [main], after [get_date_range] *)

(** Choices 1 to 16: fetch the events and print the report. *)
Definition report_choice (faults_check faults_load : nat -> bool)
    (self : GoogleCalendarReport) (period : string)
    (start_date end_date : datetime)
    : result report_output * GoogleCalendarReport :=
  (events <- get_events faults_check faults_load self start_date end_date
               period ;;
   generate_report self events start_date end_date period,
   self).

(** Choice 17: fetch the events and store the period. *)
Definition store_choice (faults_check faults_load faults_store : nat -> bool)
    (self : GoogleCalendarReport) (period : string)
    (start_date end_date : datetime)
    : result bool * GoogleCalendarReport :=
  match get_events faults_check faults_load self start_date end_date
          period with
  | Ok events =>
      let '(stored, self') :=
        store_period_in_database faults_store self period start_date
          end_date events in
      (Ok stored, self')
  | Raise e => (Raise e, self)
  end.

(** *** Notions used to state the properties *)

(** The rows that the store loop writes for a list of events, in order. *)
Fixpoint rows_of_events (self : GoogleCalendarReport) (period_key : string)
    (events : list event) : result (list event_row) :=
  match events with
  | [] => Ok []
  | event :: others =>
      row <- row_of_event self period_key event ;;
      rest <- rows_of_events self period_key others ;;
      Ok (match row with
          | Some r => r :: rest
          | None => rest
          end)
  end.

End App.

(** An event the store writes: it has an id and a summary. *)
Definition storable (event : event) : bool :=
  has_key (ev_id event) && has_key (ev_summary event).

(** [id] is the id of a storable event of the list. *)
Definition stored_id (events : list event) (id : option string) : bool :=
  existsb (fun event =>
             storable event
             && match ev_id event, id with
                | Some a, Some b => String.eqb a b
                | _, _ => false
                end) events.

(** No transaction is open on the connection, as between two calls. *)
Definition idle (self : GoogleCalendarReport) : Prop :=
  match db_conn self with
  | Some c => pending c = None
  | None => True
  end.

(** The primary key of the events table: no two rows share an id. *)
Definition unique_ids (self : GoogleCalendarReport) : Prop :=
  match db_conn self with
  | Some c => NoDup (map r_id (events_table (committed c)))
  | None => True
  end.

(** The committed rows of the events table. *)
Definition stored_rows (self : GoogleCalendarReport) : list event_row :=
  match db_conn self with
  | Some c => events_table (committed c)
  | None => []
  end.

(** The calendar dates of two values agree. *)
Definition same_day (a b : datetime) : Prop :=
  dt_year a = dt_year b /\ dt_month a = dt_month b /\ dt_day a = dt_day b.

(** An event gives both ['start']['date'] and ['end']['date']. *)
Definition all_day_event (event : event) (start_text end_text : string)
    : Prop :=
  exists start_ end_,
    ev_start event = Some start_ /\ ev_end event = Some end_ /\
    td_date start_ = Some start_text /\ td_date end_ = Some end_text.

(** An event that is not all-day gives both ['start']['dateTime'] and
    ['end']['dateTime']. *)
Definition timed_event (event : event) (start_text end_text : string) : Prop :=
  exists start_ end_,
    ev_start event = Some start_ /\ ev_end event = Some end_ /\
    (td_date start_ = None \/ td_date end_ = None) /\
    td_dateTime start_ = Some start_text /\ td_dateTime end_ = Some end_text.

(** An event gives neither the two dates nor the two instants. *)
Definition no_time_span (event : event) : Prop :=
  (forall a b, ~ all_day_event event a b)
  /\ (forall a b, ~ timed_event event a b).

(** An event read from the store is what was written of [written]: its
    id, its summary, the duration computed for it and its time span, all-day
    with the same dates or timed with the same instants. *)
Definition read_back_of (fromisoformat : string -> result datetime)
    (self : GoogleCalendarReport) (written stored : event) : Prop :=
  ev_id stored = ev_id written
  /\ ev_summary stored = ev_summary written
  /\ (exists duration,
         calculate_event_duration fromisoformat self written = Ok duration
         /\ ev_duration stored = Some duration)
  /\ forall start_text end_text,
       (all_day_event written start_text end_text ->
        all_day_event stored start_text end_text)
       /\ (timed_event written start_text end_text ->
           timed_event stored start_text end_text).

(** The summary of recurring events as section 4.5, item 7 of the
    specification words it: the distinct titles with at most one [@] that
    match the pattern, by total duration descending, each with its number of
    occurrences and a duration label (minutes below one hour, hours below 24,
    days from there on). *)
Definition spec_total_label (total_duration : Q) : total_label :=
  if negb (Qle_bool 1 total_duration)
  then Minutes (int_of_Q (total_duration * 60)%Q)
  else if negb (Qle_bool 24 total_duration) then Hours total_duration
  else Days (total_duration / 24)%Q.

Definition spec_recurring_summary (acc : tallies) : list recurring_row :=
  map (fun item =>
         mk_recurring_row (fst item)
           (dict_lookup O (fst item) (event_count acc))
           (spec_total_label (snd item)))
      (filter (fun item =>
                 (Re.count_at (fst item) <=? 1)%nat
                 && Re.recurring_match (fst item))
              (stable_sort (fun x y => Qle_bool (snd y) (snd x))
                 (event_durations acc))).

(** ** A parser and a printer of ISO 8601 text

    They stand for [fromisoformat] and [isoformat] where the development is
    run on examples, and read and write [YYYY-MM-DD] and
    [YYYY-MM-DDTHH:MM:SS] with an optional [+HH:MM] or [-HH:MM]. *)

Module Iso.
Local Open Scope Z_scope.

Definition digit_value (c : ascii) : option Z :=
  let n := nat_of_ascii c in
  if ((48 <=? n) && (n <=? 57))%nat then Some (Z.of_nat (n - 48)) else None.

Definition two_digits (a b : ascii) : option Z :=
  match digit_value a, digit_value b with
  | Some x, Some y => Some (10 * x + y)
  | _, _ => None
  end.

Definition days_in_month (y m : Z) : Z :=
  if m =? 2 then (if Calendar.is_leap y then 29 else 28)
  else if (m =? 4) || (m =? 6) || (m =? 9) || (m =? 11) then 30 else 31.

Definition parse_offset (s : string) : option (option Z) :=
  match s with
  | EmptyString => Some None
  | String sign (String h1 (String h2 (String ":" (String m1
      (String m2 EmptyString))))) =>
      match two_digits h1 h2, two_digits m1 m2 with
      | Some h, Some m =>
          let length := (h * 3600 + m * 60) * 1000000 in
          if Ascii.eqb sign "+" then Some (Some length)
          else if Ascii.eqb sign "-" then Some (Some (- length))
          else None
      | _, _ => None
      end
  | _ => None
  end.

Definition parse_time (s : string) : option (Z * Z * Z * option Z) :=
  match s with
  | EmptyString => Some (0, 0, 0, None)
  | String "T" (String h1 (String h2 (String ":" (String m1 (String m2
      (String ":" (String s1 (String s2 zone)))))))) =>
      match two_digits h1 h2, two_digits m1 m2, two_digits s1 s2,
            parse_offset zone with
      | Some h, Some m, Some sec, Some offset =>
          if (h <? 24) && (m <? 60) && (sec <? 60)
          then Some (h, m, sec, offset) else None
      | _, _, _, _ => None
      end
  | _ => None
  end.

Definition parse (s : string) : result datetime :=
  match s with
  | String y1 (String y2 (String y3 (String y4 (String "-" (String m1
      (String m2 (String "-" (String d1 (String d2 time))))))))) =>
      match two_digits y1 y2, two_digits y3 y4, two_digits m1 m2,
            two_digits d1 d2, parse_time time with
      | Some yh, Some yl, Some m, Some d, Some (h, mi, sec, offset) =>
          let y := 100 * yh + yl in
          if (1 <=? y) && (1 <=? m) && (m <=? 12) && (1 <=? d)
             && (d <=? days_in_month y m)
          then Ok (mk_datetime y m d h mi sec 0 offset)
          else Raise ValueError
      | _, _, _, _, _ => Raise ValueError
      end
  | _ => Raise ValueError
  end.

Definition print_offset (offset : option Z) : string :=
  match offset with
  | None => EmptyString
  | Some o =>
      let minutes := Z.abs o / 60000000 in
      ((if (o <? 0)%Z then "-" else "+") ++ Calendar.pad2 (minutes / 60)%Z
       ++ ":" ++ Calendar.pad2 (minutes mod 60)%Z)%string
  end.

Definition print (d : datetime) : string :=
  (Calendar.strftime_Y_m_d d ++ "T" ++ Calendar.pad2 (dt_hour d) ++ ":"
   ++ Calendar.pad2 (dt_minute d) ++ ":" ++ Calendar.pad2 (dt_second d)
   ++ print_offset (dt_utcoffset d))%string.

End Iso.

(** ** Sample data *)

Definition sample_config : config :=
  mk_config (Some 8%Q) (Some 5%Z) (Some ["primary"]).

Definition empty_db : conn := mk_conn (mk_tables [] []) None.

Definition standup : event :=
  api_event "1" "@ENG Standup" (all_day_span "2024-01-01" "2024-01-02").

Definition lunch : event :=
  api_event "2" "Lunch"
    (timed_span "2024-01-01T12:00:00-03:00" "2024-01-01T13:00:00-03:00").

(** An event with a title and no ['start'] nor ['end']. *)
Definition team_sync_without_times : event :=
  mk_event (Some "3") (Some "Team sync") None None None None None.

Definition underscore_tagged : event :=
  api_event "4" "@ENG_Fix bug"
    (timed_span "2024-01-02T09:00:00-03:00" "2024-01-02T11:30:00-03:00").

Definition dual_tagged : event :=
  api_event "5" "@ENG @OPS dual tag"
    (timed_span "2024-01-03T09:00:00-03:00" "2024-01-03T10:00:00-03:00").

(** A service that answers every calendar with one page of [items]. *)
Definition one_page_service (items : list event) : calendar_service :=
  fun _ _ _ => LastPage (Some items).

(** A service whose calls raise [HttpError]. *)
Definition failing_service : calendar_service :=
  fun _ _ _ => Failure HttpError.

Definition sample_app (service : calendar_service) : GoogleCalendarReport :=
  mk_app sample_config (Some service) (Some empty_db).

Definition sao_paulo : option Z := Some (-10800000000)%Z.

Definition january_first : datetime :=
  mk_datetime 2024 1 1 0 0 0 0 sao_paulo.
Definition january_first_noon : datetime :=
  mk_datetime 2024 1 1 12 0 0 0 sao_paulo.
Definition january_last : datetime :=
  mk_datetime 2024 1 31 23 59 59 0 sao_paulo.

(** ** Tables after several writes *)

(** [rows] written one after the other by [INSERT OR REPLACE]. *)
Definition write_all {R : Type} (pk : R -> string) (rows table : list R)
    : list R :=
  fold_left (fun t r => insert_or_replace pk r t) rows table.

(** The primary key of [x] is the one of a row of [rows]. *)
Definition key_in {R : Type} (pk : R -> string) (rows : list R) (x : R)
    : bool :=
  existsb (fun r => String.eqb (pk x) (pk r)) rows.

(** The tables once the period row [p] and the event rows [rows] are in. *)
Definition stored_tables (p : period_row) (rows : list event_row) (t : tables)
    : tables :=
  mk_tables (write_all r_id rows (events_table t))
            (insert_or_replace p_period_key p (periods_table t)).

(** The period row that [store_period_in_database] writes. *)
Definition period_row_of (isoformat : datetime -> string) (period_type : string)
    (start_date end_date : datetime) : period_row :=
  mk_period_row (get_period_key period_type start_date end_date) period_type
    (isoformat start_date) (isoformat end_date) 1.

(** A period row of this key exists and is complete. *)
Definition complete_in (t : tables) (period_key : string) : bool :=
  match find (fun p => String.eqb (p_period_key p) period_key)
             (periods_table t) with
  | Some p => Z.eqb (p_is_complete p) 1
  | None => false
  end.

(** The events read from the rows of a period key. *)
Definition events_in (t : tables) (period_key : string) : list event :=
  map event_of_row
      (filter (fun r => String.eqb (r_period_key r) period_key)
              (events_table t)).

(** The store after the events of January were stored without faults. *)
Definition january_stored : GoogleCalendarReport :=
  snd (store_period_in_database Iso.parse Iso.print no_faults
         (sample_app failing_service) "month_1" january_first january_last
         [standup; lunch]).

(** The store after a period without events was stored. *)
Definition empty_january_stored : GoogleCalendarReport :=
  snd (store_period_in_database Iso.parse Iso.print no_faults
         (sample_app failing_service) "month_1" january_first january_last []).

(** ** Histories of store calls *)

(** One call of [store_period_in_database]: the faults it meets and its
    arguments. *)
Record store_call : Type := mk_store_call {
  call_faults : nat -> bool;
  call_period_type : string;
  call_start_date : datetime;
  call_end_date : datetime;
  call_events : list event
}.

Definition call_key (call : store_call) : string :=
  get_period_key (call_period_type call) (call_start_date call)
    (call_end_date call).

Section Calls.
Variable fromisoformat : string -> result datetime.
Variable isoformat : datetime -> string.

Definition run_call (self : GoogleCalendarReport) (call : store_call)
    : bool * GoogleCalendarReport :=
  store_period_in_database fromisoformat isoformat (call_faults call) self
    (call_period_type call) (call_start_date call) (call_end_date call)
    (call_events call).

(** The object after the calls, made one after the other. *)
Fixpoint run_calls (self : GoogleCalendarReport) (calls : list store_call)
    : GoogleCalendarReport :=
  match calls with
  | [] => self
  | call :: later => run_calls (snd (run_call self call)) later
  end.

(** The key of the most recent call that succeeded and stored an event of
    this id; [sofar] when there is none. *)
Fixpoint last_key (self : GoogleCalendarReport) (calls : list store_call)
    (id : string) (sofar : option string) : option string :=
  match calls with
  | [] => sofar
  | call :: later =>
      last_key (snd (run_call self call)) later id
        (if fst (run_call self call) && stored_id (call_events call) (Some id)
         then Some (call_key call) else sofar)
  end.

End Calls.

(** * Further parts of the class

    The rest of [generate_report] (time summary, grouping by subcategory)
    and [get_date_range], with the notions their properties are stated
    in. *)

From Stdlib Require Import Sorted Permutation Qround.

(** ** Totals and listings of the report *)

(** [sum(d.values())] *)
Definition sum_values (d : list (string * Q)) : Q :=
  fold_left (fun total item => (total + snd item)%Q) d 0%Q.

(** The sum of the durations of a list of [event_data]. *)
Definition durations_total (l : list event_data) : Q :=
  fold_right (fun d total => (ed_duration d + total)%Q) 0%Q l.

(** The events the report lists: those of every category, then the
    uncategorised ones. *)
Definition listed (acc : tallies) : list event_data :=
  flat_map snd (categorized_events acc) ++ uncategorized_events acc.

(** The update of the tallies at the end of the loop body, for the
    [event_data] of one event. *)
Definition record_event (d : event_data) (acc : tallies) : tallies :=
  mk_tallies
    (dict_update 0%Q (fun total => (total + ed_duration d)%Q) (ed_summary d)
       (event_durations acc))
    (dict_update O S (ed_summary d) (event_count acc))
    (if String.eqb (ed_category d) "Other" then categorized_events acc
     else dict_update [] (fun l => l ++ [d]) (ed_category d)
            (categorized_events acc))
    (if String.eqb (ed_category d) "Other"
     then uncategorized_events acc ++ [d]
     else uncategorized_events acc)
    (dict_update 0%Q (fun total => (total + ed_duration d)%Q) (ed_category d)
       (category_durations acc)).

(** The category and subcategory the report gives a summary. *)
Definition categorize (summary : string) : string * string :=
  match Re.category_match summary with
  | Some groups => groups
  | None => ("Other", summary)
  end.

Definition has_summary (ev : event) : bool := has_key (ev_summary ev).

(** The tallies after the loop body ran for each [event_data] in turn. *)
Definition record_all (ds : list event_data) (acc : tallies) : tallies :=
  fold_left (fun a d => record_event d a) ds acc.

(** The summaries of the events that have one, in order. *)
Definition titles (events : list event) : list string :=
  flat_map (fun ev => match ev_summary ev with
                      | Some summary => [summary]
                      | None => []
                      end) events.

(** The category and subcategory of an [event_data] are those of its
    summary. *)
Definition categorized_by_rule (d : event_data) : Prop :=
  categorize (ed_summary d) = (ed_category d, ed_subcategory d).

(** The running total of the durations of a list of rows, as the loop
    keeps it in an entry of a [defaultdict(float)]: from 0.0, one row after
    the other. *)
Definition accumulated (l : list event_data) : Q :=
  fold_left (fun total d => (total + ed_duration d)%Q) l 0%Q.

Definition in_category (category : string) (d : event_data) : bool :=
  String.eqb (ed_category d) category.

Definition in_subcategory (subcategory : string) (d : event_data) : bool :=
  String.eqb (ed_subcategory d) subcategory.

(** The list of every category holds events of that category, is not empty
    and adds up to the total of the category; the uncategorised events add
    up to the total of ["Other"]. *)
Definition headers_match (a : tallies) : Prop :=
  NoDup (map fst (categorized_events a))
  /\ (forall c l,
         In (c, l) (categorized_events a) ->
         c <> "Other" /\ l <> []
         /\ (forall d, In d l -> ed_category d = c)
         /\ (dict_lookup 0 c (category_durations a) == durations_total l)%Q)
  /\ (forall c,
         c <> "Other" -> ~ In c (map fst (categorized_events a)) ->
         (dict_lookup 0 c (category_durations a) == 0)%Q)
  /\ (dict_lookup 0 "Other" (category_durations a)
      == durations_total (uncategorized_events a))%Q
  /\ (forall d, In d (uncategorized_events a) -> ed_category d = "Other").

Definition has_title (title : string) (d : event_data) : bool :=
  String.eqb (ed_summary d) title.

(** The two dicts by title have the same keys, once each; a title counts
    its listed events and totals their durations. *)
Definition titles_match (a : tallies) : Prop :=
  map fst (event_count a) = map fst (event_durations a)
  /\ NoDup (map fst (event_durations a))
  /\ (forall title,
         dict_lookup O title (event_count a)
         = count_occ string_dec (map ed_summary (listed a)) title)
  /\ (forall title,
         (dict_lookup 0 title (event_durations a)
          == durations_total (filter (has_title title) (listed a)))%Q)
  /\ (forall title,
         In title (map fst (event_durations a))
         <-> In title (map ed_summary (listed a))).

(** The order of the chronological listing: by the text of the date. *)
Definition by_date (x y : event_data) : bool :=
  String.leb (ed_date x) (ed_date y).

(** The order of the categories: by total, the largest first. *)
Definition by_total (x y : string * Q) : bool := Qle_bool (snd y) (snd x).

(** The order of the uncategorised events: the longest first. *)
Definition by_duration (x y : event_data) : bool :=
  Qle_bool (ed_duration y) (ed_duration x).

Section Reportable.
Variable fromisoformat : string -> result datetime.

(** The two texts of an event parse and the two values can be subtracted. *)
Definition span_parses (start_text end_text : string) : Prop :=
  exists start_value end_value delta,
    fromisoformat start_text = Ok start_value
    /\ fromisoformat end_text = Ok end_value
    /\ Calendar.sub end_value start_value = Ok delta.

(** What the loop of the report needs of an event with a summary: a
    ['start'] and an ['end']; with a date under ['start'], a date under
    ['end']; without one, an instant under both; texts that parse. *)
Definition reportable (ev : event) : Prop :=
  exists start_ end_,
    ev_start ev = Some start_ /\ ev_end ev = Some end_
    /\ match td_date start_ with
       | Some start_text =>
           exists end_text,
             td_date end_ = Some end_text /\ span_parses start_text end_text
       | None =>
           exists start_text end_text,
             td_dateTime start_ = Some start_text
             /\ td_dateTime end_ = Some end_text
             /\ span_parses (replace_Z start_text) (replace_Z end_text)
       end.

End Reportable.

(** ** The events of a category by subcategory *)

(** The loop that fills [subcategory_groups] and [subcategory_durations]
    from the events of one category. *)
Definition group_by_subcategory (events_list : list event_data)
    : list (string * list event_data) * list (string * Q) :=
  fold_left
    (fun state event =>
       (dict_update [] (fun l => l ++ [event]) (ed_subcategory event)
          (fst state),
        dict_update 0%Q (fun total => (total + ed_duration event)%Q)
          (ed_subcategory event) (snd state)))
    events_list ([], []).

(** What is printed for one subcategory: its header, with the total and
    the number of occurrences, and its events by date. *)
Record subcategory_section : Type := mk_subcategory_section {
  sub_name : string;
  sub_total : Q;
  sub_occurrences : nat;
  sub_events : list event_data
}.

(** The subcategories of a category, by total, the largest first. *)
Definition subcategory_sections (events_list : list event_data)
    : list subcategory_section :=
  let subcategory_groups := fst (group_by_subcategory events_list) in
  let subcategory_durations := snd (group_by_subcategory events_list) in
  map (fun item =>
         mk_subcategory_section (fst item)
           (dict_lookup 0%Q (fst item) subcategory_durations)
           (List.length (snd item))
           (stable_sort by_date (snd item)))
      (stable_sort
         (fun x y =>
            Qle_bool (dict_lookup 0%Q (fst y) subcategory_durations)
                     (dict_lookup 0%Q (fst x) subcategory_durations))
         subcategory_groups).

(** The groups hold the events seen so far, each under its subcategory and
    in the order they came, and the total of a subcategory is the running
    total of its group. *)
Definition groups_match (seen : list event_data)
    (state : list (string * list event_data) * list (string * Q)) : Prop :=
  NoDup (map fst (fst state))
  /\ Permutation (flat_map snd (fst state)) seen
  /\ (forall k l,
         In (k, l) (fst state) ->
         l <> [] /\ (forall d, In d l -> ed_subcategory d = k)
         /\ l = filter (in_subcategory k) seen
         /\ dict_lookup 0%Q k (snd state) = accumulated l)
  /\ (forall k, ~ In k (map fst (fst state)) ->
                filter (in_subcategory k) seen = []
                /\ dict_lookup 0%Q k (snd state) = 0%Q).

(** ** The time summary *)

(** [round(x)] to an integer: to the nearest, and to the even one of two
    that are as near. *)
Definition round_half_even (x : Q) : Z :=
  let low := Qfloor x in
  match (x - inject_Z low ?= 1 # 2)%Q with
  | Lt => low
  | Gt => (low + 1)%Z
  | Eq => if Z.even low then low else (low + 1)%Z
  end.

Record time_summary : Type := mk_time_summary {
  ts_total_hours : Q;
  ts_total_days : Z;
  ts_working_days : Z;
  ts_avg_hours_per_working_day : Q
}.

(** The values of the time summary table of [generate_report]. *)
Definition summarize_time (self : GoogleCalendarReport) (acc : tallies)
    (start_date end_date : datetime) : result time_summary :=
  delta <- Calendar.sub end_date start_date ;;
  let total_days := (Calendar.days delta + 1)%Z in
  let working_days_per_week :=
    dict_get (cfg_working_days_per_week (app_config self)) 5%Z in
  let weeks := (inject_Z total_days / 7)%Q in
  let working_days :=
    round_half_even (weeks * inject_Z working_days_per_week)%Q in
  let total_hours := sum_values (event_durations acc) in
  let avg_hours_per_working_day :=
    if (0 <? working_days)%Z then (total_hours / inject_Z working_days)%Q
    else 0%Q in
  Ok (mk_time_summary total_hours total_days working_days
        avg_hours_per_working_day).

Section ReportWithTimeSummary.
Variable fromisoformat : string -> result datetime.

(** [generate_report] with the time summary of its lines 665 to 673.  After
    the loop over the events the two ends of the range are subtracted, which
    raises [TypeError] when one is naive and the other aware; nothing else
    of the method raises. *)
Definition generate_report_with_time_summary (self : GoogleCalendarReport)
    (events : list event) (start_date end_date : datetime)
    (period_type : string) : result (report_output * option time_summary) :=
  match events with
  | [] => Ok (NoEventsFound, None)
  | _ =>
      acc <- process_events fromisoformat self empty_tallies events ;;
      summary <- summarize_time self acc start_date end_date ;;
      output <- generate_report fromisoformat self events start_date end_date
                  period_type ;;
      Ok (output, Some summary)
  end.

End ReportWithTimeSummary.

(** ** The answers of the service *)

(** The items of all the pages of an answer, when no call fails. *)
Fixpoint pages_items (answer : response) : option (list event) :=
  match answer with
  | LastPage items => Some (dict_get items [])
  | NextPage items next =>
      match pages_items next with
      | Some rest => Some (dict_get items [] ++ rest)
      | None => None
      end
  | Failure _ => None
  end.

(** The exception that ends the pages of an answer, when a call fails. *)
Fixpoint failure_of (answer : response) : option exn :=
  match answer with
  | LastPage _ => None
  | NextPage _ next => failure_of next
  | Failure e => Some e
  end.

(** The object with another service. *)
Definition with_service (self : GoogleCalendarReport)
    (service : option calendar_service) : GoogleCalendarReport :=
  mk_app (app_config self) service (db_conn self).

(** The fifth character of a summary, where the separator of a tag is. *)
Definition separator (summary : string) : option ascii := String.get 4 summary.

(** The keys of the calls of a history that succeeded. *)
Fixpoint stored_keys (fromisoformat : string -> result datetime)
    (isoformat : datetime -> string) (self : GoogleCalendarReport)
    (calls : list store_call) : list string :=
  match calls with
  | [] => []
  | call :: later =>
      (if fst (run_call fromisoformat isoformat self call)
       then [call_key call] else [])
      ++ stored_keys fromisoformat isoformat
           (snd (run_call fromisoformat isoformat self call)) later
  end.

(** ** Date ranges

    The arithmetic of [get_date_range]: [datetime.replace], the
    [datetime] constructor and the two [relativedelta] steps it uses, one
    month and one day.  A year outside 1 to 9999 is a [ValueError] of the
    constructor and of [replace], and an [OverflowError] of the addition of
    days. *)

Inductive outcome (A : Type) : Type :=
| Returned (a : A)
| RaisedValueError
| RaisedOverflowError
| WaitsForInput.

Arguments Returned {A} a.
Arguments RaisedValueError {A}.
Arguments RaisedOverflowError {A}.
Arguments WaitsForInput {A}.

Definition and_then {A B : Type} (m : outcome A) (k : A -> outcome B)
    : outcome B :=
  match m with
  | Returned a => k a
  | RaisedValueError => RaisedValueError
  | RaisedOverflowError => RaisedOverflowError
  | WaitsForInput => WaitsForInput
  end.

Notation "x <-- m ;; k" := (and_then m (fun x => k))
  (at level 61, m at next level, right associativity).

Module Dates.
Local Open Scope Z_scope.

Definition days_in_month (y m : Z) : Z :=
  if m =? 2 then (if Calendar.is_leap y then 29 else 28)
  else if (m =? 4) || (m =? 6) || (m =? 9) || (m =? 11) then 30 else 31.

Definition year_in_range (y : Z) : bool := (1 <=? y) && (y <=? 9999).

(** The fields of a value are those of a date and a time of day. *)
Definition valid (d : datetime) : Prop :=
  1 <= dt_year d <= 9999 /\ 1 <= dt_month d <= 12
  /\ 1 <= dt_day d <= days_in_month (dt_year d) (dt_month d)
  /\ 0 <= dt_hour d < 24 /\ 0 <= dt_minute d < 60 /\ 0 <= dt_second d < 60
  /\ 0 <= dt_microsecond d < 1000000.

(** [d.replace(day=1)] *)
Definition first_of_month (d : datetime) : datetime :=
  mk_datetime (dt_year d) (dt_month d) 1 (dt_hour d) (dt_minute d)
    (dt_second d) (dt_microsecond d) (dt_utcoffset d).

(** [d.replace(hour=h, minute=m, second=s)] *)
Definition at_time (h m s : Z) (d : datetime) : datetime :=
  mk_datetime (dt_year d) (dt_month d) (dt_day d) h m s (dt_microsecond d)
    (dt_utcoffset d).

(** [d.replace(year=y, month=m, day=day)], as [relativedelta] calls it. *)
Definition on_date (y m day : Z) (d : datetime) : outcome datetime :=
  if year_in_range y
  then Returned (mk_datetime y m day (dt_hour d) (dt_minute d) (dt_second d)
                   (dt_microsecond d) (dt_utcoffset d))
  else RaisedValueError.

(** [d + relativedelta(months=months)] for one month more or less: the
    month moves, the year with it, and the day is cut to the month. *)
Definition add_months (months : Z) (d : datetime) : outcome datetime :=
  let month := dt_month d + months in
  let year_month :=
    if 12 <? month then (dt_year d + 1, month - 12)
    else if month <? 1 then (dt_year d - 1, month + 12)
    else (dt_year d, month) in
  let day := Z.min (days_in_month (fst year_month) (snd year_month))
                   (dt_day d) in
  on_date (fst year_month) (snd year_month) day d.

(** [d - relativedelta(days=1)]: the day before, at the same time. *)
Definition minus_one_day (d : datetime) : outcome datetime :=
  let day_before :=
    if 1 <? dt_day d then (dt_year d, dt_month d, dt_day d - 1)
    else if 1 <? dt_month d
         then (dt_year d, dt_month d - 1,
               days_in_month (dt_year d) (dt_month d - 1))
         else (dt_year d - 1, 12, 31) in
  let '(y, m, day) := day_before in
  if year_in_range y
  then Returned (mk_datetime y m day (dt_hour d) (dt_minute d) (dt_second d)
                   (dt_microsecond d) (dt_utcoffset d))
  else RaisedOverflowError.

(** [a < b]: naive values are compared as wall-clock readings, aware
    values as instants, and mixing them is a TypeError. *)
Definition before (a b : datetime) : result bool :=
  match dt_utcoffset a, dt_utcoffset b with
  | None, None => Ok (Calendar.wall_clock a <? Calendar.wall_clock b)
  | Some oa, Some ob => Ok (Calendar.instant a oa <? Calendar.instant b ob)
  | _, _ => Raise TypeError
  end.

End Dates.

(** [s.split(sep)] *)
Fixpoint split_on (sep : ascii) (s : string) : list string :=
  match s with
  | EmptyString => [EmptyString]
  | String c rest =>
      if Ascii.eqb c sep then EmptyString :: split_on sep rest
      else match split_on sep rest with
           | first :: others => String c first :: others
           | [] => [String c EmptyString]
           end
  end.

Section DateRange.

(** [int(text)]; [None] is its [ValueError]. *)
Variable py_int : string -> option Z.

(** [dateutil.parser.parse(text)]; [None] is any exception it raises. *)
Variable dateutil_parse : string -> option datetime.

(** The UTC offset of a value that is given [tzinfo=self.timezone], which
    for a pytz zone is one offset whatever the date. *)
Variable zone_offset : Z.

(** [datetime.datetime(y, m, d, h, mi, s, tzinfo=self.timezone)] *)
Definition zoned_datetime (y m d h mi s : Z) : outcome datetime :=
  if Dates.year_in_range y
     && (1 <=? m)%Z && (m <=? 12)%Z && (1 <=? d)%Z
     && (d <=? Dates.days_in_month y m)%Z
  then Returned (mk_datetime y m d h mi s 0 (Some zone_offset))
  else RaisedValueError.

(** [d.replace(tzinfo=self.timezone)] *)
Definition in_zone (d : datetime) : datetime :=
  mk_datetime (dt_year d) (dt_month d) (dt_day d) (dt_hour d) (dt_minute d)
    (dt_second d) (dt_microsecond d) (Some zone_offset).

(** The month of [now], which is the default of [get_date_range] and what
    its [except] clause returns. *)
Definition current_month (now : datetime) : outcome (datetime * datetime) :=
  let start_date := Dates.at_time 0 0 0 (Dates.first_of_month now) in
  next_month <-- Dates.add_months 1 start_date ;;
  last_day <-- Dates.minus_one_day next_month ;;
  Returned (start_date, Dates.at_time 23 59 59 last_day).

(** The first loop of the custom range: lines are read until one parses. *)
Fixpoint read_start_date (typed : list string)
    : outcome (datetime * list string) :=
  match typed with
  | [] => WaitsForInput
  | start_str :: rest =>
      match dateutil_parse start_str with
      | Some parsed => Returned (Dates.at_time 0 0 0 (in_zone parsed), rest)
      | None => read_start_date rest
      end
  end.

(** The second loop: lines are read until one parses to an end that is not
    before the start; an exception of the comparison is caught like one of
    the parser. *)
Fixpoint read_end_date (start_date : datetime) (typed : list string)
    : outcome datetime :=
  match typed with
  | [] => WaitsForInput
  | end_str :: rest =>
      match dateutil_parse end_str with
      | Some parsed =>
          let end_date := Dates.at_time 23 59 59 (in_zone parsed) in
          match Dates.before end_date start_date with
          | Ok false => Returned end_date
          | Ok true => read_end_date start_date rest
          | Raise _ => read_end_date start_date rest
          end
      | None => read_end_date start_date rest
      end
  end.

(** [get_date_range(period)], where [now] is what [datetime.now] returns
    and [typed] the lines typed at the prompts of the custom range. *)
Definition get_date_range (now : datetime) (typed : list string)
    (period : string) : outcome (datetime * datetime) :=
  if String.eqb period "last_month" then
    start_date <-- Dates.add_months (-1) (Dates.first_of_month now) ;;
    end_date <-- Dates.minus_one_day (Dates.first_of_month now) ;;
    Returned (start_date, Dates.at_time 23 59 59 end_date)
  else if String.eqb period "current_year" then
    start_date <-- zoned_datetime (dt_year now) 1 1 0 0 0 ;;
    end_date <-- zoned_datetime (dt_year now) 12 31 23 59 59 ;;
    Returned (start_date, end_date)
  else if String.eqb period "last_year" then
    start_date <-- zoned_datetime (dt_year now - 1) 1 1 0 0 0 ;;
    end_date <-- zoned_datetime (dt_year now - 1) 12 31 23 59 59 ;;
    Returned (start_date, end_date)
  else if String.prefix "month_" period then
    let month_num :=
      match nth_error (split_on "_" period) 1 with
      | Some text => py_int text
      | None => None
      end in
    let attempt :=
      match month_num with
      | Some month_num =>
          if (1 <=? month_num)%Z && (month_num <=? 12)%Z then
            start_date <-- zoned_datetime (dt_year now) month_num 1 0 0 0 ;;
            if (month_num =? 12)%Z then
              end_date <-- zoned_datetime (dt_year now) 12 31 23 59 59 ;;
              Returned (start_date, end_date)
            else
              next_month <-- zoned_datetime (dt_year now) (month_num + 1) 1
                               0 0 0 ;;
              end_date <-- Dates.minus_one_day next_month ;;
              Returned (start_date, Dates.at_time 23 59 59 end_date)
          else RaisedValueError
      | None => RaisedValueError
      end in
    match attempt with
    | RaisedValueError => current_month now
    | other => other
    end
  else if String.eqb period "custom" then
    read <-- read_start_date typed ;;
    end_date <-- read_end_date (fst read) (snd read) ;;
    Returned (fst read, end_date)
  else current_month now.

End DateRange.

(** Two outcomes are of the same kind, with related values when both are
    returned. *)
Definition outcomes_agree {A : Type} (R : A -> A -> Prop)
    (x y : outcome A) : Prop :=
  match x, y with
  | Returned a, Returned b => R a b
  | RaisedValueError, RaisedValueError => True
  | RaisedOverflowError, RaisedOverflowError => True
  | WaitsForInput, WaitsForInput => True
  | _, _ => False
  end.

(** Two ranges start on the same day and end on the same day. *)
Definition same_days (a b : datetime * datetime) : Prop :=
  same_day (fst a) (fst b) /\ same_day (snd a) (snd b).

(** ** Sample data of the report and of the date ranges *)

Definition sample_events : list event := [standup; lunch; dual_tagged].

Definition sample_report_run : result report_output :=
  generate_report Iso.parse (sample_app failing_service) sample_events
    january_first january_last "month_1".

Definition two_calendars_config : config :=
  mk_config (Some 8%Q) (Some 5%Z) (Some ["primary"; "work"]).

(** A service that answers the primary calendar and fails on the others. *)
Definition second_calendar_fails : calendar_service :=
  fun calendar_id _ _ =>
    if String.eqb calendar_id "primary" then LastPage (Some [standup])
    else Failure HttpError.

Definition two_calendars_app : GoogleCalendarReport :=
  mk_app two_calendars_config (Some second_calendar_fails) (Some empty_db).

Definition march_15_2024 : datetime :=
  mk_datetime 2024 3 15 10 30 0 0 sao_paulo.
Definition march_31_2024 : datetime :=
  mk_datetime 2024 3 31 23 0 0 250 sao_paulo.

(** [int] on the texts made of ASCII digits only. *)
Fixpoint decimal_from (acc : Z) (s : string) : option Z :=
  match s with
  | EmptyString => Some acc
  | String c rest =>
      match Iso.digit_value c with
      | Some d => decimal_from (10 * acc + d)%Z rest
      | None => None
      end
  end.

Definition decimal (s : string) : option Z :=
  match s with
  | EmptyString => None
  | _ => decimal_from 0 s
  end.

(** A parser of the texts that [Iso.parse] reads. *)
Definition iso_or_nothing (s : string) : option datetime :=
  match Iso.parse s with
  | Ok d => Some d
  | Raise _ => None
  end.

Definition sao_paulo_offset : Z := (-10800000000)%Z.

(** * Properties *)

(** ** Running the embedding *)

Example category_match_space :
  Re.category_match "@ENG Fix bug" = Some ("ENG", "Fix bug").
Proof. reflexivity. Qed.

Example category_match_underscore :
  Re.category_match "@ENG_Fix bug" = Some ("ENG", "Fix bug").
Proof. reflexivity. Qed.

Example category_match_plain : Re.category_match "Team sync" = None.
Proof. reflexivity. Qed.

Example toordinal_march_1_2024 : Calendar.toordinal march_1_2024 = 738946%Z.
Proof. reflexivity. Qed.

Example strftime_march_1_2024 : Calendar.strftime_Ymd march_1_2024 = "20240301".
Proof. reflexivity. Qed.

Example one_day_apart :
  Calendar.sub march_2_2024 march_1_2024 = Ok Calendar.microseconds_per_day.
Proof. reflexivity. Qed.

Example parse_instant :
  Iso.parse "2024-01-01T12:00:00-03:00"
  = Ok (mk_datetime 2024 1 1 12 0 0 0 sao_paulo).
Proof. reflexivity. Qed.

Example parse_rejects_february_30 : Iso.parse "2024-02-30" = Raise ValueError.
Proof. reflexivity. Qed.

Example print_january_last :
  Iso.print january_last = "2024-01-31T23:59:59-03:00".
Proof. reflexivity. Qed.

(** ** Period keys *)

Section PeriodKey.
Local Open Scope Z_scope.

Lemma digit_mod_10 (a b : Z) :
  Calendar.digit a = Calendar.digit b -> a mod 10 = b mod 10.
Proof.
  unfold Calendar.digit. intros H.
  apply (f_equal nat_of_ascii) in H.
  pose proof (Z.mod_pos_bound a 10 ltac:(lia)).
  pose proof (Z.mod_pos_bound b 10 ltac:(lia)).
  rewrite !nat_ascii_embedding in H by lia.
  lia.
Qed.

Lemma two_digits_inj (a b : Z) :
  0 <= a < 100 -> 0 <= b < 100 ->
  Calendar.digit (a / 10) = Calendar.digit (b / 10) ->
  Calendar.digit a = Calendar.digit b -> a = b.
Proof.
  intros Ha Hb H1 H0.
  apply digit_mod_10 in H1. apply digit_mod_10 in H0.
  Z.to_euclidean_division_equations. lia.
Qed.

Lemma four_digits_inj (a b : Z) :
  0 <= a < 10000 -> 0 <= b < 10000 ->
  Calendar.digit (a / 1000) = Calendar.digit (b / 1000) ->
  Calendar.digit (a / 100) = Calendar.digit (b / 100) ->
  Calendar.digit (a / 10) = Calendar.digit (b / 10) ->
  Calendar.digit a = Calendar.digit b -> a = b.
Proof.
  intros Ha Hb H3 H2 H1 H0.
  apply digit_mod_10 in H3, H2, H1, H0.
  Z.to_euclidean_division_equations. lia.
Qed.

Lemma append_inv_head (s a b : string) :
  (s ++ a)%string = (s ++ b)%string -> a = b.
Proof.
  induction s as [|c s IH]; simpl; intros H.
  - exact H.
  - injection H as H. auto.
Qed.

Lemma strftime_Ymd_length (d : datetime) :
  String.length (Calendar.strftime_Ymd d) = 8%nat.
Proof. reflexivity. Qed.

Lemma same_day_key (kind : string) (s1 e1 s2 e2 : datetime) :
  same_day s1 s2 -> same_day e1 e2 ->
  get_period_key kind s1 e1 = get_period_key kind s2 e2.
Proof.
  intros (Hy & Hm & Hd) (Hy' & Hm' & Hd').
  unfold get_period_key, Calendar.strftime_Ymd.
  now rewrite Hy, Hm, Hd, Hy', Hm', Hd'.
Qed.

Lemma equal_key_same_day (kind : string) (s1 e1 s2 e2 : datetime) :
  Calendar.printable s1 -> Calendar.printable e1 ->
  Calendar.printable s2 -> Calendar.printable e2 ->
  get_period_key kind s1 e1 = get_period_key kind s2 e2 ->
  same_day s1 s2 /\ same_day e1 e2.
Proof.
  unfold Calendar.printable, same_day.
  intros Hs1 He1 Hs2 He2 H.
  unfold get_period_key in H.
  apply append_inv_head in H.
  unfold Calendar.strftime_Ymd, Calendar.pad4, Calendar.pad2 in H.
  simpl in H.
  injection H as Y3 Y2 Y1 Y0 M1 M0 D1 D0 Y3' Y2' Y1' Y0' M1' M0' D1' D0'.
  repeat split;
    first [ apply four_digits_inj; (assumption || lia)
          | apply two_digits_inj; (assumption || lia) ].
Qed.

End PeriodKey.

(** C9 (counterexample).  Two different [(start, end)] pairs with the same
    period type get the same key when they differ in the time of day only:
    midnight and noon of 1 January 2024, up to the same end. *)
Lemma period_key_ignores_time_of_day :
  (january_first, january_last) <> (january_first_noon, january_last)
  /\ get_period_key "month_1" january_first january_last
     = get_period_key "month_1" january_first_noon january_last.
Proof.
  split.
  - discriminate.
  - reflexivity.
Qed.

(** C9 (amended).  The key is the period type, the eight digits of the start
    day and the eight digits of the end day, joined by underscores; for one
    period type, two [(start, end)] pairs get the same key exactly when their
    start days agree and their end days agree, whatever their times of day
    and UTC offsets. *)
Theorem period_key_identifies_the_days (kind : string)
    (s1 e1 s2 e2 : datetime) :
  Calendar.printable s1 -> Calendar.printable e1 ->
  Calendar.printable s2 -> Calendar.printable e2 ->
  get_period_key kind s1 e1
  = (kind ++ "_" ++ Calendar.strftime_Ymd s1 ++ "_"
     ++ Calendar.strftime_Ymd e1)%string
  /\ String.length (Calendar.strftime_Ymd s1) = 8%nat
  /\ String.length (Calendar.strftime_Ymd e1) = 8%nat
  /\ (get_period_key kind s1 e1 = get_period_key kind s2 e2
      <-> same_day s1 s2 /\ same_day e1 e2).
Proof.
  intros Hs1 He1 Hs2 He2.
  split; [reflexivity|].
  split; [apply strftime_Ymd_length|].
  split; [apply strftime_Ymd_length|].
  split.
  - now apply equal_key_same_day.
  - intros [Hs He]. now apply same_day_key.
Qed.

Lemma period_key_identifies_the_days_witness :
  get_period_key "month_1" january_first january_last
  = "month_1_20240101_20240131"
  /\ String.length (Calendar.strftime_Ymd january_first) = 8%nat
  /\ String.length (Calendar.strftime_Ymd january_last) = 8%nat
  /\ (get_period_key "month_1" january_first january_last
      = get_period_key "month_1" january_first_noon january_last
      <-> same_day january_first january_first_noon
          /\ same_day january_last january_last).
Proof.
  apply (period_key_identifies_the_days "month_1" january_first january_last
           january_first_noon january_last);
    unfold Calendar.printable; simpl; lia.
Defined.

(** ** Durations *)

Section Durations.
Variable fromisoformat : string -> result datetime.

Lemma one_day_of_hours (h : Q) : (inject_Z 1 * h)%Q = h.
Proof.
  destruct h as [n d]. unfold Qmult, inject_Z. simpl.
  now destruct n.
Qed.

Lemma days_of_one_day : Calendar.days Calendar.microseconds_per_day = 1%Z.
Proof. reflexivity. Qed.

Lemma negative_days (delta : timedelta) :
  (delta < 0)%Z -> (Calendar.days delta < 0)%Z.
Proof.
  intros H. unfold Calendar.days.
  apply Z.div_lt_upper_bound; [reflexivity | lia].
Qed.

Lemma negative_product (z : Z) (h : Q) :
  (z < 0)%Z -> (0 < h)%Q -> (inject_Z z * h < 0)%Q.
Proof.
  destruct h as [n d]. unfold Qlt, Qmult, inject_Z. simpl. nia.
Qed.

Lemma all_day_duration (self : GoogleCalendarReport) (event : event)
    (st en : string) (sd ed : datetime) (delta : timedelta) :
  all_day_event event st en ->
  fromisoformat st = Ok sd -> fromisoformat en = Ok ed ->
  Calendar.sub ed sd = Ok delta ->
  calculate_event_duration fromisoformat self event
  = Ok (inject_Z (Calendar.days delta)
        * dict_get (cfg_all_day_event_hours (app_config self)) 8)%Q.
Proof.
  intros (s & e & Hs & He & Hsd & Hed) Hps Hpe Hsub.
  unfold calculate_event_duration.
  now rewrite Hs, He, Hsd, Hed, Hps, Hpe; simpl; rewrite Hsub.
Qed.

Lemma timed_duration (self : GoogleCalendarReport) (event : event)
    (st en : string) (sd ed : datetime) (delta : timedelta) :
  timed_event event st en ->
  fromisoformat (replace_Z st) = Ok sd ->
  fromisoformat (replace_Z en) = Ok ed ->
  Calendar.sub ed sd = Ok delta ->
  calculate_event_duration fromisoformat self event
  = Ok (Calendar.total_seconds delta / 3600)%Q.
Proof.
  intros (s & e & Hs & He & Hnone & Hsd & Hed) Hps Hpe Hsub.
  unfold calculate_event_duration.
  rewrite Hs, He, Hsd, Hed, Hps, Hpe; simpl; rewrite Hsub.
  destruct Hnone as [H | H]; rewrite H.
  - reflexivity.
  - now destruct (td_date s).
Qed.

Lemma sub_of_instants (a b : datetime) (oa ob : Z) (delta : timedelta) :
  dt_utcoffset a = Some oa -> dt_utcoffset b = Some ob ->
  Calendar.sub a b = Ok delta ->
  delta = (Calendar.instant a oa - Calendar.instant b ob)%Z.
Proof.
  unfold Calendar.sub, Calendar.instant. intros -> -> H.
  injection H as <-. lia.
Qed.

Lemma no_time_span_duration (self : GoogleCalendarReport) (event : event) :
  no_time_span event ->
  calculate_event_duration fromisoformat self event = Ok 0%Q.
Proof.
  intros [Hall Htimed]. unfold calculate_event_duration.
  destruct (ev_start event) as [s|] eqn:Hs; [|reflexivity].
  destruct (ev_end event) as [e|] eqn:He; [|reflexivity].
  destruct (td_date s) as [sd|] eqn:Hsd.
  - destruct (td_date e) as [ed|] eqn:Hed.
    + exfalso. apply (Hall sd ed). now exists s, e.
    + destruct (td_dateTime s) as [sdt|] eqn:Hsdt; [|reflexivity].
      destruct (td_dateTime e) as [edt|] eqn:Hedt; [|reflexivity].
      exfalso. apply (Htimed sdt edt). exists s, e. auto 10.
  - destruct (td_dateTime s) as [sdt|] eqn:Hsdt; [|reflexivity].
    destruct (td_dateTime e) as [edt|] eqn:Hedt; [|reflexivity].
    exfalso. apply (Htimed sdt edt). exists s, e. auto 10.
Qed.

(** C6.  The duration of an all-day event is the whole days between its two
    dates times the configured hours of an all-day event: exactly those
    hours when the end is one day after the start, and a negative number,
    left as it is, when the end is before the start.  The duration of a
    timed event is the seconds between its two values over 3600, which for
    values with a UTC offset is the difference of their absolute instants.
    An event that gives neither dates nor instants has duration 0. *)
Theorem calculate_event_duration_spec (self : GoogleCalendarReport)
    (event : event) :
  let hours := dict_get (cfg_all_day_event_hours (app_config self)) 8%Q in
  let duration := calculate_event_duration fromisoformat self event in
  (forall st en sd ed delta,
      all_day_event event st en ->
      fromisoformat st = Ok sd -> fromisoformat en = Ok ed ->
      Calendar.sub ed sd = Ok delta ->
      duration = Ok (inject_Z (Calendar.days delta) * hours)%Q
      /\ (delta = Calendar.microseconds_per_day -> duration = Ok hours)
      /\ ((delta < 0)%Z -> (0 < hours)%Q ->
          exists d, duration = Ok d /\ (d < 0)%Q))
  /\ (forall st en sd ed delta,
      timed_event event st en ->
      fromisoformat (replace_Z st) = Ok sd ->
      fromisoformat (replace_Z en) = Ok ed ->
      Calendar.sub ed sd = Ok delta ->
      duration = Ok (Calendar.total_seconds delta / 3600)%Q
      /\ (forall os oe,
             dt_utcoffset sd = Some os -> dt_utcoffset ed = Some oe ->
             delta = (Calendar.instant ed oe - Calendar.instant sd os)%Z))
  /\ (no_time_span event -> duration = Ok 0%Q).
Proof.
  cbv zeta. split; [|split].
  - intros st en sd ed delta Hall Hps Hpe Hsub.
    pose proof (all_day_duration self event st en sd ed delta Hall Hps Hpe Hsub)
      as Hd.
    split; [exact Hd|]. split.
    + intros ->. rewrite Hd, days_of_one_day. now rewrite one_day_of_hours.
    + intros Hneg Hpos. eexists. split; [exact Hd|].
      apply negative_product; [now apply negative_days | exact Hpos].
  - intros st en sd ed delta Htimed Hps Hpe Hsub. split.
    + now apply (timed_duration self event st en sd ed delta).
    + intros os oe Hos Hoe. now apply sub_of_instants.
  - apply no_time_span_duration.
Qed.

End Durations.

Lemma calculate_event_duration_spec_witness :
  calculate_event_duration Iso.parse (sample_app failing_service) standup
  = Ok 8%Q
  /\ calculate_event_duration Iso.parse (sample_app failing_service) lunch
     = Ok (Calendar.total_seconds 3600000000%Z / 3600)%Q
  /\ calculate_event_duration Iso.parse (sample_app failing_service)
       team_sync_without_times = Ok 0%Q.
Proof.
  split; [|split].
  - destruct (calculate_event_duration_spec Iso.parse
                (sample_app failing_service) standup) as [Hall _].
    destruct (Hall "2024-01-01" "2024-01-02"
                (mk_datetime 2024 1 1 0 0 0 0 None)
                (mk_datetime 2024 1 2 0 0 0 0 None)
                Calendar.microseconds_per_day) as (_ & Hone & _).
    + exists (mk_time_dict (Some "2024-01-01") None),
        (mk_time_dict (Some "2024-01-02") None).
      repeat split; reflexivity.
    + reflexivity.
    + reflexivity.
    + reflexivity.
    + apply Hone. reflexivity.
  - destruct (calculate_event_duration_spec Iso.parse
                (sample_app failing_service) lunch) as (_ & Htimed & _).
    destruct (Htimed "2024-01-01T12:00:00-03:00" "2024-01-01T13:00:00-03:00"
                (mk_datetime 2024 1 1 12 0 0 0 sao_paulo)
                (mk_datetime 2024 1 1 13 0 0 0 sao_paulo)
                3600000000%Z) as (Hduration & _).
    + exists (mk_time_dict None (Some "2024-01-01T12:00:00-03:00")),
        (mk_time_dict None (Some "2024-01-01T13:00:00-03:00")).
      repeat split; try reflexivity. now left.
    + reflexivity.
    + reflexivity.
    + reflexivity.
    + exact Hduration.
  - destruct (calculate_event_duration_spec Iso.parse
                (sample_app failing_service) team_sync_without_times)
      as (_ & _ & Hnone).
    apply Hnone. split; intros a b (st & en & Hstart & _); discriminate Hstart.
Defined.

(** ** Tables under [INSERT OR REPLACE] *)

Section InsertOrReplace.
Context {R : Type} (pk : R -> string).

Lemma filter_filter (f g : R -> bool) (l : list R) :
  filter f (filter g l) = filter (fun x => g x && f x) l.
Proof.
  induction l as [|x l IH]; simpl; [reflexivity|].
  destruct (g x); simpl; [destruct (f x)|]; now rewrite IH.
Qed.

Lemma write_all_cons (r : R) (rows table : list R) :
  write_all pk (r :: rows) table
  = write_all pk rows (insert_or_replace pk r table).
Proof. reflexivity. Qed.

(** The rows of the table that survive are those of other keys, in their
    order; the written rows follow them. *)
Lemma write_all_split (rows table : list R) :
  write_all pk rows table
  = filter (fun x => negb (key_in pk rows x)) table ++ write_all pk rows [].
Proof.
  revert table. induction rows as [|r rows IH]; intros table.
  - simpl. now rewrite filter_true, app_nil_r.
  - rewrite !write_all_cons, IH, (IH (insert_or_replace pk r [])).
    unfold insert_or_replace. simpl filter at 3. simpl app at 3.
    rewrite filter_app, filter_filter, <- app_assoc. f_equal.
    apply filter_ext. intros x. simpl. now rewrite negb_orb.
Qed.

Lemma write_all_origin (rows table : list R) (x : R) :
  In x (write_all pk rows table) -> In x table \/ In x rows.
Proof.
  revert table. induction rows as [|r rows IH]; intros table; simpl.
  - auto.
  - intros H. apply IH in H. destruct H as [H | H]; [|auto].
    unfold insert_or_replace in H. apply in_app_or in H.
    destruct H as [H | [<- | []]]; [|auto].
    apply filter_In in H. tauto.
Qed.

Lemma key_in_member (rows : list R) (x : R) :
  In x rows -> key_in pk rows x = true.
Proof.
  intros H. apply existsb_exists. exists x. split; [exact H|].
  apply String.eqb_refl.
Qed.

Lemma written_rows_have_written_keys (rows : list R) :
  filter (fun x => negb (key_in pk rows x)) (write_all pk rows []) = [].
Proof.
  transitivity (filter (fun _ => false) (write_all pk rows []));
    [|apply filter_false].
  apply filter_ext_in. intros x H.
  apply write_all_origin in H. destruct H as [[] | H].
  now rewrite key_in_member.
Qed.

(** Writing the same rows a second time changes nothing. *)
Lemma write_all_idempotent (rows table : list R) :
  write_all pk rows (write_all pk rows table) = write_all pk rows table.
Proof.
  rewrite (write_all_split rows (write_all pk rows table)).
  rewrite (write_all_split rows table) at 1.
  rewrite filter_app, written_rows_have_written_keys, app_nil_r, filter_filter.
  rewrite (write_all_split rows table). f_equal.
  apply filter_ext. intros x. now destruct (key_in pk rows x).
Qed.

Lemma insert_or_replace_idempotent (r : R) (table : list R) :
  insert_or_replace pk r (insert_or_replace pk r table)
  = insert_or_replace pk r table.
Proof. exact (write_all_idempotent [r] table). Qed.

Lemma insert_or_replace_unique (r : R) (table : list R) :
  NoDup (map pk table) -> NoDup (map pk (insert_or_replace pk r table)).
Proof.
  intros H. unfold insert_or_replace. rewrite map_app.
  apply NoDup_app.
  - clear -H. induction table as [|x l IH]; simpl; [constructor|].
    inversion H as [|? ? Hx Hl]; subst.
    destruct (negb (pk x =? pk r)%string); simpl; [|auto].
    constructor; [|auto].
    intros Hin. apply Hx. apply in_map_iff in Hin.
    destruct Hin as (y & Hy & Hin). apply filter_In in Hin.
    apply in_map_iff. exists y. tauto.
  - simpl. constructor; [intros []|constructor].
  - intros k Hk [<- | []].
    apply in_map_iff in Hk. destruct Hk as (y & Hy & Hin).
    apply filter_In in Hin. destruct Hin as [_ Hin].
    rewrite Hy, String.eqb_refl in Hin. discriminate.
Qed.

Lemma write_all_unique (rows table : list R) :
  NoDup (map pk table) -> NoDup (map pk (write_all pk rows table)).
Proof.
  revert table. induction rows as [|r rows IH]; intros table H; simpl.
  - exact H.
  - apply IH. now apply insert_or_replace_unique.
Qed.

(** A row of the table is still there, or a written row has its key. *)
Lemma write_all_keeps_keys (rows table : list R) (x : R) :
  In x table ->
  exists y, In y (write_all pk rows table) /\ pk y = pk x
            /\ (y = x \/ In y rows).
Proof.
  revert table x. induction rows as [|r rows IH]; intros table x Hx; simpl.
  - exists x. auto.
  - destruct (String.eqb_spec (pk x) (pk r)) as [E | E].
    + destruct (IH (insert_or_replace pk r table) r) as (y & Hy & Hk & Hor).
      { unfold insert_or_replace. apply in_or_app. right. now left. }
      exists y. split; [exact Hy|]. split; [congruence|].
      right. destruct Hor as [-> | Hor]; [now left | now right].
    + destruct (IH (insert_or_replace pk r table) x) as (y & Hy & Hk & Hor).
      { unfold insert_or_replace. apply in_or_app. left.
        apply filter_In. split; [exact Hx|].
        apply negb_true_iff. now apply String.eqb_neq. }
      exists y. split; [exact Hy|]. split; [exact Hk|].
      destruct Hor as [-> | Hor]; [now left | right; now right].
Qed.

(** Every written row has a row of its key in the table, one of the
    written rows. *)
Lemma write_all_writes (rows table : list R) (r : R) :
  In r rows ->
  exists y, In y (write_all pk rows table) /\ pk y = pk r /\ In y rows.
Proof.
  revert table. induction rows as [|r' rows IH]; intros table; simpl.
  - intros [].
  - intros [-> | H].
    + destruct (write_all_keeps_keys rows (insert_or_replace pk r table) r)
        as (y & Hy & Hk & Hor).
      { unfold insert_or_replace. apply in_or_app. right. now left. }
      exists y. split; [exact Hy|]. split; [exact Hk|].
      destruct Hor as [-> | Hor]; [now left | now right].
    + destruct (IH (insert_or_replace pk r' table) H) as (y & Hy & Hk & Hin).
      exists y. auto.
Qed.

Lemma find_app (f : R -> bool) (l1 l2 : list R) :
  find f (l1 ++ l2)
  = match find f l1 with
    | Some x => Some x
    | None => find f l2
    end.
Proof.
  induction l1 as [|x l1 IH]; simpl; [reflexivity|].
  now destruct (f x).
Qed.

(** [SELECT ... WHERE pk = k] after an [INSERT OR REPLACE]. *)
Lemma find_insert_or_replace (r : R) (table : list R) (k : string) :
  find (fun x => String.eqb (pk x) k) (insert_or_replace pk r table)
  = if String.eqb (pk r) k then Some r
    else find (fun x => String.eqb (pk x) k) table.
Proof.
  unfold insert_or_replace. rewrite find_app. simpl.
  destruct (String.eqb_spec (pk r) k) as [E | E].
  - replace (find _ (filter _ table)) with (@None R); [reflexivity|].
    symmetry. induction table as [|x l IH]; simpl; [reflexivity|].
    destruct (String.eqb_spec (pk x) (pk r)) as [E' | E']; simpl; [exact IH|].
    destruct (String.eqb_spec (pk x) k); [congruence | exact IH].
  - replace (find _ (filter _ table))
      with (find (fun x => String.eqb (pk x) k) table).
    + now destruct (find _ table).
    + induction table as [|x l IH]; simpl; [reflexivity|].
      destruct (String.eqb_spec (pk x) (pk r)) as [E' | E']; simpl.
      * destruct (String.eqb_spec (pk x) k); [congruence | exact IH].
      * now destruct (String.eqb (pk x) k).
Qed.

End InsertOrReplace.

(** ** The store transaction *)

Section StoreTransaction.
Variable fromisoformat : string -> result datetime.
Variable isoformat : datetime -> string.

Lemma conn_eta (c : conn) : mk_conn (committed c) (pending c) = c.
Proof. now destruct c. Qed.

Lemma tables_eta (t : tables) :
  mk_tables (events_table t) (periods_table t) = t.
Proof. now destruct t. Qed.

Lemma with_conn_same (self : GoogleCalendarReport) (c : conn) :
  db_conn self = Some c -> with_conn self c = self.
Proof. destruct self. simpl. now intros ->. Qed.

Lemma rows_of_events_with_conn (self : GoogleCalendarReport) (c : conn)
    (key : string) (events : list event) :
  rows_of_events fromisoformat (with_conn self c) key events
  = rows_of_events fromisoformat self key events.
Proof.
  induction events as [|ev events IH]; simpl; [reflexivity|].
  now rewrite IH.
Qed.

(** The loop either writes every row into the open transaction or stops on
    an exception, and leaves what is committed alone. *)
Lemma store_events_run (faults : nat -> bool) (self : GoogleCalendarReport)
    (key : string) (events : list event) :
  forall (n : nat) (c : conn) (t : tables),
    pending c = Some t ->
    match store_events fromisoformat faults self key events (n, c) with
    | (Ok _, (n', c')) =>
        exists rows,
          rows_of_events fromisoformat self key events = Ok rows
          /\ c' = mk_conn (committed c)
                    (Some (mk_tables (write_all r_id rows (events_table t))
                                     (periods_table t)))
          /\ n' = (n + List.length rows)%nat
          /\ (forall i, (n <= i < n')%nat -> faults i = false)
    | (Raise _, (_, c')) => committed c' = committed c
    end.
Proof.
  induction events as [|ev events IH]; intros n c t Hc.
  - simpl. exists []. split; [reflexivity|].
    simpl. rewrite tables_eta, <- Hc. split; [symmetry; apply conn_eta|].
    split; [lia|]. intros i Hi. lia.
  - simpl. unfold sql_bind at 1. unfold sql_lift.
    destruct (row_of_event fromisoformat self key ev) as [[r|]|err];
      simpl; [| |reflexivity].
    + unfold sql_bind at 1. unfold execute_write, statement.
      destruct (faults n) eqn:Hn; [reflexivity|].
      unfold current. rewrite Hc. simpl.
      specialize (IH (S n) (mk_conn (committed c) (Some (insert_event r t)))
                    (insert_event r t) eq_refl).
      destruct (store_events fromisoformat faults self key events _)
        as [[u|err] [n' c']]; [|exact IH].
      destruct IH as (rows & Hrows & -> & -> & Hfaults).
      exists (r :: rows). rewrite Hrows.
      split; [reflexivity|]. split; [reflexivity|].
      split; [simpl; lia|].
      intros i Hi. destruct (Nat.eq_dec i n) as [-> | Hneq]; [exact Hn|].
      apply Hfaults. lia.
    + unfold sql_bind at 1. unfold sql_ret at 1.
      specialize (IH n c t Hc).
      destruct (store_events fromisoformat faults self key events _)
        as [[u|err] [n' c']]; [|exact IH].
      destruct IH as (rows & Hrows & -> & -> & Hfaults).
      exists rows. rewrite Hrows. repeat split; auto.
Qed.

(** Without faults, the loop succeeds as soon as every row can be built. *)
Lemma store_events_no_faults (self : GoogleCalendarReport) (key : string)
    (events : list event) :
  forall (n : nat) (c : conn) (rows : list event_row),
    rows_of_events fromisoformat self key events = Ok rows ->
    exists st, store_events fromisoformat no_faults self key events (n, c)
               = (Ok tt, st).
Proof.
  induction events as [|ev events IH]; intros n c rows Hrows.
  - eexists. reflexivity.
  - simpl in *. unfold sql_bind at 1. unfold sql_lift.
    destruct (row_of_event fromisoformat self key ev) as [[r|]|err];
      simpl in *; [| |discriminate];
      destruct (rows_of_events fromisoformat self key events) as [rest|err]
        eqn:Hrest; try discriminate.
    + unfold sql_bind at 1. unfold execute_write, statement. simpl.
      apply (IH _ _ rest eq_refl).
    + unfold sql_bind at 1. unfold sql_ret at 1.
      apply (IH _ _ rest eq_refl).
Qed.

Lemma store_transaction_run (faults : nat -> bool) (self : GoogleCalendarReport)
    (kind : string) (s e : datetime) (events : list event) (c : conn) :
  pending c = None ->
  match store_transaction fromisoformat isoformat faults self kind s e events
          (O, c) with
  | (Ok _, (_, c')) =>
      exists rows,
        rows_of_events fromisoformat self (get_period_key kind s e) events
        = Ok rows
        /\ c' = mk_conn (stored_tables (period_row_of isoformat kind s e) rows
                           (committed c)) None
        /\ (forall i, (i < 3 + List.length rows)%nat -> faults i = false)
  | (Raise _, (_, c')) => committed c' = committed c
  end.
Proof.
  intros Hc. unfold store_transaction.
  unfold sql_bind at 1. unfold begin_transaction, statement.
  destruct (faults 0%nat) eqn:H0; [reflexivity|].
  rewrite Hc. unfold sql_bind at 1. unfold execute_write at 1, statement.
  destruct (faults 1%nat) eqn:H1; [reflexivity|].
  unfold sql_bind at 1. unfold current. simpl.
  pose proof (store_events_run faults self (get_period_key kind s e) events
                2%nat
                (mk_conn (committed c)
                   (Some (insert_period (period_row_of isoformat kind s e)
                            (committed c))))
                _ eq_refl) as Hrun.
  unfold period_row_of in *.
  destruct (store_events fromisoformat faults self _ events _)
    as [[u|err] [n' c']]; [|exact Hrun].
  destruct Hrun as (rows & Hrows & -> & -> & Hfaults).
  unfold commit, statement.
  destruct (faults (2 + List.length rows)%nat) eqn:Hlast; [reflexivity|].
  exists rows. split; [exact Hrows|]. split; [reflexivity|].
  intros i Hi.
  destruct (Nat.eq_dec i 0) as [-> | ?]; [exact H0|].
  destruct (Nat.eq_dec i 1) as [-> | ?]; [exact H1|].
  destruct (Nat.eq_dec i (2 + List.length rows)) as [-> | ?]; [exact Hlast|].
  apply Hfaults. lia.
Qed.

(** The two outcomes of [store_period_in_database]. *)
Lemma store_outcome (faults : nat -> bool) (self : GoogleCalendarReport)
    (kind : string) (s e : datetime) (events : list event) :
  idle self ->
  (exists c rows,
      db_conn self = Some c
      /\ rows_of_events fromisoformat self (get_period_key kind s e) events
         = Ok rows
      /\ store_period_in_database fromisoformat isoformat faults self kind s e
           events
         = (true, with_conn self
                    (mk_conn (stored_tables (period_row_of isoformat kind s e)
                                rows (committed c)) None))
      /\ (forall i, (i < 3 + List.length rows)%nat -> faults i = false))
  \/ store_period_in_database fromisoformat isoformat faults self kind s e
       events
     = (false, self).
Proof.
  unfold idle, store_period_in_database. intros Hidle.
  destruct (db_conn self) as [c|] eqn:Hconn; [|now right].
  pose proof (store_transaction_run faults self kind s e events c Hidle)
    as Hrun.
  destruct (store_transaction _ _ _ _ _ _ _ _ _) as [[u|err] [n' c']].
  - left. destruct Hrun as (rows & Hrows & -> & Hfaults). now exists c, rows.
  - right. f_equal. unfold rollback. rewrite Hrun, <- Hidle, conn_eta.
    now apply with_conn_same.
Qed.

Lemma store_without_faults (self : GoogleCalendarReport) (kind : string)
    (s e : datetime) (events : list event) (c : conn) (rows : list event_row) :
  db_conn self = Some c -> pending c = None ->
  rows_of_events fromisoformat self (get_period_key kind s e) events
  = Ok rows ->
  store_period_in_database fromisoformat isoformat no_faults self kind s e
    events
  = (true, with_conn self
             (mk_conn (stored_tables (period_row_of isoformat kind s e) rows
                         (committed c)) None)).
Proof.
  intros Hconn Hc Hrows.
  unfold store_period_in_database, store_transaction. rewrite Hconn.
  unfold sql_bind at 1. unfold begin_transaction, statement. simpl.
  rewrite Hc. unfold sql_bind at 1. unfold execute_write at 1, statement.
  simpl. unfold sql_bind at 1.
  match goal with
  | |- context [store_events _ _ _ _ _ (?n, ?c0)] =>
      destruct (store_events_no_faults self (get_period_key kind s e) events
                  n c0 rows Hrows) as [[n' c'] Hok];
      pose proof (store_events_run no_faults self (get_period_key kind s e)
                    events n c0 _ eq_refl) as Hrun
  end.
  rewrite Hok in *. destruct Hrun as (rows' & Hrows' & -> & _).
  rewrite Hrows in Hrows'. injection Hrows' as <-.
  reflexivity.
Qed.

End StoreTransaction.

(** ** What the store loop writes *)

Section Rows.
Variable fromisoformat : string -> result datetime.

Ltac split_matches H :=
  repeat match type of H with
         | context [match ?x with _ => _ end] =>
             destruct x eqn:?; simpl in H; try discriminate H
         end.

Lemma row_of_event_some (self : GoogleCalendarReport) (key : string)
    (ev : event) (r : event_row) :
  row_of_event fromisoformat self key ev = Ok (Some r) ->
  ev_id ev = Some (r_id r) /\ storable ev = true /\ r_period_key r = key.
Proof.
  unfold row_of_event, storable, bind. intros H.
  destruct (ev_id ev) as [i|]; [|discriminate].
  destruct (ev_summary ev) as [sm|]; [|discriminate].
  split_matches H; injection H as <-; auto.
Qed.

Lemma row_of_event_none (self : GoogleCalendarReport) (key : string)
    (ev : event) :
  row_of_event fromisoformat self key ev = Ok None -> storable ev = false.
Proof.
  unfold row_of_event, storable, bind. intros H.
  destruct (ev_id ev) as [i|]; [|reflexivity].
  destruct (ev_summary ev) as [sm|]; [|reflexivity].
  split_matches H.
Qed.

Lemma rows_have_the_key (self : GoogleCalendarReport) (key : string)
    (events : list event) :
  forall rows, rows_of_events fromisoformat self key events = Ok rows ->
               forall r, In r rows -> r_period_key r = key.
Proof.
  induction events as [|ev events IH]; simpl; intros rows H r Hr.
  - injection H as <-. destruct Hr.
  - unfold bind in H.
    destruct (row_of_event fromisoformat self key ev) as [row|] eqn:Hrow;
      [|discriminate].
    destruct (rows_of_events fromisoformat self key events) as [rest|];
      [|discriminate].
    injection H as <-. destruct row as [r0|].
    + destruct Hr as [<- | Hr]; [|now apply (IH rest)].
      now apply row_of_event_some in Hrow.
    + now apply (IH rest).
Qed.

Lemma storable_events_have_rows (self : GoogleCalendarReport) (key : string)
    (events : list event) :
  forall rows, rows_of_events fromisoformat self key events = Ok rows ->
               forall ev, In ev events -> storable ev = true ->
                          exists r, In r rows /\ ev_id ev = Some (r_id r).
Proof.
  induction events as [|ev0 events IH]; simpl; intros rows H ev Hev Hst.
  - destruct Hev.
  - unfold bind in H.
    destruct (row_of_event fromisoformat self key ev0) as [row|] eqn:Hrow;
      [|discriminate].
    destruct (rows_of_events fromisoformat self key events) as [rest|];
      [|discriminate].
    injection H as <-. destruct Hev as [-> | Hev].
    + destruct row as [r0|].
      * exists r0. split; [now left|]. now apply row_of_event_some in Hrow.
      * apply row_of_event_none in Hrow. congruence.
    + destruct (IH rest eq_refl ev Hev Hst) as (r & Hr & Hid).
      exists r. split; [|exact Hid]. destruct row; [now right | exact Hr].
Qed.

Lemma stored_ids_are_row_ids (self : GoogleCalendarReport) (key : string)
    (events : list event) :
  forall rows, rows_of_events fromisoformat self key events = Ok rows ->
               forall x, stored_id events (Some (r_id x)) = key_in r_id rows x.
Proof.
  induction events as [|ev events IH]; simpl; intros rows H x.
  - now injection H as <-.
  - unfold bind in H.
    destruct (row_of_event fromisoformat self key ev) as [row|] eqn:Hrow;
      [|discriminate].
    destruct (rows_of_events fromisoformat self key events) as [rest|];
      [|discriminate].
    injection H as <-. rewrite (IH rest eq_refl). destruct row as [r0|].
    + apply row_of_event_some in Hrow. destruct Hrow as (Hid & Hst & _).
      rewrite Hst, Hid. simpl. now rewrite String.eqb_sym.
    + apply row_of_event_none in Hrow. now rewrite Hrow.
Qed.

Lemma rows_count (self : GoogleCalendarReport) (key : string)
    (events : list event) :
  forall rows, rows_of_events fromisoformat self key events = Ok rows ->
               List.length rows = List.length (filter storable events).
Proof.
  induction events as [|ev events IH]; simpl; intros rows H.
  - now injection H as <-.
  - unfold bind in H.
    destruct (row_of_event fromisoformat self key ev) as [row|] eqn:Hrow;
      [|discriminate].
    destruct (rows_of_events fromisoformat self key events) as [rest|];
      [|discriminate].
    injection H as <-. destruct row as [r0|].
    + apply row_of_event_some in Hrow. destruct Hrow as (_ & -> & _).
      simpl. f_equal. now apply IH.
    + apply row_of_event_none in Hrow. rewrite Hrow. now apply IH.
Qed.

Lemma row_of_event_fields (self : GoogleCalendarReport) (key : string)
    (ev : event) (r : event_row) :
  row_of_event fromisoformat self key ev = Ok (Some r) ->
  exists start_,
    ev_start ev = Some start_
    /\ ev_summary ev = Some (r_summary r)
    /\ r_category r = stored_category (r_summary r)
    /\ calculate_event_duration fromisoformat self ev = Ok (r_duration r)
    /\ r_color r = dict_get (ev_colorId ev) (Some "")
    /\ ((exists end_ st en,
            ev_end ev = Some end_ /\ td_date start_ = Some st
            /\ td_date end_ = Some en
            /\ r_is_all_day r = 1%Z /\ r_start_time r = st /\ r_end_time r = en)
        \/ ((td_date start_ = None
             \/ exists end_, ev_end ev = Some end_ /\ td_date end_ = None)
            /\ r_is_all_day r = 0%Z
            /\ r_start_time r = get_dateTime (ev_start ev)
            /\ r_end_time r = get_dateTime (ev_end ev))).
Proof.
  unfold row_of_event, bind, subscript.
  destruct (ev_id ev) as [i|]; [|discriminate].
  destruct (ev_summary ev) as [summary|]; [|discriminate].
  destruct (ev_start ev) as [start_|] eqn:Hstart; [|discriminate].
  destruct (td_date start_) as [st|] eqn:Hst.
  - destruct (ev_end ev) as [end_|] eqn:Hend; [|discriminate].
    destruct (td_date end_) as [en|] eqn:Hen;
      (destruct (calculate_event_duration fromisoformat self ev) as [d|];
       [|discriminate]);
      intros H; injection H as <-; exists start_; simpl;
      repeat (split; [reflexivity|]).
    + left. exists end_, st, en. auto 10.
    + right. split; [|auto]. right. exists end_. auto.
  - destruct (calculate_event_duration fromisoformat self ev) as [d|];
      [|discriminate].
    intros H. injection H as <-. exists start_. simpl.
    repeat (split; [reflexivity|]). right. auto.
Qed.

(** The event read from the row built for an event is that event read
    back. *)
Lemma row_is_read_back (self : GoogleCalendarReport) (key : string)
    (ev : event) (r : event_row) :
  row_of_event fromisoformat self key ev = Ok (Some r) ->
  read_back_of fromisoformat self ev (event_of_row r).
Proof.
  intros Hrow.
  pose proof (row_of_event_some self key ev r Hrow) as (Hid & _ & _).
  destruct (row_of_event_fields self key ev r Hrow)
    as (start_ & Hstart & Hsummary & _ & Hduration & _ & Hspan).
  split; [simpl; now rewrite Hid|].
  split; [simpl; now rewrite Hsummary|].
  split; [exists (r_duration r); split; [exact Hduration | reflexivity]|].
  intros st en. unfold event_of_row. split.
  - intros (s0 & e0 & Hs0 & He0 & Hsd & Hed).
    rewrite Hstart in Hs0. injection Hs0 as <-.
    destruct Hspan as [(end_ & st' & en' & Hend & Hst & Hen & -> & -> & ->)
                      | ([Hnone | (end_ & Hend & Hnone)] & _)].
    + rewrite Hend in He0. injection He0 as <-.
      rewrite Hsd in Hst. rewrite Hed in Hen.
      injection Hst as <-. injection Hen as <-.
      simpl. eexists _, _. repeat split.
    + congruence.
    + rewrite Hend in He0. injection He0 as <-. congruence.
  - intros (s0 & e0 & Hs0 & He0 & Hnodate & Hsd & Hed).
    rewrite Hstart in Hs0. injection Hs0 as <-.
    destruct Hspan as [(end_ & st' & en' & Hend & Hst & Hen & _)
                      | (_ & -> & -> & ->)].
    + rewrite Hend in He0. injection He0 as <-.
      destruct Hnodate; congruence.
    + unfold get_dateTime. rewrite Hstart, He0, Hsd, Hed. simpl.
      eexists _, _. repeat split. now left.
Qed.

(** Every row the store writes is the row of an event of the list. *)
Lemma rows_come_from_events (self : GoogleCalendarReport) (key : string)
    (events : list event) :
  forall rows, rows_of_events fromisoformat self key events = Ok rows ->
               forall r, In r rows ->
                         exists ev, In ev events
                                    /\ row_of_event fromisoformat self key ev
                                       = Ok (Some r).
Proof.
  induction events as [|ev0 events IH]; simpl; intros rows H r Hr.
  - injection H as <-. destruct Hr.
  - unfold bind in H.
    destruct (row_of_event fromisoformat self key ev0) as [row|] eqn:Hrow;
      [|discriminate].
    destruct (rows_of_events fromisoformat self key events) as [rest|];
      [|discriminate].
    injection H as <-.
    assert (In r rest -> exists ev, (ev0 = ev \/ In ev events)
                                    /\ row_of_event fromisoformat self key ev
                                       = Ok (Some r)) as Hrest.
    { intros Hin. destruct (IH rest eq_refl r Hin) as (ev & Hev & Hrow').
      exists ev. split; [now right | exact Hrow']. }
    destruct row as [r0|]; [|exact (Hrest Hr)].
    destruct Hr as [<- | Hr]; [|exact (Hrest Hr)].
    exists ev0. split; [now left | exact Hrow].
Qed.

End Rows.

(** ** Reading the store *)

Lemma is_period_in_database_reads (self : GoogleCalendarReport) (c : conn)
    (key : string) :
  db_conn self = Some c ->
  is_period_in_database no_faults self key = complete_in (current c) key.
Proof. unfold is_period_in_database. now intros ->. Qed.

Lemma get_events_from_database_reads (self : GoogleCalendarReport) (c : conn)
    (key : string) :
  db_conn self = Some c ->
  get_events_from_database no_faults self key = events_in (current c) key.
Proof. unfold get_events_from_database. now intros ->. Qed.

Lemma failed_check_is_a_miss (faults : nat -> bool)
    (self : GoogleCalendarReport) (key : string) :
  faults O = true -> is_period_in_database faults self key = false.
Proof.
  unfold is_period_in_database, execute_query, statement. intros H.
  destruct (db_conn self); [|reflexivity]. now rewrite H.
Qed.

Lemma failed_load_is_empty (faults : nat -> bool) (self : GoogleCalendarReport)
    (key : string) :
  faults O = true -> get_events_from_database faults self key = [].
Proof.
  unfold get_events_from_database, execute_query, statement. intros H.
  destruct (db_conn self); [|reflexivity]. now rewrite H.
Qed.

Lemma complete_after_store (p : period_row) (rows : list event_row)
    (t : tables) (key : string) :
  complete_in (stored_tables p rows t) key
  = if String.eqb (p_period_key p) key then Z.eqb (p_is_complete p) 1
    else complete_in t key.
Proof.
  unfold complete_in, stored_tables. simpl.
  rewrite find_insert_or_replace.
  now destruct (String.eqb (p_period_key p) key).
Qed.

(** ** The period store *)

Section PeriodStore.
Variable fromisoformat : string -> result datetime.
Variable isoformat : datetime -> string.

Lemma stored_tables_idempotent (p : period_row) (rows : list event_row)
    (t : tables) :
  stored_tables p rows (stored_tables p rows t) = stored_tables p rows t.
Proof.
  unfold stored_tables. simpl.
  now rewrite write_all_idempotent, insert_or_replace_idempotent.
Qed.

(** C1.  A call of the store on an idle connection has two outcomes.  It
    returns [True]: the connection is idle again, the period of the derived
    key is complete, no statement of the call met a fault, and for every
    event of the list that has an id and a summary the key reads back what
    was written of the event of the list with that id, with its id, its
    summary, its duration and its time span; that event is the event itself
    when no other event of the list has its id.  Or it returns [False] and
    the object is what it was before the call, so that
    [is_period_in_database] and [get_events_from_database] answer as before
    for every key; a fault on any statement, the insertion of the second
    event say, leads there. *)
Theorem store_is_all_or_nothing (faults : nat -> bool)
    (self : GoogleCalendarReport) (kind : string) (s e : datetime)
    (events : list event) :
  idle self ->
  let key := get_period_key kind s e in
  let outcome :=
    store_period_in_database fromisoformat isoformat faults self kind s e
      events in
  (fst outcome = true
   /\ idle (snd outcome)
   /\ is_period_in_database no_faults (snd outcome) key = true
   /\ (forall ev, In ev events -> storable ev = true ->
         exists written stored,
           In written events /\ storable written = true
           /\ ev_id written = ev_id ev
           /\ In stored (get_events_from_database no_faults (snd outcome) key)
           /\ read_back_of fromisoformat self written stored
           /\ ((forall other, In other events -> storable other = true ->
                              ev_id other = ev_id ev -> other = ev) ->
               written = ev))
   /\ (forall i, (i < 3 + List.length (filter storable events))%nat ->
                 faults i = false))
  \/ (fst outcome = false
      /\ snd outcome = self
      /\ (forall f k, is_period_in_database f (snd outcome) k
                      = is_period_in_database f self k)
      /\ (forall f k, get_events_from_database f (snd outcome) k
                      = get_events_from_database f self k)).
Proof.
  intros Hidle key outcome. subst outcome.
  destruct (store_outcome fromisoformat isoformat faults self kind s e events
              Hidle) as [(c & rows & Hconn & Hrows & -> & Hfaults) | ->].
  - left. simpl. split; [reflexivity|]. split; [reflexivity|]. split; [|split].
    + erewrite is_period_in_database_reads by reflexivity.
      unfold current. simpl. rewrite complete_after_store.
      unfold period_row_of. simpl. fold key. now rewrite String.eqb_refl.
    + intros ev Hev Hst.
      destruct (storable_events_have_rows fromisoformat self key events rows
                  Hrows ev Hev Hst) as (r & Hr & Hid).
      destruct (write_all_writes r_id rows (events_table (committed c)) r Hr)
        as (y & Hy & Hk & Hyrows).
      destruct (rows_come_from_events fromisoformat self key events rows
                  Hrows y Hyrows) as (written & Hwritten & Hrow).
      pose proof (row_of_event_some fromisoformat self key written y Hrow)
        as (Hwid & Hwst & _).
      assert (ev_id written = ev_id ev) as Hsame
        by (now rewrite Hwid, Hk, <- Hid).
      exists written, (event_of_row y).
      split; [exact Hwritten|]. split; [exact Hwst|].
      split; [exact Hsame|]. split; [|split].
      * erewrite get_events_from_database_reads by reflexivity.
        unfold current, events_in. simpl. apply in_map. apply filter_In.
        split; [exact Hy|].
        rewrite (rows_have_the_key fromisoformat self key events rows Hrows y
                   Hyrows).
        apply String.eqb_refl.
      * exact (row_is_read_back fromisoformat self key written y Hrow).
      * intros Hunique. exact (Hunique written Hwritten Hwst Hsame).
    + rewrite <- (rows_count fromisoformat self key events rows Hrows).
      exact Hfaults.
  - right. simpl. auto.
Qed.

(** After a call that succeeded, a second call with the same arguments
    changes nothing, whatever its faults. *)
Lemma second_store_changes_nothing (f2 : nat -> bool)
    (self : GoogleCalendarReport) (kind : string) (s e : datetime)
    (events : list event) (c : conn) (rows : list event_row) :
  rows_of_events fromisoformat self (get_period_key kind s e) events
  = Ok rows ->
  let self1 :=
    with_conn self
      (mk_conn (stored_tables (period_row_of isoformat kind s e) rows
                  (committed c)) None) in
  snd (store_period_in_database fromisoformat isoformat f2 self1 kind s e
         events) = self1.
Proof.
  intros Hrows self1.
  assert (Hrows1 : rows_of_events fromisoformat self1 (get_period_key kind s e)
                     events = Ok rows).
  { unfold self1. now rewrite rows_of_events_with_conn. }
  destruct (store_outcome fromisoformat isoformat f2 self1 kind s e events
              eq_refl) as [(c' & rows' & Hconn' & Hrows' & -> & _) | ->];
    [|reflexivity].
  rewrite Hrows1 in Hrows'. injection Hrows' as <-.
  injection Hconn' as <-. simpl.
  unfold self1, with_conn. simpl. now rewrite stored_tables_idempotent.
Qed.

(** C8.  A second call of the store with the same period type, dates and
    events, under the same faults, leaves the object as the first call left
    it.  When the first call succeeded this holds under any faults of the
    second call, the period is complete after both calls, the events read
    back under the key are the same list, and without faults the second
    call succeeds as well. *)
Theorem store_twice_is_store_once (f1 f2 : nat -> bool)
    (self : GoogleCalendarReport) (kind : string) (s e : datetime)
    (events : list event) :
  idle self ->
  let key := get_period_key kind s e in
  let store faults object :=
    store_period_in_database fromisoformat isoformat faults object kind s e
      events in
  let once := store f1 self in
  let twice := store f2 (snd once) in
  snd (store f1 (snd once)) = snd once
  /\ (fst once = true ->
      snd twice = snd once
      /\ is_period_in_database no_faults (snd once) key = true
      /\ is_period_in_database no_faults (snd twice) key = true
      /\ get_events_from_database no_faults (snd twice) key
         = get_events_from_database no_faults (snd once) key
      /\ fst (store no_faults (snd once)) = true).
Proof.
  intros Hidle key store once twice. subst once twice store. cbv beta.
  destruct (store_outcome fromisoformat isoformat f1 self kind s e events
              Hidle) as [(c & rows & Hconn & Hrows & Heq & _) | Heq].
  - rewrite Heq. simpl fst. simpl snd.
    pose proof (fun f2 => second_store_changes_nothing f2 self kind s e events
                            c rows Hrows) as Hsame.
    cbv zeta in Hsame.
    set (self1 := with_conn self
                    (mk_conn (stored_tables (period_row_of isoformat kind s e)
                                rows (committed c)) None)) in *.
    assert (Hcomplete : is_period_in_database no_faults self1 key = true).
    { erewrite is_period_in_database_reads by reflexivity.
      unfold current. simpl. rewrite complete_after_store.
      unfold period_row_of. simpl. fold key. now rewrite String.eqb_refl. }
    split; [apply Hsame|]. intros _. rewrite (Hsame f2).
    repeat split; try assumption.
    assert (Hrows1 : rows_of_events fromisoformat self1 key events = Ok rows).
    { unfold self1. now rewrite rows_of_events_with_conn. }
    now rewrite (store_without_faults fromisoformat isoformat self1 kind s e
                   events _ rows eq_refl eq_refl Hrows1).
  - rewrite Heq. simpl fst. simpl snd. rewrite Heq.
    split; [reflexivity | discriminate].
Qed.

Lemma unique_after_store (p : period_row) (rows : list event_row) (t : tables) :
  NoDup (map r_id (events_table t)) ->
  NoDup (map r_id (events_table (stored_tables p rows t))).
Proof. intros H. simpl. now apply write_all_unique. Qed.

Lemma events_in_other_key (p : period_row) (rows : list event_row) (t : tables)
    (other : string) :
  (forall r, In r rows -> r_period_key r <> other) ->
  events_in (stored_tables p rows t) other
  = filter (fun ev => negb (existsb
                              (fun r => match ev_id ev with
                                        | Some i => String.eqb i (r_id r)
                                        | None => false
                                        end) rows))
           (events_in t other).
Proof.
  intros Hother. unfold events_in, stored_tables. simpl.
  rewrite write_all_split, filter_app, map_app.
  replace (filter _ (write_all r_id rows [])) with (@nil event_row).
  - rewrite app_nil_r, filter_map_swap. f_equal.
    rewrite !filter_filter. apply filter_ext. intros x. simpl.
    unfold key_in. apply andb_comm.
  - symmetry. transitivity (filter (fun _ => false) (write_all r_id rows []));
      [|apply filter_false].
    apply filter_ext_in. intros x Hx.
    apply write_all_origin in Hx. destruct Hx as [[] | Hx].
    apply String.eqb_neq. now apply Hother.
Qed.

(** C10.  The ids of the events table stay unique through a call of the
    store, so that an id has one row and one period key.  After a call that
    succeeds with key [B], the rows whose id is the id of a stored event of
    the call carry [B]; every other row is still there; the events read back
    under another key [A] are those read back before, without the ones whose
    id the call stored; and every period that was complete is complete. *)
Theorem store_moves_events_to_its_key (faults : nat -> bool)
    (self : GoogleCalendarReport) (kind : string) (s e : datetime)
    (events : list event) :
  idle self -> unique_ids self ->
  let key := get_period_key kind s e in
  let outcome :=
    store_period_in_database fromisoformat isoformat faults self kind s e
      events in
  unique_ids (snd outcome)
  /\ (fst outcome = true ->
      (forall r, In r (stored_rows (snd outcome)) ->
                 stored_id events (Some (r_id r)) = true ->
                 r_period_key r = key)
      /\ (forall r, In r (stored_rows self) ->
                    stored_id events (Some (r_id r)) = false ->
                    In r (stored_rows (snd outcome)))
      /\ (forall other, other <> key ->
            get_events_from_database no_faults (snd outcome) other
            = filter (fun ev => negb (stored_id events (ev_id ev)))
                     (get_events_from_database no_faults self other))
      /\ (forall other, is_period_in_database no_faults self other = true ->
                        is_period_in_database no_faults (snd outcome) other
                        = true)).
Proof.
  intros Hidle Hunique key outcome. subst outcome.
  destruct (store_outcome fromisoformat isoformat faults self kind s e events
              Hidle) as [(c & rows & Hconn & Hrows & -> & _) | ->];
    [|split; [exact Hunique | discriminate]].
  fold key in Hrows.
  pose proof (stored_ids_are_row_ids fromisoformat self key events rows Hrows)
    as Hids.
  pose proof (rows_have_the_key fromisoformat self key events rows Hrows)
    as Hkey.
  unfold unique_ids, stored_rows, idle in *. rewrite Hconn in *. simpl.
  split; [now apply write_all_unique|].
  intros _. split; [|split; [|split]].
  - intros r Hr Hst. rewrite write_all_split in Hr.
    apply in_app_or in Hr. destruct Hr as [Hr | Hr].
    + apply filter_In in Hr. destruct Hr as [_ Hr].
      rewrite <- Hids, Hst in Hr. discriminate.
    + apply write_all_origin in Hr. destruct Hr as [[] | Hr].
      now apply Hkey.
  - intros r Hr Hst. rewrite write_all_split. apply in_or_app. left.
    apply filter_In. split; [exact Hr|]. now rewrite <- Hids, Hst.
  - intros other Hother.
    erewrite get_events_from_database_reads by reflexivity.
    rewrite (get_events_from_database_reads self c other Hconn).
    unfold current. rewrite Hidle. simpl.
    rewrite events_in_other_key.
    + apply filter_ext_in. intros ev Hev. f_equal.
      unfold events_in in Hev. apply in_map_iff in Hev.
      destruct Hev as (x & <- & _). simpl. rewrite Hids. reflexivity.
    + intros r Hr. rewrite (Hkey r Hr). congruence.
  - intros other Hother.
    rewrite (is_period_in_database_reads self c other Hconn) in Hother.
    match goal with
    | |- is_period_in_database _ (with_conn ?a ?c') _ = _ =>
        rewrite (is_period_in_database_reads (with_conn a c') c' other eq_refl)
    end.
    unfold current in *. rewrite Hidle in Hother. simpl in *.
    rewrite complete_after_store.
    destruct (String.eqb _ other); [reflexivity | exact Hother].
Qed.

(** A row found after a call is a row of the key of the call, when the call
    succeeded and stored its id, and a row that was there before otherwise. *)
Lemma rows_after_store (faults : nat -> bool) (self : GoogleCalendarReport)
    (kind : string) (s e : datetime) (events : list event) :
  idle self ->
  let outcome :=
    store_period_in_database fromisoformat isoformat faults self kind s e
      events in
  idle (snd outcome)
  /\ (forall r, In r (stored_rows (snd outcome)) ->
                if fst outcome && stored_id events (Some (r_id r))
                then r_period_key r = get_period_key kind s e
                else In r (stored_rows self)).
Proof.
  intros Hidle outcome. subst outcome.
  destruct (store_outcome fromisoformat isoformat faults self kind s e events
              Hidle) as [(c & rows & Hconn & Hrows & -> & _) | ->].
  - split; [reflexivity|]. intros r Hr.
    unfold stored_rows in *. rewrite Hconn. simpl in *.
    rewrite (stored_ids_are_row_ids fromisoformat self _ events rows Hrows).
    rewrite write_all_split in Hr. apply in_app_or in Hr.
    destruct Hr as [Hr | Hr].
    + apply filter_In in Hr. destruct Hr as [Hr Hkey].
      apply negb_true_iff in Hkey. now rewrite Hkey.
    + apply write_all_origin in Hr. destruct Hr as [[] | Hr].
      rewrite (key_in_member r_id rows r Hr).
      now apply (rows_have_the_key fromisoformat self _ events rows Hrows).
  - split; [exact Hidle|]. intros r Hr. exact Hr.
Qed.

(** Through any history of calls, every row carries the key of the most
    recent call that succeeded and stored its id. *)
Lemma rows_carry_the_last_key (calls : list store_call) :
  forall (self : GoogleCalendarReport) (sofar : string -> option string),
    idle self ->
    (forall r, In r (stored_rows self) ->
               sofar (r_id r) = Some (r_period_key r)) ->
    forall r,
      In r (stored_rows (run_calls fromisoformat isoformat self calls)) ->
      last_key fromisoformat isoformat self calls (r_id r) (sofar (r_id r))
      = Some (r_period_key r).
Proof.
  induction calls as [|call later IH]; intros self sofar Hidle Hsofar r Hr.
  - now apply Hsofar.
  - simpl in *.
    destruct (rows_after_store (call_faults call) self (call_period_type call)
                (call_start_date call) (call_end_date call) (call_events call)
                Hidle) as [Hidle' Hrows].
    fold (run_call fromisoformat isoformat self call) in Hidle', Hrows.
    apply (IH (snd (run_call fromisoformat isoformat self call))
              (fun id =>
                 if fst (run_call fromisoformat isoformat self call)
                    && stored_id (call_events call) (Some id)
                 then Some (call_key call) else sofar id)
              Hidle'); [|exact Hr].
    intros r' Hr'. specialize (Hrows r' Hr').
    destruct (_ && _); [now rewrite Hrows | now apply Hsofar].
Qed.

Corollary rows_of_a_new_database_carry_the_last_key
    (self : GoogleCalendarReport) (calls : list store_call) (r : event_row) :
  idle self -> stored_rows self = [] ->
  In r (stored_rows (run_calls fromisoformat isoformat self calls)) ->
  last_key fromisoformat isoformat self calls (r_id r) None
  = Some (r_period_key r).
Proof.
  intros Hidle Hempty.
  apply (rows_carry_the_last_key calls self (fun _ => None) Hidle).
  rewrite Hempty. intros r' [].
Qed.

End PeriodStore.

(** ** Fetching events *)

Section GetEvents.
Variable fromisoformat : string -> result datetime.
Variable isoformat : datetime -> string.

Lemma get_events_hit (fc fl : nat -> bool) (self : GoogleCalendarReport)
    (s e : datetime) (kind : string) :
  is_period_in_database fc self (get_period_key kind s e) = true ->
  get_events isoformat fc fl self s e kind
  = Ok (get_events_from_database fl self (get_period_key kind s e)).
Proof. unfold get_events. now intros ->. Qed.

Lemma get_events_miss (fc fl : nat -> bool) (self : GoogleCalendarReport)
    (s e : datetime) (kind : string) (service : calendar_service) :
  is_period_in_database fc self (get_period_key kind s e) = false ->
  app_service self = Some service ->
  get_events isoformat fc fl self s e kind
  = match fetch_calendars service (isoformat s) (isoformat e)
            (dict_get (cfg_calendars (app_config self)) ["primary"]) [] with
    | Ok events_result => Ok events_result
    | Raise HttpError => Ok []
    | Raise err => Raise err
    end.
Proof. unfold get_events. now intros -> ->. Qed.

(** C2 (amended).  [get_events] first asks whether the period of the derived
    key is complete.  On a hit it returns the events read from the database
    under that key.  On a miss it returns what the service sent and stores
    nothing: the report choice of the menu hands the events to the report
    and leaves the object as it was.  The store is called only by the store
    choice of the menu, with the events that [get_events] returned. *)
Theorem get_events_reads_or_fetches (fc fl fs : nat -> bool)
    (self : GoogleCalendarReport) (s e : datetime) (kind : string) :
  let key := get_period_key kind s e in
  (is_period_in_database fc self key = true ->
   get_events isoformat fc fl self s e kind
   = Ok (get_events_from_database fl self key))
  /\ (forall service events,
         is_period_in_database fc self key = false ->
         app_service self = Some service ->
         fetch_calendars service (isoformat s) (isoformat e)
           (dict_get (cfg_calendars (app_config self)) ["primary"]) []
         = Ok events ->
         get_events isoformat fc fl self s e kind = Ok events
         /\ report_choice fromisoformat isoformat fc fl self kind s e
            = (generate_report fromisoformat self events s e kind, self)
         /\ store_choice fromisoformat isoformat fc fl fs self kind s e
            = (Ok (fst (store_period_in_database fromisoformat isoformat fs
                          self kind s e events)),
               snd (store_period_in_database fromisoformat isoformat fs self
                      kind s e events)))
  /\ snd (report_choice fromisoformat isoformat fc fl self kind s e) = self.
Proof.
  intros key. split; [apply get_events_hit|]. split; [|reflexivity].
  intros service events Hmiss Hservice Hfetch.
  assert (Hget : get_events isoformat fc fl self s e kind = Ok events).
  { rewrite (get_events_miss fc fl self s e kind service Hmiss Hservice).
    now rewrite Hfetch. }
  split; [exact Hget|]. split.
  - unfold report_choice. now rewrite Hget.
  - unfold store_choice. rewrite Hget.
    now destruct (store_period_in_database fromisoformat isoformat fs self
                    kind s e events).
Qed.

(** C3 (amended).  When the fetch raises [HttpError] on a miss, when the
    load of a hit fails, and when any load fails, the caller gets the empty
    list, which is also what a fetch that finds no events returns. *)
Theorem failures_return_the_empty_list (fc fl : nat -> bool)
    (self : GoogleCalendarReport) (s e : datetime) (kind : string) :
  let key := get_period_key kind s e in
  let fetched service :=
    fetch_calendars service (isoformat s) (isoformat e)
      (dict_get (cfg_calendars (app_config self)) ["primary"]) [] in
  (forall service,
      is_period_in_database fc self key = false ->
      app_service self = Some service ->
      fetched service = Raise HttpError \/ fetched service = Ok [] ->
      get_events isoformat fc fl self s e kind = Ok [])
  /\ (is_period_in_database fc self key = true -> fl O = true ->
      get_events isoformat fc fl self s e kind = Ok [])
  /\ (forall k, fl O = true -> get_events_from_database fl self k = []).
Proof.
  intros key fetched. split; [|split].
  - intros service Hmiss Hservice Hfetch.
    rewrite (get_events_miss fc fl self s e kind service Hmiss Hservice).
    fold (fetched service). now destruct Hfetch as [-> | ->].
  - intros Hhit Hfl. rewrite (get_events_hit fc fl self s e kind Hhit).
    now rewrite failed_load_is_empty.
  - intros k Hfl. now apply failed_load_is_empty.
Qed.

End GetEvents.

(** C2 (counterexample).  The database is empty and the service sends the
    stand-up event: the period is a miss, the events are fetched, and after
    the report choice the object is not the one a call of the store with the
    fetched events produces; the period is still not complete. *)
Lemma report_choice_stores_nothing :
  let self := sample_app (one_page_service [standup]) in
  let key := get_period_key "month_1" january_first january_last in
  let after_report :=
    snd (report_choice Iso.parse Iso.print no_faults no_faults self "month_1"
           january_first january_last) in
  let after_store :=
    snd (store_period_in_database Iso.parse Iso.print no_faults self "month_1"
           january_first january_last [standup]) in
  is_period_in_database no_faults self key = false
  /\ get_events Iso.print no_faults no_faults self january_first january_last
       "month_1" = Ok [standup]
  /\ after_report <> after_store
  /\ is_period_in_database no_faults after_report key = false
  /\ is_period_in_database no_faults after_store key = true.
Proof.
  cbv zeta. repeat split; try reflexivity.
  intros H. apply (f_equal db_conn) in H. vm_compute in H. discriminate.
Qed.

Lemma get_events_reads_or_fetches_witness :
  get_events Iso.print no_faults no_faults
    (sample_app (one_page_service [standup])) january_first january_last
    "month_1" = Ok [standup].
Proof.
  destruct (get_events_reads_or_fetches Iso.parse Iso.print no_faults no_faults
              no_faults (sample_app (one_page_service [standup]))
              january_first january_last "month_1") as (_ & Hmiss & _).
  destruct (Hmiss (one_page_service [standup]) [standup]) as (Hget & _).
  - reflexivity.
  - reflexivity.
  - reflexivity.
  - exact Hget.
Defined.

(** C3 (counterexample).  A fetch that raises [HttpError] and a fetch that
    succeeds with no events return the same value to the caller, and so do a
    load that fails on a period with two events and a load that succeeds on
    a period without events. *)
Lemma failure_looks_like_no_events :
  fetch_calendars failing_service (Iso.print january_first)
    (Iso.print january_last) ["primary"] [] = Raise HttpError
  /\ fetch_calendars (one_page_service []) (Iso.print january_first)
       (Iso.print january_last) ["primary"] [] = Ok []
  /\ get_events Iso.print no_faults no_faults (sample_app failing_service)
       january_first january_last "month_1"
     = get_events Iso.print no_faults no_faults
         (sample_app (one_page_service [])) january_first january_last "month_1"
  /\ List.length (get_events_from_database no_faults january_stored
                    "month_1_20240101_20240131") = 2%nat
  /\ get_events Iso.print no_faults (fail_at 0) january_stored january_first
       january_last "month_1"
     = get_events Iso.print no_faults no_faults empty_january_stored
         january_first january_last "month_1".
Proof. repeat split; reflexivity. Qed.

Lemma failures_return_the_empty_list_witness :
  get_events Iso.print no_faults no_faults (sample_app failing_service)
    january_first january_last "month_1" = Ok []
  /\ get_events Iso.print no_faults (fail_at 0) january_stored january_first
       january_last "month_1" = Ok [].
Proof.
  split.
  - apply (proj1 (failures_return_the_empty_list Iso.print no_faults no_faults
                    (sample_app failing_service) january_first january_last
                    "month_1") failing_service).
    + reflexivity.
    + reflexivity.
    + left. reflexivity.
  - apply (proj1 (proj2 (failures_return_the_empty_list Iso.print no_faults
                           (fail_at 0) january_stored january_first
                           january_last "month_1"))).
    + reflexivity.
    + reflexivity.
Defined.

(** ** The report *)

Section Report.
Variable fromisoformat : string -> result datetime.

Lemma recurring_loop_prints_nothing (event_count : list (string * nat))
    (items : list (string * Q)) (printed : list recurring_row) :
  fold_left (recurring_step event_count) items printed = printed.
Proof.
  revert printed. induction items as [|[summary total] items IH];
    intros printed; simpl; [reflexivity|].
  rewrite IH. now destruct (_ || _).
Qed.

(** Whatever the events, the summary of recurring events has no row. *)
Lemma recurring_summary_is_empty (self : GoogleCalendarReport)
    (events : list event) (s e : datetime) (kind : string) (r : report) :
  generate_report fromisoformat self events s e kind = Ok (Printed r) ->
  rep_recurring_rows r = [].
Proof.
  unfold generate_report. destruct events as [|ev events]; [discriminate|].
  destruct (process_events fromisoformat self empty_tallies (ev :: events))
    as [acc|err]; simpl; [|discriminate].
  intros H. injection H as <-. simpl.
  apply recurring_loop_prints_nothing.
Qed.

Lemma process_event_without_start (self : GoogleCalendarReport) (acc : tallies)
    (ev : event) (summary : string) :
  ev_summary ev = Some summary -> ev_start ev = None ->
  process_event fromisoformat self acc ev = Raise (KeyError "start").
Proof.
  unfold process_event. intros -> ->.
  now destruct (Re.category_match summary) as [[category subcategory]|].
Qed.

Lemma process_events_app (self : GoogleCalendarReport) (acc : tallies)
    (before after : list event) :
  process_events fromisoformat self acc (before ++ after)
  = (acc' <- process_events fromisoformat self acc before ;;
     process_events fromisoformat self acc' after).
Proof.
  revert acc. induction before as [|ev before IH]; intros acc; simpl.
  - reflexivity.
  - destruct (process_event fromisoformat self acc ev); simpl;
      [apply IH | reflexivity].
Qed.

(** An event with a summary and no ['start'] ends the report with a
    [KeyError], once the events before it went through; the events after it
    are not looked at. *)
Lemma report_stops_at_event_without_start (self : GoogleCalendarReport)
    (before after : list event) (ev : event) (summary : string)
    (s e : datetime) (kind : string) (acc : tallies) :
  process_events fromisoformat self empty_tallies before = Ok acc ->
  ev_summary ev = Some summary -> ev_start ev = None ->
  generate_report fromisoformat self (before ++ ev :: after) s e kind
  = Raise (KeyError "start").
Proof.
  intros Hbefore Hsummary Hstart.
  assert (Hloop : process_events fromisoformat self empty_tallies
                    (before ++ ev :: after) = Raise (KeyError "start")).
  { rewrite process_events_app, Hbefore. simpl.
    now rewrite (process_event_without_start self acc ev summary Hsummary
                   Hstart). }
  unfold generate_report.
  destruct (before ++ ev :: after) as [|first others] eqn:Hlist.
  - now destruct before.
  - now rewrite Hloop.
Qed.

End Report.

(** The rule of the report on a title that starts with a tag: the category
    is the three letters, the subcategory the rest of the first line. *)
Lemma report_category_of_tagged_title (a b c sep : ascii) (rest : string) :
  Re.upper a = true -> Re.upper b = true -> Re.upper c = true ->
  Re.space_or_underscore sep = true ->
  Re.category_match
    (String "@" (String a (String b (String c (String sep rest)))))
  = Some (String a (String b (String c EmptyString)), Re.dot_star rest).
Proof. simpl. now intros -> -> -> ->. Qed.

Lemma dot_star_of_one_line (s : string) :
  (forall n, String.get n s <> Some Re.newline) -> Re.dot_star s = s.
Proof.
  induction s as [|c s IH]; simpl; intros H; [reflexivity|].
  destruct (Ascii.eqb_spec c Re.newline) as [-> | _].
  - now destruct (H O).
  - f_equal. apply IH. intros n. exact (H (S n)).
Qed.

(** C4 (code at the failing input).  On a report of the stand-up event, the
    lunch and the event with two tags, the stand-up title has one [@] and
    matches the pattern, and the summary of recurring events that the
    specification describes lists it with one occurrence and 8 hours; the
    report prints no row of that summary, while the event with two tags is
    under category ENG. *)
Theorem recurring_summary_prints_no_row :
  let self := sample_app failing_service in
  let events := [standup; lunch; dual_tagged] in
  (exists acc r,
      process_events Iso.parse self empty_tallies events = Ok acc
      /\ generate_report Iso.parse self events january_first january_last
           "month_1" = Ok (Printed r)
      /\ spec_recurring_summary acc
         = [mk_recurring_row "@ENG Standup" 1 (Hours 8)]
      /\ rep_recurring_rows r = []
      /\ map (fun entry => (fst entry, map ed_summary (snd entry)))
             (rep_categorized_events r)
         = [("ENG", ["@ENG Standup"; "@ENG @OPS dual tag"])]).
Proof.
  cbv zeta. eexists. eexists.
  split; [vm_compute; reflexivity|].
  split; [vm_compute; reflexivity|].
  repeat split; reflexivity.
Qed.

(** C5 (code at the failing input).  For the title ["@ENG_Fix bug"] the
    report finds category ENG and subcategory ["Fix bug"], and the store
    writes category Other in the row of the event. *)
Theorem stored_category_is_not_the_report_category :
  let self := sample_app failing_service in
  Re.category_match "@ENG_Fix bug" = Some ("ENG", "Fix bug")
  /\ stored_category "@ENG_Fix bug" = "Other"
  /\ map r_category
       (stored_rows
          (snd (store_period_in_database Iso.parse Iso.print no_faults self
                  "month_1" january_first january_last [underscore_tagged])))
     = ["Other"]
  /\ (exists r,
         generate_report Iso.parse self [underscore_tagged] january_first
           january_last "month_1" = Ok (Printed r)
         /\ map (fun d => (ed_category d, ed_subcategory d)) (rep_all_events r)
            = [("ENG", "Fix bug")]).
Proof.
  cbv zeta. repeat split; try reflexivity.
  eexists. split; [vm_compute; reflexivity | reflexivity].
Qed.

(** C7 (code at the failing input).  The event with a title and neither
    ['start'] nor ['end'] has duration 0 for [calculate_event_duration], and
    a report over the stand-up, that event and the lunch raises
    [KeyError] on ['start']. *)
Theorem report_fails_on_event_without_times :
  let self := sample_app failing_service in
  calculate_event_duration Iso.parse self team_sync_without_times = Ok 0%Q
  /\ generate_report Iso.parse self [standup; team_sync_without_times; lunch]
       january_first january_last "month_1" = Raise (KeyError "start")
  /\ (exists r,
         generate_report Iso.parse self [standup; lunch] january_first
           january_last "month_1" = Ok (Printed r)).
Proof.
  cbv zeta. split; [reflexivity|]. split; [reflexivity|].
  eexists. vm_compute. reflexivity.
Qed.

(** ** The properties on the sample data *)

Lemma store_is_all_or_nothing_witness :
  let events := [standup; lunch; underscore_tagged] in
  let failed :=
    store_period_in_database Iso.parse Iso.print (fail_at 3)
      (sample_app failing_service) "month_1" january_first january_last
      events in
  let stored :=
    store_period_in_database Iso.parse Iso.print no_faults
      (sample_app failing_service) "month_1" january_first january_last
      events in
  (fst failed = false /\ snd failed = sample_app failing_service)
  /\ fst stored = true
  /\ is_period_in_database no_faults (snd stored)
       "month_1_20240101_20240131" = true
  /\ exists read duration,
       In read (get_events_from_database no_faults (snd stored)
                  "month_1_20240101_20240131")
       /\ ev_id read = Some "2" /\ ev_summary read = Some "Lunch"
       /\ calculate_event_duration Iso.parse (sample_app failing_service)
            lunch = Ok duration
       /\ ev_duration read = Some duration
       /\ timed_event read "2024-01-01T12:00:00-03:00"
            "2024-01-01T13:00:00-03:00".
Proof.
  intros events failed stored. split.
  - destruct (store_is_all_or_nothing Iso.parse Iso.print (fail_at 3)
                (sample_app failing_service) "month_1" january_first
                january_last events eq_refl)
      as [(_ & _ & _ & _ & Hfaults) | (Hfalse & Hsame & _)].
    + discriminate (Hfaults 3%nat (proj1 (Nat.ltb_lt 3 6) eq_refl)).
    + split; assumption.
  - destruct (store_is_all_or_nothing Iso.parse Iso.print no_faults
                (sample_app failing_service) "month_1" january_first
                january_last events eq_refl)
      as [(Htrue & _ & Hcomplete & Hread & _) | (Hfalse & _)].
    + split; [exact Htrue|]. split; [exact Hcomplete|].
      destruct (Hread lunch (or_intror (or_introl eq_refl)) eq_refl)
        as (written & read & _ & _ & _ & Hin & Hback & Hunique).
      assert (written = lunch) as ->.
      { apply Hunique. intros other [<- | [<- | [<- | []]]] _ Hid;
          [discriminate Hid | reflexivity | discriminate Hid]. }
      destruct Hback as (Hid & Hsummary & (duration & Hcalc & Hduration)
                         & Hspan).
      exists read, duration. repeat split; try assumption.
      apply (proj2 (Hspan _ _)).
      eexists. eexists. repeat split; try reflexivity. left. reflexivity.
    + vm_compute in Hfalse. discriminate Hfalse.
Defined.

Lemma store_twice_is_store_once_witness :
  let key := get_period_key "month_1" january_first january_last in
  let store faults object :=
    store_period_in_database Iso.parse Iso.print faults object "month_1"
      january_first january_last [standup; lunch] in
  let once := store no_faults (sample_app failing_service) in
  let twice := store (fail_at 2) (snd once) in
  snd (store no_faults (snd once)) = snd once
  /\ snd twice = snd once
  /\ is_period_in_database no_faults (snd once) key = true
  /\ is_period_in_database no_faults (snd twice) key = true
  /\ get_events_from_database no_faults (snd twice) key
     = get_events_from_database no_faults (snd once) key
  /\ fst (store no_faults (snd once)) = true.
Proof.
  destruct (store_twice_is_store_once Iso.parse Iso.print no_faults (fail_at 2)
              (sample_app failing_service) "month_1" january_first
              january_last [standup; lunch] eq_refl) as [Hsame Hsuccess].
  split; [exact Hsame|]. apply Hsuccess. reflexivity.
Defined.

Lemma store_moves_events_to_its_key_witness :
  let outcome :=
    store_period_in_database Iso.parse Iso.print no_faults january_stored
      "custom" january_first january_first_noon [lunch] in
  map ev_id (get_events_from_database no_faults january_stored
               "month_1_20240101_20240131") = [Some "1"; Some "2"]
  /\ map ev_id (get_events_from_database no_faults (snd outcome)
                  "month_1_20240101_20240131") = [Some "1"]
  /\ is_period_in_database no_faults (snd outcome) "month_1_20240101_20240131"
     = true.
Proof.
  destruct (store_moves_events_to_its_key Iso.parse Iso.print no_faults
              january_stored "custom" january_first january_first_noon [lunch])
    as (_ & H).
  - reflexivity.
  - vm_compute.
    repeat (apply NoDup_cons; [simpl; intuition discriminate|]).
    apply NoDup_nil.
  - destruct (H eq_refl) as (_ & _ & Hload & Hcomplete).
    split; [reflexivity|]. split.
    + rewrite (Hload "month_1_20240101_20240131"); [reflexivity | discriminate].
    + apply Hcomplete. reflexivity.
Defined.

(** The durations of section 8 of the specification. *)
Example all_day_march_is_8_hours :
  calculate_event_duration Iso.parse (sample_app failing_service)
    (api_event "a" "Offsite" (all_day_span "2024-03-01" "2024-03-02"))
  = Ok 8%Q.
Proof. reflexivity. Qed.

Example two_hours_and_a_half :
  exists d,
    calculate_event_duration Iso.parse (sample_app failing_service)
      (api_event "b" "Review"
         (timed_span "2024-03-01T09:00:00+00:00" "2024-03-01T11:30:00+00:00"))
    = Ok d /\ (d == 5 # 2)%Q.
Proof. eexists. split; reflexivity. Qed.

(** An end before the start: minus one day, minus eight hours. *)
Example reversed_all_day_is_negative :
  calculate_event_duration Iso.parse (sample_app failing_service)
    (api_event "c" "Reversed" (all_day_span "2024-03-02" "2024-03-01"))
  = Ok (-8)%Q.
Proof. reflexivity. Qed.

(** Instants on both sides of a change of offset: 90 minutes apart. *)
Example duration_across_offsets :
  exists d,
    calculate_event_duration Iso.parse (sample_app failing_service)
      (api_event "d" "Call"
         (timed_span "2024-02-17T23:00:00-02:00" "2024-02-17T23:30:00-03:00"))
    = Ok d /\ (d == 3 # 2)%Q.
Proof. eexists. split; reflexivity. Qed.

(** A fault on the insertion of the second event: nothing is stored. *)
Example fault_on_second_event :
  store_period_in_database Iso.parse Iso.print (fail_at 3)
    (sample_app failing_service) "month_1" january_first january_last
    [standup; lunch]
  = (false, sample_app failing_service).
Proof. reflexivity. Qed.

(** An event with an id, a summary and no ['start'] makes the store fail. *)
Example store_fails_on_event_without_start :
  store_period_in_database Iso.parse Iso.print no_faults
    (sample_app failing_service) "month_1" january_first january_last
    [standup; team_sync_without_times; lunch]
  = (false, sample_app failing_service).
Proof. reflexivity. Qed.

Example stored_january_is_read_back :
  map ev_summary
    (get_events_from_database no_faults january_stored
       "month_1_20240101_20240131")
  = [Some "@ENG Standup"; Some "Lunch"].
Proof. reflexivity. Qed.

(** The scenario of section 8: category ENG totals 8 hours with one event,
    the uncategorised total is one hour. *)
Example end_to_end_scenario :
  exists r,
    generate_report Iso.parse (sample_app failing_service) [standup; lunch]
      january_first january_first "month_1" = Ok (Printed r)
    /\ rep_sorted_categories r = [("ENG", 8%Q)]
    /\ map (fun entry => List.length (snd entry)) (rep_categorized_events r)
       = [1%nat]
    /\ map ed_summary (rep_uncategorized_events r) = ["Lunch"]
    /\ Forall (fun d => (ed_duration d == 1)%Q) (rep_uncategorized_events r).
Proof.
  eexists. split; [vm_compute; reflexivity|].
  repeat split; try reflexivity.
  repeat constructor.
Qed.

(** * Further properties *)

(** ** The stable sort *)

Section StableSort.
Context {A : Type} (before : A -> A -> bool).

Lemma insert_sorted_permutation (x : A) (l : list A) :
  Permutation (x :: l) (insert_sorted before x l).
Proof.
  induction l as [|y l IH]; simpl; [reflexivity|].
  destruct (before x y); [reflexivity|].
  rewrite perm_swap. now constructor.
Qed.

Lemma stable_sort_permutation (l : list A) :
  Permutation l (stable_sort before l).
Proof.
  induction l as [|x l IH]; simpl; [constructor|].
  rewrite <- insert_sorted_permutation. now constructor.
Qed.

Lemma stable_sort_length (l : list A) :
  List.length (stable_sort before l) = List.length l.
Proof. symmetry. apply Permutation_length, stable_sort_permutation. Qed.

(** Elements that can all stay in front of one another, those of one key,
    come out in the order they came in. *)
Lemma stable_sort_keeps_order (p : A -> bool) (l : list A) :
  (forall x y, p x = true -> p y = true -> before x y = true) ->
  filter p (stable_sort before l) = filter p l.
Proof.
  intros Hclass. induction l as [|x l IH]; simpl; [reflexivity|].
  rewrite <- IH. generalize (stable_sort before l) as sorted.
  induction sorted as [|y sorted IHs]; simpl; [reflexivity|].
  destruct (before x y) eqn:Hxy; [reflexivity|]. simpl.
  destruct (p y) eqn:Hy.
  - destruct (p x) eqn:Hx.
    + rewrite (Hclass x y Hx Hy) in Hxy. discriminate.
    + now rewrite IHs.
  - exact IHs.
Qed.

Hypothesis before_total : forall x y, before x y = true \/ before y x = true.

Lemma insert_sorted_sorted (x : A) (l : list A) :
  Sorted (fun a b => before a b = true) l ->
  Sorted (fun a b => before a b = true) (insert_sorted before x l).
Proof.
  induction l as [|y l IH]; simpl; intros Hl.
  - repeat constructor.
  - destruct (before x y) eqn:Hxy.
    + constructor; [exact Hl|]. now constructor.
    + inversion Hl as [|? ? Hl' Hhd]; subst.
      constructor; [now apply IH|].
      destruct l as [|z l]; simpl.
      * constructor. destruct (before_total x y); congruence.
      * destruct (before x z).
        -- constructor. destruct (before_total x y); congruence.
        -- constructor. now inversion Hhd.
Qed.

Lemma stable_sort_sorted (l : list A) :
  Sorted (fun a b => before a b = true) (stable_sort before l).
Proof.
  induction l as [|x l IH]; simpl; [constructor|].
  now apply insert_sorted_sorted.
Qed.

End StableSort.

Lemma Qle_bool_total (x y : Q) : Qle_bool x y = true \/ Qle_bool y x = true.
Proof.
  rewrite !Qle_bool_iff. destruct (Qlt_le_dec x y) as [H | H].
  - left. now apply Qlt_le_weak.
  - now right.
Qed.

(** ** Dicts in insertion order *)

Section Dicts.
Context {V : Type} (default : V) (f : V -> V).

Lemma dict_lookup_update (key : string) (d : list (string * V)) :
  dict_lookup default key (dict_update default f key d)
  = f (dict_lookup default key d).
Proof.
  induction d as [|[k v] d IH]; simpl.
  - now rewrite String.eqb_refl.
  - destruct (String.eqb k key) eqn:E; simpl; now rewrite E.
Qed.

Lemma dict_lookup_update_other (key other : string) (d : list (string * V)) :
  other <> key ->
  dict_lookup default other (dict_update default f key d)
  = dict_lookup default other d.
Proof.
  intros Hneq. induction d as [|[k v] d IH]; simpl.
  - destruct (String.eqb_spec key other); [congruence | reflexivity].
  - destruct (String.eqb_spec k key) as [-> | Hk]; simpl.
    + destruct (String.eqb_spec key other); [congruence | reflexivity].
    + now rewrite IH.
Qed.

Lemma dict_update_keys (key k : string) (d : list (string * V)) :
  In k (map fst (dict_update default f key d))
  <-> k = key \/ In k (map fst d).
Proof.
  induction d as [|[k0 v] d IH]; simpl.
  - intuition.
  - destruct (String.eqb_spec k0 key) as [-> | Hk]; simpl.
    + intuition.
    + rewrite IH. intuition.
Qed.

Lemma dict_update_unique (key : string) (d : list (string * V)) :
  NoDup (map fst d) -> NoDup (map fst (dict_update default f key d)).
Proof.
  induction d as [|[k0 v] d IH]; simpl; intros H.
  - repeat constructor. intros [].
  - inversion H as [|? ? Hk0 Hd]; subst.
    destruct (String.eqb_spec k0 key) as [-> | Hk]; simpl.
    + now constructor.
    + constructor; [|auto]. rewrite dict_update_keys. intuition.
Qed.

(** The entries of an updated dict: the old ones of other keys, and the
    new value of the key. *)
Lemma dict_update_entries (key c : string) (v : V) (d : list (string * V)) :
  NoDup (map fst d) ->
  In (c, v) (dict_update default f key d) ->
  (c <> key /\ In (c, v) d)
  \/ (c = key
      /\ ((exists old, In (key, old) d /\ v = f old)
          \/ (~ In key (map fst d) /\ v = f default))).
Proof.
  induction d as [|[k0 v0] d IH]; simpl; intros Hnodup Hin.
  - destruct Hin as [Hin | []]. injection Hin as <- <-. right. intuition.
  - inversion Hnodup as [|? ? Hk0 Hd]; subst.
    destruct (String.eqb_spec k0 key) as [-> | Hk]; simpl in Hin.
    + destruct Hin as [Hin | Hin].
      * injection Hin as <- <-. right. split; [reflexivity|]. left.
        exists v0. auto.
      * left. split; [|auto]. intros ->. apply Hk0.
        apply in_map_iff. now exists (key, v).
    + destruct Hin as [Hin | Hin].
      * injection Hin as <- <-. left. auto.
      * destruct (IH Hd Hin)
          as [[Hc Hold] | [-> [(old & Hold & ->) | [Hnew ->]]]].
        -- left. auto.
        -- right. split; [reflexivity|]. left. exists old. auto.
        -- right. split; [reflexivity|]. right. intuition.
Qed.

End Dicts.

Lemma dict_update_same_keys {V W : Type} (dv : V) (fv : V -> V) (dw : W)
    (fw : W -> W) (key : string) (d1 : list (string * V))
    (d2 : list (string * W)) :
  map fst d1 = map fst d2 ->
  map fst (dict_update dv fv key d1) = map fst (dict_update dw fw key d2).
Proof.
  revert d2. induction d1 as [|[k1 v1] d1 IH]; intros [|[k2 v2] d2]; simpl;
    try discriminate; [reflexivity|].
  intros H. injection H as <- H.
  destruct (String.eqb k1 key); simpl; f_equal; auto.
Qed.

Lemma listed_lists_permutation (d : event_data) (key : string)
    (cats : list (string * list event_data)) :
  Permutation (flat_map snd (dict_update [] (fun l => l ++ [d]) key cats))
              (d :: flat_map snd cats).
Proof.
  induction cats as [|[k l] cats IH]; simpl.
  - reflexivity.
  - destruct (String.eqb k key); simpl.
    + rewrite <- app_assoc. simpl.
      rewrite <- Permutation_middle. reflexivity.
    + rewrite IH. rewrite Permutation_middle. reflexivity.
Qed.

Lemma listed_record_event (d : event_data) (acc : tallies) :
  Permutation (listed (record_event d acc)) (d :: listed acc).
Proof.
  unfold listed, record_event. simpl.
  destruct (String.eqb (ed_category d) "Other").
  - rewrite app_assoc. rewrite <- Permutation_cons_append. reflexivity.
  - rewrite listed_lists_permutation. reflexivity.
Qed.

(** ** Sums of hours *)

Lemma durations_total_app (a b : list event_data) :
  (durations_total (a ++ b) == durations_total a + durations_total b)%Q.
Proof.
  induction a as [|d a IH]; simpl.
  - ring.
  - rewrite IH. ring.
Qed.

Lemma durations_total_permutation (a b : list event_data) :
  Permutation a b -> (durations_total a == durations_total b)%Q.
Proof.
  induction 1 as [|d a b _ IH|d d' a|a b c _ IH1 _ IH2]; simpl.
  - reflexivity.
  - now rewrite IH.
  - ring.
  - now rewrite IH1.
Qed.

(** ** The loop of the report *)

Lemma record_all_invariant (P : tallies -> Prop) (ds : list event_data) :
  forall acc,
    P acc ->
    (forall a d, In d ds -> P a -> P (record_event d a)) ->
    P (record_all ds acc).
Proof.
  induction ds as [|d ds IH]; intros acc Hacc Hstep; simpl.
  - exact Hacc.
  - apply IH.
    + apply Hstep; [now left | exact Hacc].
    + intros a d' Hd'. apply Hstep. now right.
Qed.

Lemma listed_record_all (ds : list event_data) :
  forall acc, Permutation (listed (record_all ds acc)) (ds ++ listed acc).
Proof.
  induction ds as [|d ds IH]; intros acc; simpl.
  - reflexivity.
  - rewrite IH, listed_record_event. symmetry. apply Permutation_middle.
Qed.

Section ReportLoop.
Variable fromisoformat : string -> result datetime.

(** The loop body passes over an event without summary and records the
    [event_data] of any other event, or raises. *)
Lemma process_event_records (self : GoogleCalendarReport) (acc acc' : tallies)
    (ev : event) :
  process_event fromisoformat self acc ev = Ok acc' ->
  match ev_summary ev with
  | None => acc' = acc
  | Some summary =>
      exists d, ed_summary d = summary /\ categorized_by_rule d
                /\ acc' = record_event d acc
  end.
Proof.
  unfold process_event, categorized_by_rule, categorize. intros H.
  destruct (ev_summary ev) as [summary|]; [|now injection H as <-].
  destruct (Re.category_match summary) as [[category subcategory]|] eqn:Hm;
    unfold bind in H;
    (destruct (subscript "start" (ev_start ev)) as [start_|];
       [|discriminate]);
    match type of H with
    | match ?shown with _ => _ end = _ =>
        destruct shown as [[[[[date from] to] hours] label]|];
          [|discriminate]
    end;
    injection H as <-;
    exists (mk_event_data summary
              (snd (categorize summary)) date from to hours label
              (fst (categorize summary))
              (dict_get (ev_colorId ev) (Some "")));
    unfold categorize; rewrite Hm; simpl; rewrite ?Hm; repeat split.
Qed.

Lemma process_events_records (self : GoogleCalendarReport)
    (events : list event) :
  forall acc acc',
    process_events fromisoformat self acc events = Ok acc' ->
    exists ds, acc' = record_all ds acc
               /\ map ed_summary ds = titles events
               /\ Forall categorized_by_rule ds.
Proof.
  induction events as [|ev events IH]; intros acc acc' H; simpl in H.
  - injection H as <-. exists []. repeat split. constructor.
  - unfold bind in H.
    destruct (process_event fromisoformat self acc ev) as [acc1|] eqn:Hev;
      [|discriminate].
    apply process_event_records in Hev.
    destruct (IH acc1 acc' H) as (ds & -> & Htitles & Hrule).
    simpl. destruct (ev_summary ev) as [summary|].
    + destruct Hev as (d & Hd & Hdrule & ->).
      exists (d :: ds). simpl. rewrite Hd, Htitles.
      repeat split. now constructor.
    + subst acc1. exists ds. auto.
Qed.

End ReportLoop.

(** *** Hours are added once, in the order of the loop *)

Lemma record_all_title_total (title : string) (ds : list event_data) :
  forall acc,
    dict_lookup 0%Q title (event_durations (record_all ds acc))
    = fold_left (fun total d => (total + ed_duration d)%Q)
        (filter (has_title title) ds)
        (dict_lookup 0%Q title (event_durations acc)).
Proof.
  induction ds as [|d ds IH]; intros acc; simpl; [reflexivity|].
  rewrite IH. unfold has_title at 2, record_event. simpl.
  destruct (String.eqb_spec (ed_summary d) title) as [<- | Hne]; simpl.
  - now rewrite dict_lookup_update.
  - rewrite dict_lookup_update_other by congruence. reflexivity.
Qed.

Lemma record_all_category_total (category : string)
    (ds : list event_data) :
  forall acc,
    dict_lookup 0%Q category (category_durations (record_all ds acc))
    = fold_left (fun total d => (total + ed_duration d)%Q)
        (filter (in_category category) ds)
        (dict_lookup 0%Q category (category_durations acc)).
Proof.
  induction ds as [|d ds IH]; intros acc; simpl; [reflexivity|].
  rewrite IH. unfold in_category at 2, record_event. simpl.
  destruct (String.eqb_spec (ed_category d) category) as [<- | Hne]; simpl.
  - now rewrite dict_lookup_update.
  - rewrite dict_lookup_update_other by congruence. reflexivity.
Qed.

(** *** The headers and the rows agree *)

Lemma headers_match_record_event (d : event_data) (a : tallies) :
  headers_match a -> headers_match (record_event d a).
Proof.
  intros (Hnodup & Hcats & Habsent & Hother & Huncats).
  unfold headers_match, record_event. simpl.
  destruct (String.eqb_spec (ed_category d) "Other") as [E | E].
  - rewrite E. split; [exact Hnodup|]. split; [|split; [|split]].
    + intros c l Hin. destruct (Hcats c l Hin) as (Hc & Hl & Hd & Hsum).
      rewrite dict_lookup_update_other by exact Hc. auto.
    + intros c Hc Hnot. rewrite dict_lookup_update_other by exact Hc. auto.
    + rewrite dict_lookup_update, durations_total_app, Hother. simpl. ring.
    + intros d' Hd'. apply in_app_or in Hd'.
      destruct Hd' as [Hd' | [<- | []]]; auto.
  - split; [now apply dict_update_unique|]. split; [|split; [|split]].
    + intros c l Hin.
      apply dict_update_entries in Hin; [|exact Hnodup].
      destruct Hin as [[Hc Hin] | [-> [(old & Hin & ->) | [Hnot ->]]]].
      * destruct (Hcats c l Hin) as (Hc' & Hl & Hd & Hsum).
        rewrite dict_lookup_update_other by exact Hc. auto.
      * destruct (Hcats _ old Hin) as (Hc' & Hl & Hd & Hsum).
        split; [exact E|]. split; [now destruct old|]. split.
        -- intros d' Hd'. apply in_app_or in Hd'.
           destruct Hd' as [Hd' | [<- | []]]; auto.
        -- rewrite dict_lookup_update, durations_total_app, Hsum. simpl. ring.
      * split; [exact E|]. split; [discriminate|]. split.
        -- intros d' [<- | []]. reflexivity.
        -- rewrite dict_lookup_update, (Habsent _ E Hnot). simpl. ring.
    + intros c Hc Hnot. rewrite dict_update_keys in Hnot.
      rewrite dict_lookup_update_other by intuition. apply Habsent; intuition.
    + rewrite dict_lookup_update_other by congruence. exact Hother.
    + exact Huncats.
Qed.

Lemma headers_match_record_all (ds : list event_data) :
  headers_match (record_all ds empty_tallies).
Proof.
  apply record_all_invariant.
  - unfold headers_match. simpl. split; [constructor|].
    repeat split; try reflexivity; intros; contradiction.
  - intros a d _. apply headers_match_record_event.
Qed.

(** *** Titles, counts and totals *)

Lemma filter_permutation {A : Type} (p : A -> bool) (a b : list A) :
  Permutation a b -> Permutation (filter p a) (filter p b).
Proof.
  induction 1 as [|x a b _ IH|x y a|a b c _ IH1 _ IH2]; simpl.
  - constructor.
  - destruct (p x); [now constructor | exact IH].
  - destruct (p x), (p y); try reflexivity. apply perm_swap.
  - now rewrite IH1.
Qed.

Lemma titles_match_record_event (d : event_data) (a : tallies) :
  titles_match a -> titles_match (record_event d a).
Proof.
  intros (Hkeys & Hnodup & Hcount & Htotal & Hin).
  pose proof (listed_record_event d a) as Hperm.
  unfold titles_match. simpl event_count. simpl event_durations.
  split; [now apply dict_update_same_keys|].
  split; [now apply dict_update_unique|]. split; [|split].
  - intros title.
    rewrite (proj1 (Permutation_count_occ string_dec _ _)
               (Permutation_map ed_summary Hperm) title).
    simpl. destruct (String.eqb_spec (ed_summary d) title) as [<- | Hneq].
    + rewrite dict_lookup_update, Hcount.
      now destruct (string_dec (ed_summary d) (ed_summary d)).
    + rewrite dict_lookup_update_other by congruence. rewrite Hcount.
      now destruct (string_dec (ed_summary d) title).
  - intros title.
    rewrite (durations_total_permutation _ _
               (filter_permutation (has_title title) _ _ Hperm)).
    simpl. unfold has_title at 1.
    destruct (String.eqb_spec (ed_summary d) title) as [<- | Hneq].
    + rewrite dict_lookup_update, Htotal. simpl. ring.
    + rewrite dict_lookup_update_other by congruence. apply Htotal.
  - intros title. rewrite dict_update_keys, Hin.
    rewrite (Permutation_in' (eq_refl title)
               (Permutation_map ed_summary Hperm)).
    simpl. intuition.
Qed.

Lemma titles_match_record_all (ds : list event_data) :
  titles_match (record_all ds empty_tallies).
Proof.
  apply record_all_invariant.
  - unfold titles_match. simpl. split; [reflexivity|].
    split; [constructor|]. repeat split; try reflexivity; intros [].
  - intros a d _. apply titles_match_record_event.
Qed.

(** *** The printed report *)

Lemma sorted_weaken {A : Type} (R S : A -> A -> Prop) (l : list A) :
  (forall x y, R x y -> S x y) -> Sorted R l -> Sorted S l.
Proof.
  intros Himp. induction 1 as [|x l _ IH Hhd]; constructor; [exact IH|].
  destruct Hhd; constructor. auto.
Qed.

Lemma titles_length (events : list event) :
  (List.length (titles events) <= List.length events)%nat.
Proof.
  induction events as [|ev events IH]; simpl; [lia|].
  destruct (ev_summary ev); simpl; lia.
Qed.

Section PrintedReport.
Variable fromisoformat : string -> result datetime.

(** What a printed report is made of. *)
Lemma generate_report_printed (self : GoogleCalendarReport)
    (events : list event) (s e : datetime) (kind : string) (r : report) :
  generate_report fromisoformat self events s e kind = Ok (Printed r) ->
  events <> []
  /\ exists acc,
      process_events fromisoformat self empty_tallies events = Ok acc
      /\ rep_all_events r = stable_sort by_date (listed acc)
      /\ rep_sorted_categories r
         = stable_sort by_total
             (map (fun entry =>
                     (fst entry,
                      dict_lookup 0%Q (fst entry) (category_durations acc)))
                  (categorized_events acc))
      /\ rep_categorized_events r = categorized_events acc
      /\ rep_uncategorized_events r
         = stable_sort by_duration (uncategorized_events acc)
      /\ rep_total_events r = List.length events.
Proof.
  unfold generate_report. destruct events as [|ev events]; [discriminate|].
  destruct (process_events fromisoformat self empty_tallies (ev :: events))
    as [acc|err]; simpl; [|discriminate].
  intros H. injection H as <-. split; [discriminate|].
  exists acc. repeat split.
Qed.

Lemma listed_titles (self : GoogleCalendarReport) (events : list event)
    (acc : tallies) :
  process_events fromisoformat self empty_tallies events = Ok acc ->
  Permutation (map ed_summary (listed acc)) (titles events).
Proof.
  intros H. apply process_events_records in H.
  destruct H as (ds & -> & <- & _).
  apply Permutation_map.
  rewrite listed_record_all. unfold listed. simpl. now rewrite app_nil_r.
Qed.

(** X1.  In a printed report the rows of the chronological listing are
    the rows the loop made, one for each event with a summary, and every row
    was added once to the total of its title and once to the total of its
    category, ["Other"] included: each of these totals is what the loop got
    by adding, from zero and in the order of the events, the durations of
    the rows of that title, or of that category. *)
Theorem report_counts_every_hour_once (self : GoogleCalendarReport)
    (events : list event) (s e : datetime) (kind : string) (r : report) :
  generate_report fromisoformat self events s e kind = Ok (Printed r) ->
  exists acc rows,
    process_events fromisoformat self empty_tallies events = Ok acc
    /\ map ed_summary rows = titles events
    /\ Permutation rows (rep_all_events r)
    /\ (forall title,
           dict_lookup 0%Q title (event_durations acc)
           = accumulated (filter (has_title title) rows))
    /\ (forall category,
           dict_lookup 0%Q category (category_durations acc)
           = accumulated (filter (in_category category) rows)).
Proof.
  intros H. apply generate_report_printed in H.
  destruct H as (_ & acc & Hacc & -> & _).
  pose proof Hacc as Hrec. apply process_events_records in Hrec.
  destruct Hrec as (rows & Heq & Htitles & _).
  exists acc, rows. split; [exact Hacc|]. split; [exact Htitles|].
  split; [|split].
  - rewrite <- (stable_sort_permutation by_date (listed acc)).
    rewrite Heq, listed_record_all. unfold listed. simpl.
    now rewrite app_nil_r.
  - intros title. rewrite Heq. apply record_all_title_total.
  - intros category. rewrite Heq. apply record_all_category_total.
Qed.


(** X3.  After the loop the dict of counts and the dict of totals by title
    have the same titles, each once, which are the summaries of the events;
    the count of a title is the number of events with that summary. *)
Theorem titles_are_counted (self : GoogleCalendarReport)
    (events : list event) (acc : tallies) :
  process_events fromisoformat self empty_tallies events = Ok acc ->
  map fst (event_count acc) = map fst (event_durations acc)
  /\ NoDup (map fst (event_durations acc))
  /\ (forall title,
         In title (map fst (event_durations acc)) <-> In title (titles events))
  /\ (forall title,
         dict_lookup O title (event_count acc)
         = count_occ string_dec (titles events) title).
Proof.
  intros Hacc. pose proof (listed_titles self events acc Hacc) as Hperm.
  apply process_events_records in Hacc. destruct Hacc as (ds & Heq & _).
  pose proof (titles_match_record_all ds) as Hmatch. rewrite <- Heq in Hmatch.
  destruct Hmatch as (Hkeys & Hnodup & Hcount & _ & Hin).
  split; [exact Hkeys|]. split; [exact Hnodup|]. split.
  - intros title. rewrite Hin. split; apply Permutation_in;
      [exact Hperm | exact (Permutation_sym Hperm)].
  - intros title. rewrite Hcount.
    apply (proj1 (Permutation_count_occ string_dec _ _) Hperm).
Qed.

(** X4.  The chronological listing of a printed report has one row for
    each event with a summary, whatever the order, in non-decreasing order
    of the date text, the rows of one date in the order categorised events
    then uncategorised events had; "Total events" is the number of events
    given, which counts the events without summary too. *)
Theorem chronological_listing (self : GoogleCalendarReport)
    (events : list event) (s e : datetime) (kind : string) (r : report) :
  generate_report fromisoformat self events s e kind = Ok (Printed r) ->
  Permutation (map ed_summary (rep_all_events r)) (titles events)
  /\ Sorted (fun x y => String.leb (ed_date x) (ed_date y) = true)
            (rep_all_events r)
  /\ (exists acc,
         process_events fromisoformat self empty_tallies events = Ok acc
         /\ forall date,
             filter (fun d => String.eqb (ed_date d) date) (rep_all_events r)
             = filter (fun d => String.eqb (ed_date d) date) (listed acc))
  /\ rep_total_events r = List.length events
  /\ (List.length (rep_all_events r) <= rep_total_events r)%nat.
Proof.
  intros H. apply generate_report_printed in H.
  destruct H as (_ & acc & Hacc & Hall & _ & _ & _ & Htotal).
  assert (Hperm : Permutation (map ed_summary (rep_all_events r))
                    (titles events)).
  { rewrite Hall, <- (listed_titles self events acc Hacc).
    apply Permutation_map, Permutation_sym, stable_sort_permutation. }
  split; [exact Hperm|]. split; [|split; [|split]].
  - rewrite Hall. apply (stable_sort_sorted by_date).
    intros x y. apply String.leb_total.
  - exists acc. split; [exact Hacc|]. intros date. rewrite Hall.
    apply stable_sort_keeps_order. intros x y Hx Hy. unfold by_date.
    apply String.eqb_eq in Hx, Hy. rewrite Hx, Hy.
    destruct (String.leb_total date date); assumption.
  - exact Htotal.
  - rewrite Htotal, <- (length_map ed_summary), (Permutation_length Hperm).
    apply titles_length.
Qed.

(** X5.  In a printed report the categories come by total, the largest
    first, each category of the loop once; the uncategorised events come by
    duration, the longest first, and are those the loop collected. *)
Theorem listings_by_duration (self : GoogleCalendarReport)
    (events : list event) (s e : datetime) (kind : string) (r : report) :
  generate_report fromisoformat self events s e kind = Ok (Printed r) ->
  Sorted (fun x y => (snd y <= snd x)%Q) (rep_sorted_categories r)
  /\ Permutation (map fst (rep_sorted_categories r))
                 (map fst (rep_categorized_events r))
  /\ NoDup (map fst (rep_sorted_categories r))
  /\ Sorted (fun x y => (ed_duration y <= ed_duration x)%Q)
            (rep_uncategorized_events r)
  /\ exists acc,
      process_events fromisoformat self empty_tallies events = Ok acc
      /\ Permutation (rep_uncategorized_events r) (uncategorized_events acc).
Proof.
  intros H. apply generate_report_printed in H.
  destruct H as (_ & acc & Hacc & _ & -> & -> & -> & _).
  assert (Hnames : Permutation
                     (map fst (stable_sort by_total
                                 (map (fun entry =>
                                         (fst entry,
                                          dict_lookup 0%Q (fst entry)
                                            (category_durations acc)))
                                      (categorized_events acc))))
                     (map fst (categorized_events acc))).
  { rewrite <- (stable_sort_permutation by_total). now rewrite map_map. }
  split; [|split; [|split; [|split]]].
  - apply (sorted_weaken (fun x y => by_total x y = true)).
    + intros x y Hxy. now apply Qle_bool_iff.
    + apply stable_sort_sorted. intros x y. apply Qle_bool_total.
  - exact Hnames.
  - apply (Permutation_NoDup (Permutation_sym Hnames)).
    pose proof Hacc as Hrec. apply process_events_records in Hrec.
    destruct Hrec as (ds & -> & _). apply headers_match_record_all.
  - apply (sorted_weaken (fun x y => by_duration x y = true)).
    + intros x y Hxy. now apply Qle_bool_iff.
    + apply stable_sort_sorted. intros x y. apply Qle_bool_total.
  - exists acc. split; [exact Hacc|].
    apply Permutation_sym, stable_sort_permutation.
Qed.

End PrintedReport.

Section ReportRuns.
Variable fromisoformat : string -> result datetime.

Lemma process_event_untitled (self : GoogleCalendarReport) (acc : tallies)
    (ev : event) :
  has_summary ev = false -> process_event fromisoformat self acc ev = Ok acc.
Proof.
  unfold has_summary, process_event. now destruct (ev_summary ev).
Qed.

(** X6.  The loop of the report gives the same tallies, or the same
    exception, when the events without summary are taken out of the list
    first: they change nothing but the count "Total events". *)
Theorem events_without_summary_are_passed_over (self : GoogleCalendarReport)
    (events : list event) (acc : tallies) :
  process_events fromisoformat self acc events
  = process_events fromisoformat self acc (filter has_summary events).
Proof.
  revert acc. induction events as [|ev events IH]; intros acc; simpl.
  - reflexivity.
  - destruct (has_summary ev) eqn:Hev; simpl.
    + destruct (process_event fromisoformat self acc ev); simpl; auto.
    + rewrite (process_event_untitled self acc ev Hev). simpl. apply IH.
Qed.

Lemma process_event_needs_reportable (self : GoogleCalendarReport)
    (acc acc' : tallies) (ev : event) :
  has_summary ev = true ->
  process_event fromisoformat self acc ev = Ok acc' ->
  reportable fromisoformat ev.
Proof.
  unfold has_summary, process_event, bind, subscript.
  destruct (ev_summary ev) as [summary|]; [|discriminate]. intros _.
  destruct (Re.category_match summary) as [[category subcategory]|];
    (destruct (ev_start ev) as [start_|] eqn:Hstart; [|discriminate]);
    (destruct (td_date start_) as [start_text|] eqn:Hdate;
     [ destruct (ev_end ev) as [end_|] eqn:Hstop; [|discriminate];
       destruct (td_date end_) as [end_text|] eqn:Hend; [|discriminate];
       destruct (fromisoformat start_text) as [sv|] eqn:Hs; [|discriminate];
       destruct (fromisoformat end_text) as [ev'|] eqn:He; [|discriminate];
       destruct (Calendar.sub ev' sv) as [delta|] eqn:Hd; [|discriminate];
       intros _; exists start_, end_;
       split; [exact Hstart|]; split; [exact Hstop|]; rewrite Hdate;
       exists end_text; split; [exact Hend|]; exists sv, ev', delta; auto
     | destruct (td_dateTime start_) as [start_text|] eqn:Hst; [|discriminate];
       destruct (fromisoformat (replace_Z start_text)) as [sv|] eqn:Hs;
         [|discriminate];
       destruct (ev_end ev) as [end_|] eqn:Hstop; [|discriminate];
       destruct (td_dateTime end_) as [end_text|] eqn:Hen; [|discriminate];
       destruct (fromisoformat (replace_Z end_text)) as [ev'|] eqn:He;
         [|discriminate];
       destruct (Calendar.sub ev' sv) as [delta|] eqn:Hd; [|discriminate];
       intros _; exists start_, end_;
       split; [exact Hstart|]; split; [exact Hstop|]; rewrite Hdate;
       exists start_text, end_text;
       split; [exact Hst|]; split; [exact Hen|];
       exists sv, ev', delta; auto ]).
Qed.

Lemma reportable_is_processed (self : GoogleCalendarReport) (acc : tallies)
    (ev : event) :
  reportable fromisoformat ev ->
  exists acc', process_event fromisoformat self acc ev = Ok acc'.
Proof.
  intros (start_ & end_ & Hstart & Hend & Hspan).
  unfold process_event. destruct (ev_summary ev) as [summary|];
    [|now exists acc].
  rewrite Hstart, Hend. simpl.
  destruct (Re.category_match summary) as [[category subcategory]|];
    (destruct (td_date start_) as [start_text|];
     [ destruct Hspan as (end_text & Hen & sv & ev' & delta & Hs & He & Hd)
     | destruct Hspan as (start_text & end_text & Hst & Hen & sv & ev' & delta
                          & Hs & He & Hd) ];
     unfold bind, subscript; rewrite ?Hst, ?Hen; simpl;
     rewrite Hs; simpl; rewrite ?Hen; simpl; rewrite He; simpl;
     rewrite Hd; simpl; eexists; reflexivity).
Qed.

Lemma process_events_needs_reportable (self : GoogleCalendarReport)
    (events : list event) :
  forall acc acc',
    process_events fromisoformat self acc events = Ok acc' ->
    forall ev, In ev events -> has_summary ev = true ->
               reportable fromisoformat ev.
Proof.
  induction events as [|ev0 events IH]; intros acc acc' H ev Hin Hsum.
  - destruct Hin.
  - simpl in H. unfold bind in H.
    destruct (process_event fromisoformat self acc ev0) as [acc1|] eqn:H0;
      [|discriminate].
    destruct Hin as [-> | Hin].
    + exact (process_event_needs_reportable self acc acc1 ev Hsum H0).
    + exact (IH acc1 acc' H ev Hin Hsum).
Qed.

Lemma reportable_events_are_processed (self : GoogleCalendarReport)
    (events : list event) :
  (forall ev, In ev events -> has_summary ev = true ->
              reportable fromisoformat ev) ->
  forall acc, exists acc',
    process_events fromisoformat self acc events = Ok acc'.
Proof.
  induction events as [|ev events IH]; intros Hall acc; simpl.
  - now exists acc.
  - assert (Hev : exists acc1,
               process_event fromisoformat self acc ev = Ok acc1).
    { destruct (has_summary ev) eqn:Hsum.
      - apply reportable_is_processed. apply Hall; [now left | exact Hsum].
      - exists acc. now apply process_event_untitled. }
    destruct Hev as (acc1 & ->). simpl. apply IH.
    intros ev' Hin. apply Hall. now right.
Qed.

Lemma sub_is_defined (s e : datetime) :
  (exists delta, Calendar.sub e s = Ok delta)
  <-> (dt_utcoffset s = None <-> dt_utcoffset e = None).
Proof.
  unfold Calendar.sub.
  destruct (dt_utcoffset e) as [oe|], (dt_utcoffset s) as [os|]; split.
  - intros _. split; intros H; discriminate H.
  - intros _. eexists. reflexivity.
  - intros (delta & H). discriminate H.
  - intros [H _]. discriminate (H eq_refl).
  - intros (delta & H). discriminate H.
  - intros [_ H]. discriminate (H eq_refl).
  - intros _. split; reflexivity.
  - intros _. eexists. reflexivity.
Qed.

(** X7.  The report with its time summary is printed exactly when the
    list of events is not empty, every event with a summary has a ['start']
    and an ['end'] that give two dates, or no date at the start and two
    instants, whose texts [fromisoformat] accepts and whose values can be
    subtracted, and the two ends of the range are both naive or both aware;
    any other event with a summary, and any other range, makes the report
    raise. *)
Theorem report_is_printed_iff_reportable (self : GoogleCalendarReport)
    (events : list event) (s e : datetime) (kind : string) :
  (exists r summary,
      generate_report_with_time_summary fromisoformat self events s e kind
      = Ok (Printed r, Some summary))
  <-> events <> []
      /\ (forall ev, In ev events -> has_summary ev = true ->
                     reportable fromisoformat ev)
      /\ (dt_utcoffset s = None <-> dt_utcoffset e = None).
Proof.
  unfold generate_report_with_time_summary. split.
  - intros (r & summary & H).
    destruct events as [|ev events]; [discriminate|].
    split; [discriminate|]. unfold bind in H.
    destruct (process_events fromisoformat self empty_tallies (ev :: events))
      as [acc|] eqn:Hacc; [|discriminate].
    split; [exact (process_events_needs_reportable self _ _ _ Hacc)|].
    apply sub_is_defined. unfold summarize_time, bind in H.
    destruct (Calendar.sub e s) as [delta|]; [|discriminate].
    now exists delta.
  - intros (Hnonempty & Hall & Hrange).
    destruct (reportable_events_are_processed self events Hall empty_tallies)
      as (acc & Hacc).
    apply sub_is_defined in Hrange. destruct Hrange as (delta & Hdelta).
    destruct events as [|ev events]; [congruence|].
    unfold generate_report, summarize_time. rewrite Hacc, Hdelta.
    simpl. eexists. eexists. reflexivity.
Qed.

End ReportRuns.

(** ** Subcategories *)

Lemma sorted_map {A B : Type} (R : A -> A -> Prop) (S : B -> B -> Prop)
    (f : A -> B) (l : list A) :
  Sorted R l -> (forall x y, R x y -> S (f x) (f y)) -> Sorted S (map f l).
Proof.
  intros Hl Himp. induction Hl as [|x l _ IH Hhd]; simpl; constructor;
    [exact IH|].
  destruct Hhd; simpl; constructor. auto.
Qed.

Lemma accumulated_app (l : list event_data) (d : event_data) :
  accumulated (l ++ [d]) = (accumulated l + ed_duration d)%Q.
Proof. unfold accumulated. now rewrite fold_left_app. Qed.

Lemma filter_in_subcategory_app (k : string) (seen : list event_data)
    (d : event_data) :
  filter (in_subcategory k) (seen ++ [d])
  = if String.eqb (ed_subcategory d) k
    then filter (in_subcategory k) seen ++ [d]
    else filter (in_subcategory k) seen.
Proof.
  rewrite filter_app. simpl. unfold in_subcategory at 2.
  destruct (String.eqb (ed_subcategory d) k); [reflexivity|].
  apply app_nil_r.
Qed.

Lemma groups_match_step (seen : list event_data) (d : event_data)
    (state : list (string * list event_data) * list (string * Q)) :
  groups_match seen state ->
  groups_match (seen ++ [d])
    (dict_update [] (fun l => l ++ [d]) (ed_subcategory d) (fst state),
     dict_update 0%Q (fun total => (total + ed_duration d)%Q)
       (ed_subcategory d) (snd state)).
Proof.
  intros (Hnodup & Hperm & Hgroups & Habsent).
  unfold groups_match. simpl fst. simpl snd.
  split; [now apply dict_update_unique|]. split; [|split].
  - rewrite listed_lists_permutation, Hperm. apply Permutation_cons_append.
  - intros k l Hin. apply dict_update_entries in Hin; [|exact Hnodup].
    rewrite filter_in_subcategory_app.
    destruct Hin as [[Hk Hin] | [-> [(old & Hin & ->) | [Hnot ->]]]].
    + destruct (Hgroups k l Hin) as (Hl & Hd & Horder & Hsum).
      rewrite dict_lookup_update_other by exact Hk.
      destruct (String.eqb_spec (ed_subcategory d) k); [congruence|].
      auto.
    + destruct (Hgroups _ old Hin) as (Hl & Hd & Horder & Hsum).
      rewrite String.eqb_refl.
      split; [now destruct old|]. split; [|split].
      * intros d' Hd'. apply in_app_or in Hd'.
        destruct Hd' as [Hd' | [<- | []]]; auto.
      * now rewrite <- Horder.
      * now rewrite dict_lookup_update, accumulated_app, Hsum.
    + destruct (Habsent _ Hnot) as (Hnone & Hzero).
      rewrite String.eqb_refl.
      split; [discriminate|]. split; [|split].
      * intros d' [<- | []]. reflexivity.
      * now rewrite Hnone.
      * now rewrite dict_lookup_update, Hzero.
  - intros k Hnot. rewrite dict_update_keys in Hnot.
    rewrite filter_in_subcategory_app.
    rewrite dict_lookup_update_other by intuition.
    destruct (String.eqb_spec (ed_subcategory d) k) as [Heq | _];
      [exfalso; apply Hnot; now left|].
    apply Habsent. intuition.
Qed.

Lemma group_by_subcategory_matches (events_list : list event_data) :
  groups_match events_list (group_by_subcategory events_list).
Proof.
  unfold group_by_subcategory.
  assert (Hgen : forall seen state,
             groups_match seen state ->
             groups_match (seen ++ events_list)
               (fold_left
                  (fun state event =>
                     (dict_update [] (fun l => l ++ [event])
                        (ed_subcategory event) (fst state),
                      dict_update 0%Q
                        (fun total => (total + ed_duration event)%Q)
                        (ed_subcategory event) (snd state)))
                  events_list state)).
  { induction events_list as [|d rest IH]; intros seen state Hstate; simpl.
    - now rewrite app_nil_r.
    - replace (seen ++ d :: rest) with ((seen ++ [d]) ++ rest)
        by (now rewrite <- app_assoc).
      apply IH. now apply groups_match_step. }
  apply (Hgen [] ([], [])). unfold groups_match. simpl.
  split; [constructor|]. split; [constructor|].
  split; [intros k l []|]. intros. split; reflexivity.
Qed.

(** X8.  The sections printed for the subcategories of a category hold
    every event of the category once, each under its own subcategory and
    no subcategory twice; the events of a section are the events of the
    category with that subcategory, by date; its total is what the loop got
    by adding their durations from zero in the order they have in the
    category; its number of occurrences is the number of its events and is
    not zero; the sections come by total, the largest first. *)
Theorem subcategory_sections_cover_the_category
    (events_list : list event_data) :
  let sections := subcategory_sections events_list in
  Permutation (flat_map sub_events sections) events_list
  /\ NoDup (map sub_name sections)
  /\ (forall section,
         In section sections ->
         let rows :=
           filter (in_subcategory (sub_name section)) events_list in
         (forall d, In d (sub_events section) ->
                    ed_subcategory d = sub_name section)
         /\ Permutation (sub_events section) rows
         /\ sub_total section = accumulated rows
         /\ sub_occurrences section = List.length (sub_events section)
         /\ (0 < sub_occurrences section)%nat
         /\ Sorted (fun x y => String.leb (ed_date x) (ed_date y) = true)
                   (sub_events section))
  /\ Sorted (fun x y => (sub_total y <= sub_total x)%Q) sections.
Proof.
  cbv zeta. unfold subcategory_sections.
  destruct (group_by_subcategory_matches events_list)
    as (Hnodup & Hperm & Hgroups & _).
  set (groups := fst (group_by_subcategory events_list)) in *.
  set (durations := snd (group_by_subcategory events_list)) in *.
  set (before := fun x y : string * list event_data =>
                   Qle_bool (dict_lookup 0%Q (fst y) durations)
                            (dict_lookup 0%Q (fst x) durations)).
  pose proof (stable_sort_permutation before groups) as Hsorted.
  split; [|split; [|split]].
  - transitivity (flat_map snd (stable_sort before groups)).
    + generalize (stable_sort before groups) as l.
      induction l as [|[k evs] l IH]; simpl; [constructor|].
      apply Permutation_app; [|exact IH].
      apply Permutation_sym, stable_sort_permutation.
    + transitivity (flat_map snd groups); [|exact Hperm].
      apply Permutation_flat_map, Permutation_sym, Hsorted.
  - rewrite map_map. simpl.
    apply (Permutation_NoDup (Permutation_map fst Hsorted) Hnodup).
  - intros section Hin. apply in_map_iff in Hin.
    destruct Hin as ([k l] & <- & Hin). simpl.
    apply (Permutation_in _ (Permutation_sym Hsorted)) in Hin.
    destruct (Hgroups k l Hin) as (Hl & Hd & Horder & Hsum).
    split; [|split; [|split; [|split; [|split]]]].
    + intros d Hdin. apply Hd.
      apply (Permutation_in _ (Permutation_sym
                                 (stable_sort_permutation by_date l)) Hdin).
    + rewrite <- Horder. apply Permutation_sym, stable_sort_permutation.
    + now rewrite <- Horder.
    + now rewrite stable_sort_length.
    + destruct l; [congruence | simpl; lia].
    + apply (stable_sort_sorted by_date). intros x y. apply String.leb_total.
  - assert (Hs : Sorted (fun x y => before x y = true)
                   (stable_sort before groups)).
    { apply stable_sort_sorted. intros x y. apply Qle_bool_total. }
    apply (sorted_map _ _ _ _ Hs). intros x y Hxy. simpl.
    now apply Qle_bool_iff.
Qed.

(** ** The time summary *)






(** ** The pages of the service *)

Lemma pages_fail_or_answer (answer : response) :
  (exists items, pages_items answer = Some items /\ failure_of answer = None)
  \/ (exists e, pages_items answer = None /\ failure_of answer = Some e).
Proof.
  induction answer as [items|items next IH|e]; simpl.
  - left. eauto.
  - destruct IH as [(rest & -> & ->) | (e & -> & ->)]; [left | right]; eauto.
  - right. eauto.
Qed.

Lemma fetch_pages_items (answer : response) (events_result : list event) :
  fetch_pages answer events_result
  = match pages_items answer, failure_of answer with
    | Some items, _ => Ok (events_result ++ items)
    | None, Some e => Raise e
    | None, None => Ok events_result
    end.
Proof.
  revert events_result.
  induction answer as [items|items next IH|e]; intros events_result; simpl.
  - reflexivity.
  - rewrite IH.
    destruct (pages_fail_or_answer next) as [(rest & -> & _) | (e & -> & ->)];
      [now rewrite app_assoc | reflexivity].
  - reflexivity.
Qed.

(** X10.  [fetch_calendars] returns a list exactly when no call on any of
    the calendars fails, and the list is then what it started from followed
    by the items of every page of every calendar, calendar after calendar
    and page after page. *)
Theorem fetch_gathers_every_page (service : calendar_service)
    (time_min time_max : string) (calendars : list string)
    (events_result : list event) :
  ((exists fetched,
       fetch_calendars service time_min time_max calendars events_result
       = Ok fetched)
   <-> forall c, In c calendars ->
                 failure_of (service c time_min time_max) = None)
  /\ forall fetched,
      fetch_calendars service time_min time_max calendars events_result
      = Ok fetched ->
      fetched
      = events_result
        ++ flat_map (fun c =>
                       dict_get (pages_items (service c time_min time_max)) [])
                    calendars.
Proof.
  revert events_result.
  induction calendars as [|c calendars IH]; intros events_result; simpl.
  - split.
    + split; [intros _ c [] | intros _; eauto].
    + intros fetched H. injection H as <-. now rewrite app_nil_r.
  - rewrite fetch_pages_items.
    destruct (pages_fail_or_answer (service c time_min time_max))
      as [(items & Hitems & Hnone) | (e & Hitems & Hsome)];
      rewrite Hitems; [|rewrite Hsome]; simpl.
    + destruct (IH (events_result ++ items)) as [Hiff Hlist]. split.
      * rewrite Hiff. split.
        -- intros H c' [<- | Hin]; auto.
        -- intros H c' Hin. apply H. now right.
      * intros fetched H. rewrite (Hlist fetched H). now rewrite app_assoc.
    + split.
      * split.
        -- intros (fetched & H). discriminate.
        -- intros H. specialize (H c (or_introl eq_refl)). congruence.
      * intros fetched H. discriminate.
Qed.

(** The first calendar with a failing call decides the exception. *)
Lemma fetch_stops_at_first_failure (service : calendar_service)
    (time_min time_max : string) (before after : list string) (c : string)
    (e : exn) (events_result : list event) :
  (forall c', In c' before ->
              failure_of (service c' time_min time_max) = None) ->
  failure_of (service c time_min time_max) = Some e ->
  fetch_calendars service time_min time_max (before ++ c :: after)
    events_result = Raise e.
Proof.
  revert events_result.
  induction before as [|c0 before IH]; intros events_result Hbefore Hfail;
    simpl; rewrite fetch_pages_items.
  - destruct (pages_fail_or_answer (service c time_min time_max))
      as [(items & _ & Hnone) | (e' & -> & Hsome)]; [congruence|].
    rewrite Hsome. simpl. congruence.
  - destruct (pages_fail_or_answer (service c0 time_min time_max))
      as [(items & -> & _) | (e' & _ & Hsome)].
    + simpl. apply IH; [|exact Hfail]. intros c' Hin. apply Hbefore. now right.
    + rewrite (Hbefore c0 (or_introl eq_refl)) in Hsome. discriminate.
Qed.

(** X11.  On a miss, when the first failing call of the fetch raises
    [HttpError], on whatever page of whatever calendar, [get_events]
    returns the empty list: the events of the pages and calendars fetched
    before the failure are dropped. *)
Theorem http_error_discards_fetched_events (isoformat : datetime -> string)
    (fc fl : nat -> bool) (self : GoogleCalendarReport) (s e : datetime)
    (kind : string) (service : calendar_service)
    (before after : list string) (c : string) :
  is_period_in_database fc self (get_period_key kind s e) = false ->
  app_service self = Some service ->
  dict_get (cfg_calendars (app_config self)) ["primary"]
  = before ++ c :: after ->
  (forall c', In c' before ->
              failure_of (service c' (isoformat s) (isoformat e)) = None) ->
  failure_of (service c (isoformat s) (isoformat e)) = Some HttpError ->
  get_events isoformat fc fl self s e kind = Ok [].
Proof.
  intros Hmiss Hservice Hcalendars Hbefore Hfail.
  rewrite (get_events_miss isoformat fc fl self s e kind service Hmiss
             Hservice).
  rewrite Hcalendars.
  now rewrite (fetch_stops_at_first_failure service _ _ before after c
                 HttpError [] Hbefore Hfail).
Qed.

(** ** The cache *)

Lemma is_period_with_service (faults : nat -> bool)
    (self : GoogleCalendarReport) (service : option calendar_service)
    (key : string) :
  is_period_in_database faults (with_service self service) key
  = is_period_in_database faults self key.
Proof. reflexivity. Qed.

Lemma load_with_service (faults : nat -> bool) (self : GoogleCalendarReport)
    (service : option calendar_service) (key : string) :
  get_events_from_database faults (with_service self service) key
  = get_events_from_database faults self key.
Proof. reflexivity. Qed.

Section Cache.
Variable fromisoformat : string -> result datetime.
Variable isoformat : datetime -> string.

(** What a call of the store does to the answer of
    [is_period_in_database]. *)
Lemma is_period_after_store (faults : nat -> bool)
    (self : GoogleCalendarReport) (kind : string) (s e : datetime)
    (events : list event) :
  idle self ->
  let outcome :=
    store_period_in_database fromisoformat isoformat faults self kind s e
      events in
  idle (snd outcome)
  /\ forall key,
      is_period_in_database no_faults (snd outcome) key
      = (fst outcome && String.eqb (get_period_key kind s e) key)
        || is_period_in_database no_faults self key.
Proof.
  intros Hidle outcome. subst outcome.
  destruct (store_outcome fromisoformat isoformat faults self kind s e events
              Hidle) as [(c & rows & Hconn & Hrows & -> & _) | ->].
  - split; [reflexivity|]. intros key. simpl fst. simpl snd.
    match goal with
    | |- is_period_in_database _ (with_conn ?a ?c') _ = _ =>
        rewrite (is_period_in_database_reads (with_conn a c') c' key eq_refl)
    end.
    rewrite (is_period_in_database_reads self c key Hconn).
    unfold idle in Hidle. rewrite Hconn in Hidle.
    unfold current. rewrite Hidle. simpl. rewrite complete_after_store.
    unfold period_row_of. simpl.
    now destruct (String.eqb (get_period_key kind s e) key).
  - split; [exact Hidle|]. intros key. reflexivity.
Qed.

(** X12.  After a call of the store that succeeded, [get_events] for the
    same period type and any start and end on the same days returns the
    events that the database holds under the key of the call, whatever
    service the object has: the service is not asked. *)
Theorem stored_period_is_served_from_the_database (faults : nat -> bool)
    (self : GoogleCalendarReport) (kind : string) (s e s' e' : datetime)
    (events : list event) (service : option calendar_service) :
  idle self ->
  fst (store_period_in_database fromisoformat isoformat faults self kind s e
         events) = true ->
  same_day s s' -> same_day e e' ->
  let stored :=
    snd (store_period_in_database fromisoformat isoformat faults self kind s
           e events) in
  get_events isoformat no_faults no_faults (with_service stored service) s' e'
    kind
  = Ok (get_events_from_database no_faults stored (get_period_key kind s e)).
Proof.
  intros Hidle Hstored Hs He stored.
  destruct (is_period_after_store faults self kind s e events Hidle)
    as [_ Hperiod].
  rewrite get_events_hit.
  - rewrite load_with_service.
    now rewrite <- (same_day_key kind s e s' e' Hs He).
  - rewrite is_period_with_service, <- (same_day_key kind s e s' e' Hs He).
    unfold stored. rewrite Hperiod, Hstored, String.eqb_refl. reflexivity.
Qed.

(** X13.  Under the store choice of the menu, when the period is not in
    the database and the fetch raises [HttpError], or the object has no
    service, the empty list that [get_events] returns is stored: the call
    succeeds, the period is complete, and from then on [get_events] returns
    the empty list for that period whatever the service. *)
Theorem failed_fetch_is_stored_as_an_empty_period
    (self : GoogleCalendarReport) (c : conn) (kind : string)
    (s e : datetime) :
  db_conn self = Some c -> pending c = None ->
  is_period_in_database no_faults self (get_period_key kind s e) = false ->
  get_events_from_database no_faults self (get_period_key kind s e) = [] ->
  (app_service self = None
   \/ exists service,
       app_service self = Some service
       /\ fetch_calendars service (isoformat s) (isoformat e)
            (dict_get (cfg_calendars (app_config self)) ["primary"]) []
          = Raise HttpError) ->
  let outcome :=
    store_choice fromisoformat isoformat no_faults no_faults no_faults self
      kind s e in
  fst outcome = Ok true
  /\ is_period_in_database no_faults (snd outcome) (get_period_key kind s e)
     = true
  /\ forall service,
      get_events isoformat no_faults no_faults
        (with_service (snd outcome) service) s e kind = Ok [].
Proof.
  intros Hconn Hidle Hmiss Hempty Hfetch outcome.
  assert (Hget : get_events isoformat no_faults no_faults self s e kind
                 = Ok []).
  { unfold get_events. rewrite Hmiss.
    destruct Hfetch as [-> | (service & -> & ->)]; reflexivity. }
  assert (Hstore :
            store_period_in_database fromisoformat isoformat no_faults self
              kind s e []
            = (true,
               with_conn self
                 (mk_conn (stored_tables (period_row_of isoformat kind s e) []
                             (committed c)) None))).
  { now apply store_without_faults. }
  subst outcome. unfold store_choice. rewrite Hget, Hstore. simpl fst.
  simpl snd.
  set (stored := with_conn self _).
  assert (Hperiod : is_period_in_database no_faults stored
                      (get_period_key kind s e) = true).
  { unfold stored.
    erewrite is_period_in_database_reads by reflexivity.
    unfold current. simpl. rewrite complete_after_store.
    unfold period_row_of. simpl. now rewrite String.eqb_refl. }
  split; [reflexivity|]. split; [exact Hperiod|].
  intros service. rewrite get_events_hit.
  - rewrite load_with_service. unfold stored.
    erewrite get_events_from_database_reads by reflexivity.
    rewrite (get_events_from_database_reads self c _ Hconn) in Hempty.
    unfold current in *. rewrite Hidle in Hempty.
    unfold events_in, stored_tables in *. simpl in *. now rewrite Hempty.
  - now rewrite is_period_with_service.
Qed.

(** X16.  From a database without complete period, after any history of
    calls of the store, the complete periods are the keys of the calls that
    succeeded: [is_period_in_database] answers [True] for a key exactly when
    a call with that key returned [True]. *)
Theorem complete_periods_are_the_stored_ones (calls : list store_call) :
  forall (self : GoogleCalendarReport),
    idle self ->
    (forall key, is_period_in_database no_faults self key = false) ->
    forall key,
      is_period_in_database no_faults
        (run_calls fromisoformat isoformat self calls) key = true
      <-> In key (stored_keys fromisoformat isoformat self calls).
Proof.
  assert (Hgen : forall self known,
             idle self ->
             (forall key, is_period_in_database no_faults self key = true
                          <-> In key known) ->
             forall key,
               is_period_in_database no_faults
                 (run_calls fromisoformat isoformat self calls) key = true
               <-> In key (known
                           ++ stored_keys fromisoformat isoformat self calls)).
  { induction calls as [|call later IH]; intros self known Hidle Hknown key;
      simpl.
    - rewrite app_nil_r. apply Hknown.
    - destruct (is_period_after_store (call_faults call) self
                  (call_period_type call) (call_start_date call)
                  (call_end_date call) (call_events call) Hidle)
        as [Hidle' Hperiod].
      fold (run_call fromisoformat isoformat self call) in Hidle', Hperiod.
      fold (call_key call) in Hperiod.
      rewrite app_assoc. apply IH; [exact Hidle'|].
      intros key'. rewrite Hperiod, in_app_iff, <- Hknown.
      destruct (fst (run_call fromisoformat isoformat self call)); simpl.
      + rewrite orb_true_iff, String.eqb_eq. intuition.
      + intuition. }
  intros self Hidle Hfresh key.
  apply (Hgen self [] Hidle). intros key'. rewrite Hfresh. simpl.
  intuition discriminate.
Qed.

End Cache.

(** ** The two rules for the tag of a title *)

(** X14.  On every summary the pattern of the report and the pattern of
    the store agree on the three letters when both match, which is when the
    fifth character is a space; the report alone matches when it is an
    underscore, and the store alone when it is a whitespace character other
    than the space. *)
Theorem tag_rules_differ_on_the_separator (summary : string) :
  match Re.category_match summary, Re.stored_category_match summary with
  | Some (category, _), Some stored =>
      category = stored /\ separator summary = Some " "%char
  | Some _, None => separator summary = Some "_"%char
  | None, Some _ =>
      exists c, separator summary = Some c /\ Re.whitespace c = true
                /\ c <> " "%char
  | None, None => True
  end.
Proof.
  destruct summary as [|c0 [|a [|b [|c [|sep rest]]]]]; try exact I;
    try (simpl; now destruct c0 as [[] [] [] [] [] [] [] []]).
  unfold Re.category_match, Re.stored_category_match, separator.
  destruct (Ascii.eqb_spec c0 "@") as [-> | Hat].
  - simpl String.get.
    destruct (Re.upper a && Re.upper b && Re.upper c); simpl;
      [|exact I].
    unfold Re.space_or_underscore.
    destruct (Ascii.eqb_spec sep " ") as [-> | Hspace]; simpl.
    + split; reflexivity.
    + destruct (Ascii.eqb_spec sep "_") as [-> | Hunder]; simpl.
      * reflexivity.
      * destruct (Re.whitespace sep) eqn:Hw; [|exact I]. eauto.
  - destruct c0 as [[] [] [] [] [] [] [] []]; try exact I; congruence.
Qed.

(** ** Events read back from the database *)

Section ReadBack.
Variable fromisoformat : string -> result datetime.

(** X15.  The event read back from the row of a stored event has the id
    and the summary of the event, the duration and the category of the row,
    and [None] as colour when the event had none or an empty one; an
    all-day event comes back as an all-day event with the same dates, a
    timed event as a timed event with the same instants, and in both cases
    its duration computed again is the duration stored. *)
Theorem stored_event_is_read_back (self : GoogleCalendarReport)
    (key : string) (ev : event) (r : event_row) :
  row_of_event fromisoformat self key ev = Ok (Some r) ->
  let loaded := event_of_row r in
  ev_id loaded = ev_id ev
  /\ ev_summary loaded = ev_summary ev
  /\ ev_duration loaded = Some (r_duration r)
  /\ ev_category loaded = Some (stored_category (r_summary r))
  /\ calculate_event_duration fromisoformat self ev = Ok (r_duration r)
  /\ (ev_colorId ev = None \/ ev_colorId ev = Some (Some "") ->
      ev_colorId loaded = Some None)
  /\ forall st en,
      (all_day_event ev st en -> all_day_event loaded st en)
      /\ (timed_event ev st en -> timed_event loaded st en)
      /\ (all_day_event ev st en \/ timed_event ev st en ->
          calculate_event_duration fromisoformat self loaded
          = Ok (r_duration r)).
Proof.
  intros Hrow loaded.
  pose proof (row_of_event_some fromisoformat self key ev r Hrow)
    as (Hid & _ & _).
  destruct (row_of_event_fields fromisoformat self key ev r Hrow)
    as (start_ & Hstart & Hsummary & Hcategory & Hduration & Hcolor & Hspan).
  assert (Hloaded :
            forall st en,
              (all_day_event ev st en -> all_day_event loaded st en)
              /\ (timed_event ev st en -> timed_event loaded st en)).
  { intros st en. unfold loaded, event_of_row. split.
    - intros (s0 & e0 & Hs0 & He0 & Hsd & Hed).
      rewrite Hstart in Hs0. injection Hs0 as <-.
      destruct Hspan as [(end_ & st' & en' & Hend & Hst & Hen & -> & -> & ->)
                        | ([Hnone | (end_ & Hend & Hnone)] & _)].
      + rewrite Hend in He0. injection He0 as <-.
        rewrite Hsd in Hst. rewrite Hed in Hen.
        injection Hst as <-. injection Hen as <-.
        simpl. eexists _, _. repeat split.
      + congruence.
      + rewrite Hend in He0. injection He0 as <-. congruence.
    - intros (s0 & e0 & Hs0 & He0 & Hnodate & Hsd & Hed).
      rewrite Hstart in Hs0. injection Hs0 as <-.
      destruct Hspan as [(end_ & st' & en' & Hend & Hst & Hen & _)
                        | (_ & -> & -> & ->)].
      + rewrite Hend in He0. injection He0 as <-.
        destruct Hnodate; congruence.
      + unfold get_dateTime. rewrite Hstart, He0, Hsd, Hed. simpl.
        eexists _, _. repeat split. now left. }
  split; [unfold loaded; simpl; now rewrite Hid|].
  split; [unfold loaded; simpl; now rewrite Hsummary|].
  split; [reflexivity|].
  split; [unfold loaded; simpl; now rewrite Hcategory|].
  split; [exact Hduration|]. split.
  - unfold loaded. simpl. rewrite Hcolor. now intros [-> | ->].
  - intros st en. destruct (Hloaded st en) as [Hall Htimed].
    split; [exact Hall|]. split; [exact Htimed|].
    intros [Hev | Hev].
    + pose proof (Hall Hev) as (ls & le & Hls & Hle & Hlsd & Hled).
      destruct Hev as (s0 & e0 & Hs0 & He0 & Hsd & Hed).
      rewrite <- Hduration. unfold calculate_event_duration.
      now rewrite Hls, Hle, Hlsd, Hled, Hs0, He0, Hsd, Hed.
    + pose proof (Htimed Hev) as (ls & le & Hls & Hle & Hlnone & Hlsd & Hled).
      destruct Hev as (s0 & e0 & Hs0 & He0 & Hnone & Hsd & Hed).
      rewrite <- Hduration. unfold calculate_event_duration.
      rewrite Hls, Hle, Hlsd, Hled, Hs0, He0, Hsd, Hed.
      destruct Hlnone as [-> | Hlnone], Hnone as [-> | Hnone];
        rewrite ?Hlnone, ?Hnone;
        repeat match goal with
               | |- context [match td_date ?x with _ => _ end] =>
                   destruct (td_date x)
               end; reflexivity.
Qed.

End ReadBack.

(** ** Date ranges *)

Section DateRanges.

Variable py_int : string -> option Z.
Variable dateutil_parse : string -> option datetime.
Variable zone_offset : Z.

Local Open Scope Z_scope.

Lemma days_in_month_bounds (y m : Z) : 28 <= Dates.days_in_month y m <= 31.
Proof.
  unfold Dates.days_in_month.
  destruct (m =? 2); [destruct (Calendar.is_leap y); lia|].
  destruct ((m =? 4) || (m =? 6) || (m =? 9) || (m =? 11))%bool; lia.
Qed.

Lemma year_in_range_true (y : Z) :
  1 <= y <= 9999 -> Dates.year_in_range y = true.
Proof. unfold Dates.year_in_range. lia. Qed.

Lemma month_prefix_not_named (period : string) :
  String.prefix "month_" period = true ->
  String.eqb period "last_month" = false
  /\ String.eqb period "current_year" = false
  /\ String.eqb period "last_year" = false.
Proof.
  destruct period as [|c rest]; [discriminate|].
  intros Hprefix. destruct (ascii_dec "m" c) as [<-|Hne].
  - repeat split; reflexivity.
  - exfalso. cbn [String.prefix] in Hprefix.
    destruct (ascii_dec "m" c); [contradiction | discriminate].
Qed.

Lemma whole_days (k r : Z) :
  0 <= r < Calendar.microseconds_per_day ->
  Calendar.days (k * Calendar.microseconds_per_day + r) = k.
Proof.
  intros Hr. unfold Calendar.days.
  rewrite Z.add_comm, Z.div_add by (unfold Calendar.microseconds_per_day; lia).
  rewrite Z.div_small by exact Hr. reflexivity.
Qed.

(** The whole days between a time of day [h:mi:s] of one day of a month
    and 23:59:59 of another day of that month. *)
Lemma days_within_a_month (y m d1 d2 h mi s us : Z) (off : option Z) :
  0 <= h < 24 -> 0 <= mi < 60 -> 0 <= s < 60 ->
  exists delta,
    Calendar.sub (mk_datetime y m d2 23 59 59 us off)
                 (mk_datetime y m d1 h mi s us off) = Ok delta
    /\ Calendar.days delta = d2 - d1.
Proof.
  intros Hh Hmi Hs.
  exists ((d2 - d1) * Calendar.microseconds_per_day
          + (86399 - (h * 3600 + mi * 60 + s)) * 1000000).
  split.
  - unfold Calendar.sub, Calendar.wall_clock, Calendar.toordinal,
      Calendar.microseconds_per_day.
    cbn [dt_year dt_month dt_day dt_hour dt_minute dt_second dt_microsecond
         dt_utcoffset].
    destruct off; apply f_equal; ring.
  - apply whole_days. unfold Calendar.microseconds_per_day. lia.
Qed.

Lemma current_month_range (now : datetime) :
  Dates.valid now -> dt_year now < 9999 \/ dt_month now < 12 ->
  current_month now
  = Returned
      (mk_datetime (dt_year now) (dt_month now) 1 0 0 0 (dt_microsecond now)
         (dt_utcoffset now),
       mk_datetime (dt_year now) (dt_month now)
         (Dates.days_in_month (dt_year now) (dt_month now)) 23 59 59
         (dt_microsecond now) (dt_utcoffset now)).
Proof.
  intros (Hy & Hm & _) Hlast.
  unfold current_month, Dates.add_months, Dates.first_of_month,
    Dates.at_time, Dates.on_date, Dates.minus_one_day.
  cbn [dt_year dt_month dt_day dt_hour dt_minute dt_second dt_microsecond
       dt_utcoffset].
  destruct (Z.ltb_spec 12 (dt_month now + 1)) as [Hdec|Hdec].
  - assert (dt_month now = 12) as Hm12 by lia.
    cbn [fst snd]. rewrite year_in_range_true by lia.
    cbn [and_then dt_year dt_month dt_day dt_hour dt_minute dt_second
         dt_microsecond dt_utcoffset].
    pose proof (days_in_month_bounds (dt_year now + 1)
                  (dt_month now + 1 - 12)) as Hdim.
    rewrite Z.min_r by lia.
    replace (1 <? 1) with false by reflexivity.
    replace (1 <? dt_month now + 1 - 12) with false by lia.
    replace (dt_year now + 1 - 1) with (dt_year now) by lia.
    rewrite year_in_range_true by lia.
    cbn [and_then dt_year dt_month dt_day dt_hour dt_minute dt_second
         dt_microsecond dt_utcoffset].
    rewrite Hm12. reflexivity.
  - destruct (Z.ltb_spec (dt_month now + 1) 1) as [Habs|_]; [lia|].
    cbn [fst snd]. rewrite year_in_range_true by lia.
    cbn [and_then dt_year dt_month dt_day dt_hour dt_minute dt_second
         dt_microsecond dt_utcoffset].
    pose proof (days_in_month_bounds (dt_year now) (dt_month now + 1))
      as Hdim.
    rewrite Z.min_r by lia.
    replace (1 <? 1) with false by reflexivity.
    replace (1 <? dt_month now + 1) with true by lia.
    rewrite year_in_range_true by lia.
    cbn [and_then dt_year dt_month dt_day dt_hour dt_minute dt_second
         dt_microsecond dt_utcoffset].
    replace (dt_month now + 1 - 1) with (dt_month now) by lia.
    reflexivity.
Qed.

Lemma zoned_datetime_ok (y m d h mi s : Z) :
  1 <= y <= 9999 -> 1 <= m <= 12 -> 1 <= d <= Dates.days_in_month y m ->
  zoned_datetime zone_offset y m d h mi s
  = Returned (mk_datetime y m d h mi s 0 (Some zone_offset)).
Proof.
  intros Hy Hm Hd. unfold zoned_datetime.
  rewrite year_in_range_true by exact Hy.
  replace (1 <=? m) with true by lia. replace (m <=? 12) with true by lia.
  replace (1 <=? d) with true by lia.
  replace (d <=? Dates.days_in_month y m) with true by lia.
  reflexivity.
Qed.

Lemma month_range (now : datetime) (typed : list string)
    (period text : string) (m : Z) :
  1 <= dt_year now <= 9999 ->
  String.prefix "month_" period = true ->
  nth_error (split_on "_" period) 1 = Some text ->
  py_int text = Some m ->
  1 <= m <= 12 ->
  get_date_range py_int dateutil_parse zone_offset now typed period
  = Returned
      (mk_datetime (dt_year now) m 1 0 0 0 0 (Some zone_offset),
       mk_datetime (dt_year now) m (Dates.days_in_month (dt_year now) m)
         23 59 59 0 (Some zone_offset)).
Proof.
  intros Hy Hprefix Htext Hint Hm.
  destruct (month_prefix_not_named period Hprefix) as (H1 & H2 & H3).
  unfold get_date_range. rewrite H1, H2, H3, Hprefix, Htext, Hint.
  replace (1 <=? m) with true by lia. replace (m <=? 12) with true by lia.
  cbn [andb].
  pose proof (days_in_month_bounds (dt_year now) m) as Hdim.
  rewrite zoned_datetime_ok by lia. cbn [and_then].
  destruct (Z.eqb_spec m 12) as [->|Hne].
  - rewrite zoned_datetime_ok by (try lia; now vm_compute).
    reflexivity.
  - pose proof (days_in_month_bounds (dt_year now) (m + 1)) as Hdim'.
    rewrite zoned_datetime_ok by lia. cbn [and_then].
    unfold Dates.minus_one_day.
    cbn [dt_year dt_month dt_day dt_hour dt_minute dt_second dt_microsecond
         dt_utcoffset].
    replace (1 <? 1) with false by reflexivity.
    replace (1 <? m + 1) with true by lia.
    rewrite year_in_range_true by lia. cbn [and_then].
    replace (m + 1 - 1) with m by lia. reflexivity.
Qed.

Lemma last_month_range (now : datetime) (typed : list string) :
  Dates.valid now -> 1 < dt_year now \/ 1 < dt_month now ->
  let year := if dt_month now =? 1 then dt_year now - 1 else dt_year now in
  let month := if dt_month now =? 1 then 12 else dt_month now - 1 in
  get_date_range py_int dateutil_parse zone_offset now typed "last_month"
  = Returned
      (mk_datetime year month 1 (dt_hour now) (dt_minute now)
         (dt_second now) (dt_microsecond now) (dt_utcoffset now),
       mk_datetime year month (Dates.days_in_month year month) 23 59 59
         (dt_microsecond now) (dt_utcoffset now)).
Proof.
  intros (Hy & Hm & _) Hfirst year month.
  unfold get_date_range. rewrite String.eqb_refl.
  unfold Dates.add_months, Dates.first_of_month, Dates.at_time,
    Dates.on_date, Dates.minus_one_day.
  cbn [dt_year dt_month dt_day dt_hour dt_minute dt_second dt_microsecond
       dt_utcoffset].
  replace (12 <? dt_month now + -1) with false by lia.
  replace (1 <? 1) with false by reflexivity.
  subst year month.
  destruct (Z.eqb_spec (dt_month now) 1) as [Hjan|Hjan].
  - replace (dt_month now + -1 <? 1) with true by lia.
    replace (1 <? dt_month now) with false by lia.
    cbn [fst snd]. rewrite year_in_range_true by lia.
    pose proof (days_in_month_bounds (dt_year now - 1)
                  (dt_month now + -1 + 12)) as Hdim.
    rewrite Z.min_r by lia. cbn [and_then].
    cbn [dt_year dt_month dt_day dt_hour dt_minute dt_second dt_microsecond
         dt_utcoffset].
    replace (dt_month now + -1 + 12) with 12 by lia. reflexivity.
  - replace (dt_month now + -1 <? 1) with false by lia.
    replace (1 <? dt_month now) with true by lia.
    cbn [fst snd]. rewrite year_in_range_true by lia.
    pose proof (days_in_month_bounds (dt_year now) (dt_month now + -1))
      as Hdim.
    rewrite Z.min_r by lia. cbn [and_then].
    cbn [dt_year dt_month dt_day dt_hour dt_minute dt_second dt_microsecond
         dt_utcoffset].
    replace (dt_month now + -1) with (dt_month now - 1) by lia.
    reflexivity.
Qed.


Lemma total_days_of (self : GoogleCalendarReport) (acc : tallies)
    (start_date end_date : datetime) (delta : timedelta) :
  Calendar.sub end_date start_date = Ok delta ->
  exists ts,
    summarize_time self acc start_date end_date = Ok ts
    /\ ts_total_days ts = Calendar.days delta + 1.
Proof.
  intros Hsub. unfold summarize_time. rewrite Hsub. simpl.
  eexists. split; reflexivity.
Qed.

(** X17.  For a period [month_N] whose number [int] reads as a month from
    1 to 12, [get_date_range] returns the range from the first day of that
    month of the current year at 00:00:00 to its last day at 23:59:59, both
    in the zone, and the time summary of a report over it counts as many
    days as the month has. *)
Theorem month_period_is_the_whole_month (now : datetime)
    (typed : list string) (period text : string) (m : Z)
    (self : GoogleCalendarReport) (acc : tallies) :
  1 <= dt_year now <= 9999 ->
  String.prefix "month_" period = true ->
  nth_error (split_on "_" period) 1 = Some text ->
  py_int text = Some m ->
  1 <= m <= 12 ->
  exists ts,
    get_date_range py_int dateutil_parse zone_offset now typed period
    = Returned
        (mk_datetime (dt_year now) m 1 0 0 0 0 (Some zone_offset),
         mk_datetime (dt_year now) m (Dates.days_in_month (dt_year now) m)
           23 59 59 0 (Some zone_offset))
    /\ summarize_time self acc
         (mk_datetime (dt_year now) m 1 0 0 0 0 (Some zone_offset))
         (mk_datetime (dt_year now) m (Dates.days_in_month (dt_year now) m)
            23 59 59 0 (Some zone_offset))
       = Ok ts
    /\ ts_total_days ts = Dates.days_in_month (dt_year now) m.
Proof.
  intros Hy Hprefix Htext Hint Hm.
  destruct (days_within_a_month (dt_year now) m 1
              (Dates.days_in_month (dt_year now) m) 0 0 0 0
              (Some zone_offset)) as (delta & Hsub & Hdays); try lia.
  destruct (total_days_of self acc _ _ delta Hsub) as (ts & Hts & Htotal).
  exists ts. split; [|split].
  - now apply month_range with (text := text).
  - exact Hts.
  - rewrite Htotal, Hdays. lia.
Qed.

(** X18.  For a period that is none of the known names, and for a period
    [month_...] whose number does not read as a month from 1 to 12,
    [get_date_range] returns the month of the current time: from its first
    day at 00:00:00 to its last day at 23:59:59, with the microsecond and
    the offset of the current time, and the time summary counts the days of
    that month. *)
Theorem other_periods_are_the_current_month (now : datetime)
    (typed : list string) (period : string)
    (self : GoogleCalendarReport) (acc : tallies) :
  Dates.valid now -> dt_year now < 9999 \/ dt_month now < 12 ->
  (String.eqb period "last_month" = false
   /\ String.eqb period "current_year" = false
   /\ String.eqb period "last_year" = false
   /\ String.eqb period "custom" = false
   /\ String.prefix "month_" period = false)
  \/ (String.prefix "month_" period = true
      /\ forall text m,
           nth_error (split_on "_" period) 1 = Some text ->
           py_int text = Some m -> ~ 1 <= m <= 12) ->
  let start_date :=
    mk_datetime (dt_year now) (dt_month now) 1 0 0 0 (dt_microsecond now)
      (dt_utcoffset now) in
  let end_date :=
    mk_datetime (dt_year now) (dt_month now)
      (Dates.days_in_month (dt_year now) (dt_month now)) 23 59 59
      (dt_microsecond now) (dt_utcoffset now) in
  exists ts,
    get_date_range py_int dateutil_parse zone_offset now typed period
    = Returned (start_date, end_date)
    /\ summarize_time self acc start_date end_date = Ok ts
    /\ ts_total_days ts = Dates.days_in_month (dt_year now) (dt_month now).
Proof.
  intros Hvalid Hlast Hperiod start_date end_date.
  destruct (days_within_a_month (dt_year now) (dt_month now) 1
              (Dates.days_in_month (dt_year now) (dt_month now)) 0 0 0
              (dt_microsecond now) (dt_utcoffset now))
    as (delta & Hsub & Hdays); try lia.
  destruct (total_days_of self acc _ _ delta Hsub) as (ts & Hts & Htotal).
  exists ts. split; [|split].
  - unfold get_date_range.
    destruct Hperiod as [(H1 & H2 & H3 & H4 & H5)|(Hprefix & Hbad)].
    + rewrite H1, H2, H3, H4, H5. now apply current_month_range.
    + destruct (month_prefix_not_named period Hprefix) as (H1 & H2 & H3).
      rewrite H1, H2, H3, Hprefix.
      destruct (nth_error (split_on "_" period) 1) as [text|] eqn:Htext;
        [|now apply current_month_range].
      destruct (py_int text) as [m|] eqn:Hint;
        [|now apply current_month_range].
      specialize (Hbad text m eq_refl Hint).
      replace ((1 <=? m) && (m <=? 12))%bool with false by lia.
      now apply current_month_range.
  - exact Hts.
  - rewrite Htotal, Hdays. lia.
Qed.

(** X19.  For [last_month], [get_date_range] returns the month before the
    current one, December of the year before when the current month is
    January: the start is its first day at the time of day of the current
    time, which is not reset, the end its last day at 23:59:59, and the time
    summary counts the days of that month. *)
Theorem last_month_is_the_month_before (now : datetime)
    (typed : list string) (self : GoogleCalendarReport) (acc : tallies) :
  Dates.valid now -> 1 < dt_year now \/ 1 < dt_month now ->
  let year := if dt_month now =? 1 then dt_year now - 1 else dt_year now in
  let month := if dt_month now =? 1 then 12 else dt_month now - 1 in
  let start_date :=
    mk_datetime year month 1 (dt_hour now) (dt_minute now) (dt_second now)
      (dt_microsecond now) (dt_utcoffset now) in
  let end_date :=
    mk_datetime year month (Dates.days_in_month year month) 23 59 59
      (dt_microsecond now) (dt_utcoffset now) in
  exists ts,
    get_date_range py_int dateutil_parse zone_offset now typed "last_month"
    = Returned (start_date, end_date)
    /\ summarize_time self acc start_date end_date = Ok ts
    /\ ts_total_days ts = Dates.days_in_month year month.
Proof.
  intros Hvalid Hfirst year month start_date end_date.
  destruct Hvalid as (Hy & Hm & Hd & Hh & Hmi & Hs & Hus).
  destruct (days_within_a_month year month 1
              (Dates.days_in_month year month) (dt_hour now)
              (dt_minute now) (dt_second now) (dt_microsecond now)
              (dt_utcoffset now)) as (delta & Hsub & Hdays); try lia.
  destruct (total_days_of self acc _ _ delta Hsub) as (ts & Hts & Htotal).
  exists ts. split; [|split].
  - apply last_month_range; [repeat split; lia | exact Hfirst].
  - exact Hts.
  - rewrite Htotal, Hdays. lia.
Qed.

Lemma year_range_days (y : Z) :
  exists delta,
    Calendar.sub (mk_datetime y 12 31 23 59 59 0 (Some zone_offset))
                 (mk_datetime y 1 1 0 0 0 0 (Some zone_offset)) = Ok delta
    /\ Calendar.days delta + 1 = if Calendar.is_leap y then 366 else 365.
Proof.
  exists ((if Calendar.is_leap y then 365 else 364)
          * Calendar.microseconds_per_day + 86399 * 1000000).
  split.
  - unfold Calendar.sub, Calendar.wall_clock, Calendar.toordinal,
      Calendar.microseconds_per_day.
    cbn [dt_year dt_month dt_day dt_hour dt_minute dt_second dt_microsecond
         dt_utcoffset].
    replace (Calendar.days_before_month y 12)
      with (334 + if Calendar.is_leap y then 1 else 0) by reflexivity.
    replace (Calendar.days_before_month y 1) with 0 by reflexivity.
    apply f_equal. destruct (Calendar.is_leap y); ring.
  - rewrite whole_days by (unfold Calendar.microseconds_per_day; lia).
    destruct (Calendar.is_leap y); reflexivity.
Qed.

(** X20.  For [current_year] and [last_year], [get_date_range] returns the
    range from 1 January 00:00:00 to 31 December 23:59:59 of the current
    year and of the year before, in the zone, and the time summary counts
    366 days for a leap year and 365 for any other. *)
Theorem year_periods_are_whole_years (now : datetime) (typed : list string)
    (period : string) (year : Z) (self : GoogleCalendarReport)
    (acc : tallies) :
  (period = "current_year"%string /\ year = dt_year now)
  \/ (period = "last_year"%string /\ year = dt_year now - 1) ->
  1 <= year <= 9999 ->
  let start_date := mk_datetime year 1 1 0 0 0 0 (Some zone_offset) in
  let end_date := mk_datetime year 12 31 23 59 59 0 (Some zone_offset) in
  exists ts,
    get_date_range py_int dateutil_parse zone_offset now typed period
    = Returned (start_date, end_date)
    /\ summarize_time self acc start_date end_date = Ok ts
    /\ ts_total_days ts = if Calendar.is_leap year then 366 else 365.
Proof.
  intros Hperiod Hyear start_date end_date.
  destruct (year_range_days year) as (delta & Hsub & Hdays).
  destruct (total_days_of self acc _ _ delta Hsub) as (ts & Hts & Htotal).
  exists ts. split; [|split].
  - pose proof (days_in_month_bounds year 1) as Hjanuary.
    assert (Dates.days_in_month year 12 = 31) as Hdecember by reflexivity.
    assert (get_date_range py_int dateutil_parse zone_offset now typed
              period
            = (start_date <-- zoned_datetime zone_offset year 1 1 0 0 0 ;;
               end_date <-- zoned_datetime zone_offset year 12 31 23 59 59 ;;
               Returned (start_date, end_date))) as ->.
    { destruct Hperiod as [(-> & ->)|(-> & ->)]; reflexivity. }
    rewrite (zoned_datetime_ok year 1 1 0 0 0) by lia.
    rewrite (zoned_datetime_ok year 12 31 23 59 59) by lia.
    reflexivity.
  - exact Hts.
  - now rewrite Htotal.
Qed.

Lemma read_start_date_returned (typed rest : list string) (s : datetime) :
  read_start_date dateutil_parse zone_offset typed = Returned (s, rest) ->
  exists skipped line parsed,
    typed = skipped ++ line :: rest
    /\ Forall (fun l => dateutil_parse l = None) skipped
    /\ dateutil_parse line = Some parsed
    /\ s = Dates.at_time 0 0 0 (in_zone zone_offset parsed).
Proof.
  induction typed as [|l typed IH]; simpl; [discriminate|].
  destruct (dateutil_parse l) as [parsed|] eqn:Hl.
  - intros H. injection H as <- <-.
    exists [], l, parsed. repeat split; auto.
  - intros H. destruct (IH H) as (skipped & line & parsed & -> & Hsk & Hp & Hs).
    exists (l :: skipped), line, parsed. repeat split; auto.
Qed.

Lemma read_end_date_returned (s e : datetime) (typed : list string) :
  read_end_date dateutil_parse zone_offset s typed = Returned e ->
  exists line parsed,
    In line typed
    /\ dateutil_parse line = Some parsed
    /\ e = Dates.at_time 23 59 59 (in_zone zone_offset parsed)
    /\ Dates.before e s = Ok false.
Proof.
  induction typed as [|l typed IH]; simpl; [discriminate|].
  assert (read_end_date dateutil_parse zone_offset s typed = Returned e ->
          exists line parsed,
            (l = line \/ In line typed)
            /\ dateutil_parse line = Some parsed
            /\ e = Dates.at_time 23 59 59 (in_zone zone_offset parsed)
            /\ Dates.before e s = Ok false) as Hrest.
  { intros H. destruct (IH H) as (line & parsed & Hin & Hrest).
    exists line, parsed. split; [now right | exact Hrest]. }
  destruct (dateutil_parse l) as [parsed|] eqn:Hl; [|exact Hrest].
  destruct (Dates.before (Dates.at_time 23 59 59
                            (in_zone zone_offset parsed)) s)
    as [[|]|err] eqn:Hbefore; try exact Hrest.
  intros H. injection H as <-.
  exists l, parsed. repeat split; auto.
Qed.

(** X21.  A custom range that [get_date_range] returns starts at 00:00:00
    of the day of the first typed line that parses and ends at 23:59:59 of
    the day of a later line that parses, both in the zone; its end is never
    before its start, so that the time summary counts at least one day. *)
Theorem custom_range_is_ordered (now : datetime) (typed : list string)
    (start_date end_date : datetime) (self : GoogleCalendarReport)
    (acc : tallies) :
  get_date_range py_int dateutil_parse zone_offset now typed "custom"
  = Returned (start_date, end_date) ->
  exists skipped start_str parsed_start rest end_str parsed_end ts,
    typed = skipped ++ start_str :: rest
    /\ Forall (fun l => dateutil_parse l = None) skipped
    /\ dateutil_parse start_str = Some parsed_start
    /\ start_date = Dates.at_time 0 0 0 (in_zone zone_offset parsed_start)
    /\ In end_str rest
    /\ dateutil_parse end_str = Some parsed_end
    /\ end_date = Dates.at_time 23 59 59 (in_zone zone_offset parsed_end)
    /\ Dates.before end_date start_date = Ok false
    /\ summarize_time self acc start_date end_date = Ok ts
    /\ 1 <= ts_total_days ts.
Proof.
  change (get_date_range py_int dateutil_parse zone_offset now typed
            "custom")
    with (read <-- read_start_date dateutil_parse zone_offset typed ;;
          end_date <-- read_end_date dateutil_parse zone_offset (fst read)
                         (snd read) ;;
          Returned (fst read, end_date)).
  destruct (read_start_date dateutil_parse zone_offset typed)
    as [[s rest]| | |] eqn:Hstart; try discriminate.
  cbn [and_then fst snd].
  destruct (read_end_date dateutil_parse zone_offset s rest)
    as [e| | |] eqn:Hend; try discriminate.
  cbn [and_then]. intros H. injection H as <- <-.
  destruct (read_start_date_returned _ _ _ Hstart)
    as (skipped & start_str & parsed_start & Htyped & Hsk & Hps & Hs).
  destruct (read_end_date_returned _ _ _ Hend)
    as (end_str & parsed_end & Hin & Hpe & He & Hbefore).
  assert (exists delta, Calendar.sub e s = Ok delta /\ 0 <= delta)
    as (delta & Hsub & Hpos).
  { revert Hbefore. rewrite Hs, He.
    unfold Dates.before, Calendar.sub, Calendar.instant.
    cbn [Dates.at_time in_zone dt_utcoffset].
    intros H. injection H as H.
    eexists. split; [reflexivity|]. lia. }
  destruct (total_days_of self acc _ _ delta Hsub) as (ts & Hts & Htotal).
  exists skipped, start_str, parsed_start, rest, end_str, parsed_end, ts.
  repeat split; auto.
  rewrite Htotal.
  assert (0 <= Calendar.days delta).
  { apply Z.div_pos; [exact Hpos | now vm_compute]. }
  lia.
Qed.

Lemma outcomes_agree_refl {A : Type} (R : A -> A -> Prop)
    (x : outcome A) :
  (forall a, R a a) -> outcomes_agree R x x.
Proof. intros HR. destruct x; simpl; auto. Qed.

Lemma and_then_agree {A B : Type} (R : A -> A -> Prop)
    (S : B -> B -> Prop) (x y : outcome A) (k k' : A -> outcome B) :
  outcomes_agree R x y ->
  (forall a b, R a b -> outcomes_agree S (k a) (k' b)) ->
  outcomes_agree S (and_then x k) (and_then y k').
Proof. intros Hxy Hk. destruct x, y; simpl in *; auto; contradiction. Qed.

Lemma same_day_refl (a : datetime) : same_day a a.
Proof. repeat split. Qed.

Lemma same_days_refl (r : datetime * datetime) : same_days r r.
Proof. split; apply same_day_refl. Qed.

Lemma add_months_agree (k : Z) (a b : datetime) :
  same_day a b ->
  outcomes_agree same_day (Dates.add_months k a) (Dates.add_months k b).
Proof.
  intros (Hy & Hm & Hd). unfold Dates.add_months, Dates.on_date.
  rewrite Hy, Hm, Hd.
  destruct (Dates.year_in_range _); simpl; repeat split.
Qed.

Lemma minus_one_day_agree (a b : datetime) :
  same_day a b ->
  outcomes_agree same_day (Dates.minus_one_day a) (Dates.minus_one_day b).
Proof.
  intros (Hy & Hm & Hd). unfold Dates.minus_one_day.
  rewrite Hy, Hm, Hd.
  destruct (1 <? dt_day b); [|destruct (1 <? dt_month b)];
    destruct (Dates.year_in_range _); simpl; repeat split.
Qed.

Lemma current_month_agree (now now' : datetime) :
  dt_year now = dt_year now' -> dt_month now = dt_month now' ->
  outcomes_agree same_days (current_month now) (current_month now').
Proof.
  intros Hy Hm. unfold current_month.
  apply and_then_agree with (R := same_day).
  - apply add_months_agree. repeat split; assumption.
  - intros a b Hab. apply and_then_agree with (R := same_day).
    + now apply minus_one_day_agree.
    + intros c d (Hcy & Hcm & Hcd). simpl.
      repeat split; simpl; assumption.
Qed.

Lemma get_date_range_agree (now now' : datetime)
    (typed typed' : list string) (period : string) :
  dt_year now = dt_year now' -> dt_month now = dt_month now' ->
  String.eqb period "custom" = false ->
  outcomes_agree same_days
    (get_date_range py_int dateutil_parse zone_offset now typed period)
    (get_date_range py_int dateutil_parse zone_offset now' typed' period).
Proof.
  intros Hy Hm Hcustom. unfold get_date_range. rewrite Hcustom, Hy.
  destruct (String.eqb period "last_month").
  { apply and_then_agree with (R := same_day).
    - apply add_months_agree. repeat split; assumption.
    - intros a b Hab. apply and_then_agree with (R := same_day).
      + apply minus_one_day_agree. repeat split; assumption.
      + intros c d (Hcy & Hcm & Hcd). simpl.
        repeat split; simpl; try assumption; apply Hab. }
  destruct (String.eqb period "current_year").
  { apply outcomes_agree_refl, same_days_refl. }
  destruct (String.eqb period "last_year").
  { apply outcomes_agree_refl, same_days_refl. }
  destruct (String.prefix "month_" period).
  { match goal with
    | |- outcomes_agree _ (match ?attempt with _ => _ end) _ =>
        destruct attempt
    end.
    - apply same_days_refl.
    - now apply current_month_agree.
    - exact I.
    - exact I. }
  now apply current_month_agree.
Qed.

(** X22.  For every period but the custom one, the range that
    [get_date_range] returns depends on the current time through its year
    and month only: at two times of the same month of the same year it
    returns ranges on the same days, which have the same period key, and it
    returns at the one time when it returns at the other. *)
Theorem period_key_is_fixed_within_a_month (now now' : datetime)
    (typed typed' : list string) (period : string)
    (start_date end_date : datetime) :
  dt_year now = dt_year now' -> dt_month now = dt_month now' ->
  period <> "custom"%string ->
  get_date_range py_int dateutil_parse zone_offset now typed period
  = Returned (start_date, end_date) ->
  exists start_date' end_date',
    get_date_range py_int dateutil_parse zone_offset now' typed' period
    = Returned (start_date', end_date')
    /\ same_day start_date start_date'
    /\ same_day end_date end_date'
    /\ get_period_key period start_date end_date
       = get_period_key period start_date' end_date'.
Proof.
  intros Hy Hm Hcustom Hrange.
  assert (String.eqb period "custom" = false) as Hneq
    by now apply String.eqb_neq.
  pose proof (get_date_range_agree now now' typed typed' period Hy Hm Hneq)
    as Hagree.
  rewrite Hrange in Hagree.
  destruct (get_date_range py_int dateutil_parse zone_offset now' typed'
              period) as [[s' e']| | |]; simpl in Hagree;
    try contradiction.
  destruct Hagree as [Hs He]. simpl in Hs, He.
  exists s', e'. repeat split; try apply Hs; try apply He.
  now apply same_day_key.
Qed.

End DateRanges.

(** ** The properties on the sample data *)

Lemma report_counts_every_hour_once_witness :
  exists r acc rows,
    sample_report_run = Ok (Printed r)
    /\ process_events Iso.parse (sample_app failing_service) empty_tallies
         sample_events = Ok acc
    /\ map ed_summary rows = titles sample_events
    /\ Permutation rows (rep_all_events r)
    /\ dict_lookup 0%Q "Lunch" (event_durations acc)
       = accumulated (filter (has_title "Lunch") rows)
    /\ dict_lookup 0%Q "ENG" (category_durations acc)
       = accumulated (filter (in_category "ENG") rows).
Proof.
  assert (exists r, sample_report_run = Ok (Printed r)) as [r Hr]
    by (eexists; vm_compute; reflexivity).
  destruct (report_counts_every_hour_once Iso.parse
              (sample_app failing_service) sample_events january_first
              january_last "month_1" r Hr)
    as (acc & rows & Hacc & Htitles & Hperm & Htitle & Hcategory).
  exists r, acc, rows. repeat split; auto.
Defined.


Lemma titles_are_counted_witness :
  exists acc,
    process_events Iso.parse (sample_app failing_service) empty_tallies
      (lunch :: sample_events) = Ok acc
    /\ NoDup (map fst (event_durations acc))
    /\ dict_lookup O "Lunch" (event_count acc) = 2%nat.
Proof.
  assert (exists acc,
             process_events Iso.parse (sample_app failing_service)
               empty_tallies (lunch :: sample_events) = Ok acc)
    as [acc Hacc] by (eexists; vm_compute; reflexivity).
  destruct (titles_are_counted Iso.parse (sample_app failing_service)
              (lunch :: sample_events) acc Hacc)
    as (_ & Hnodup & _ & Hcount).
  exists acc. split; [exact Hacc | split; [exact Hnodup|]].
  rewrite Hcount. reflexivity.
Defined.

Lemma chronological_listing_witness :
  exists r,
    sample_report_run = Ok (Printed r)
    /\ Permutation (map ed_summary (rep_all_events r)) (titles sample_events)
    /\ Sorted (fun x y => String.leb (ed_date x) (ed_date y) = true)
              (rep_all_events r)
    /\ rep_total_events r = 3%nat.
Proof.
  assert (exists r, sample_report_run = Ok (Printed r)) as [r Hr]
    by (eexists; vm_compute; reflexivity).
  destruct (chronological_listing Iso.parse (sample_app failing_service)
              sample_events january_first january_last "month_1" r Hr)
    as (Hperm & Hsorted & _ & Htotal & _).
  exists r. repeat split; assumption.
Defined.

Lemma listings_by_duration_witness :
  exists r,
    sample_report_run = Ok (Printed r)
    /\ Sorted (fun x y => (snd y <= snd x)%Q) (rep_sorted_categories r)
    /\ NoDup (map fst (rep_sorted_categories r))
    /\ Sorted (fun x y => (ed_duration y <= ed_duration x)%Q)
              (rep_uncategorized_events r).
Proof.
  assert (exists r, sample_report_run = Ok (Printed r)) as [r Hr]
    by (eexists; vm_compute; reflexivity).
  destruct (listings_by_duration Iso.parse (sample_app failing_service)
              sample_events january_first january_last "month_1" r Hr)
    as (Hcategories & _ & Hnodup & Hother & _).
  exists r. repeat split; assumption.
Defined.


Lemma http_error_discards_fetched_events_witness :
  get_events Iso.print no_faults no_faults two_calendars_app january_first
    january_last "month_1" = Ok [].
Proof.
  apply (http_error_discards_fetched_events Iso.print no_faults no_faults
           two_calendars_app january_first january_last "month_1"
           second_calendar_fails ["primary"] [] "work").
  - reflexivity.
  - reflexivity.
  - reflexivity.
  - intros c' [<-|[]]. reflexivity.
  - reflexivity.
Defined.

Lemma stored_period_is_served_from_the_database_witness :
  get_events Iso.print no_faults no_faults
    (with_service january_stored None) january_first_noon january_last
    "month_1"
  = Ok (get_events_from_database no_faults january_stored
          "month_1_20240101_20240131").
Proof.
  apply (stored_period_is_served_from_the_database Iso.parse Iso.print
           no_faults (sample_app failing_service) "month_1" january_first
           january_last january_first_noon january_last [standup; lunch]
           None).
  - reflexivity.
  - reflexivity.
  - repeat split.
  - repeat split.
Defined.

Lemma failed_fetch_is_stored_as_an_empty_period_witness :
  let outcome :=
    store_choice Iso.parse Iso.print no_faults no_faults no_faults
      (sample_app failing_service) "month_1" january_first january_last in
  fst outcome = Ok true
  /\ is_period_in_database no_faults (snd outcome)
       "month_1_20240101_20240131" = true.
Proof.
  destruct (failed_fetch_is_stored_as_an_empty_period Iso.parse Iso.print
              (sample_app failing_service) empty_db "month_1" january_first
              january_last) as (Hstored & Hcomplete & _).
  - reflexivity.
  - reflexivity.
  - reflexivity.
  - reflexivity.
  - right. exists failing_service. split; reflexivity.
  - split; [exact Hstored | exact Hcomplete].
Defined.

Lemma stored_event_is_read_back_witness :
  exists r,
    row_of_event Iso.parse (sample_app failing_service)
      "month_1_20240101_20240131" lunch = Ok (Some r)
    /\ ev_id (event_of_row r) = Some "2"
    /\ ev_summary (event_of_row r) = Some "Lunch"
    /\ timed_event (event_of_row r) "2024-01-01T12:00:00-03:00"
         "2024-01-01T13:00:00-03:00"
    /\ calculate_event_duration Iso.parse (sample_app failing_service)
         (event_of_row r) = Ok (r_duration r).
Proof.
  assert (exists r,
             row_of_event Iso.parse (sample_app failing_service)
               "month_1_20240101_20240131" lunch = Ok (Some r))
    as [r Hr] by (eexists; vm_compute; reflexivity).
  destruct (stored_event_is_read_back Iso.parse (sample_app failing_service)
              "month_1_20240101_20240131" lunch r Hr)
    as (Hid & Hsummary & _ & _ & _ & _ & Hspan).
  destruct (Hspan "2024-01-01T12:00:00-03:00" "2024-01-01T13:00:00-03:00")
    as (_ & Htimed & Hduration).
  assert (timed_event lunch "2024-01-01T12:00:00-03:00"
            "2024-01-01T13:00:00-03:00") as Hlunch.
  { eexists. eexists. repeat split; try reflexivity. left. reflexivity. }
  exists r. repeat split.
  - exact Hr.
  - exact Hid.
  - exact Hsummary.
  - exact (Htimed Hlunch).
  - exact (Hduration (or_intror Hlunch)).
Defined.

Lemma complete_periods_are_the_stored_ones_witness :
  let calls :=
    [mk_store_call (fail_at 1) "last_year" january_first january_last
       [lunch];
     mk_store_call no_faults "month_1" january_first january_last
       [standup]] in
  (is_period_in_database no_faults
     (run_calls Iso.parse Iso.print (sample_app failing_service) calls)
     "month_1_20240101_20240131" = true
   <-> In "month_1_20240101_20240131"%string
         (stored_keys Iso.parse Iso.print (sample_app failing_service)
            calls))
  /\ (is_period_in_database no_faults
        (run_calls Iso.parse Iso.print (sample_app failing_service) calls)
        "last_year_20240101_20240131" = true
      <-> In "last_year_20240101_20240131"%string
            (stored_keys Iso.parse Iso.print (sample_app failing_service)
               calls)).
Proof.
  intros calls.
  split;
    apply (complete_periods_are_the_stored_ones Iso.parse Iso.print calls
             (sample_app failing_service));
    try reflexivity; intros key; reflexivity.
Defined.

Lemma month_period_is_the_whole_month_witness :
  exists ts,
    get_date_range decimal iso_or_nothing sao_paulo_offset march_15_2024 []
      "month_2"
    = Returned
        (mk_datetime 2024 2 1 0 0 0 0 (Some sao_paulo_offset),
         mk_datetime 2024 2 29 23 59 59 0 (Some sao_paulo_offset))
    /\ summarize_time (sample_app failing_service) empty_tallies
         (mk_datetime 2024 2 1 0 0 0 0 (Some sao_paulo_offset))
         (mk_datetime 2024 2 29 23 59 59 0 (Some sao_paulo_offset))
       = Ok ts
    /\ ts_total_days ts = 29%Z.
Proof.
  apply (month_period_is_the_whole_month decimal iso_or_nothing
           sao_paulo_offset march_15_2024 [] "month_2" "2" 2
           (sample_app failing_service) empty_tallies).
  - simpl. lia.
  - reflexivity.
  - reflexivity.
  - reflexivity.
  - lia.
Defined.

Lemma other_periods_are_the_current_month_witness :
  exists ts,
    get_date_range decimal iso_or_nothing sao_paulo_offset march_31_2024 []
      "month_13"
    = Returned
        (mk_datetime 2024 3 1 0 0 0 250 sao_paulo,
         mk_datetime 2024 3 31 23 59 59 250 sao_paulo)
    /\ summarize_time (sample_app failing_service) empty_tallies
         (mk_datetime 2024 3 1 0 0 0 250 sao_paulo)
         (mk_datetime 2024 3 31 23 59 59 250 sao_paulo)
       = Ok ts
    /\ ts_total_days ts = 31%Z.
Proof.
  apply (other_periods_are_the_current_month decimal iso_or_nothing
           sao_paulo_offset march_31_2024 [] "month_13"
           (sample_app failing_service) empty_tallies).
  - vm_compute. repeat split; try reflexivity; discriminate.
  - left. simpl. lia.
  - right. split; [reflexivity|].
    intros text m Htext Hint.
    vm_compute in Htext. injection Htext as <-.
    vm_compute in Hint. injection Hint as <-. lia.
Defined.

Lemma last_month_is_the_month_before_witness :
  exists ts,
    get_date_range decimal iso_or_nothing sao_paulo_offset
      january_first_noon [] "last_month"
    = Returned
        (mk_datetime 2023 12 1 12 0 0 0 sao_paulo,
         mk_datetime 2023 12 31 23 59 59 0 sao_paulo)
    /\ summarize_time (sample_app failing_service) empty_tallies
         (mk_datetime 2023 12 1 12 0 0 0 sao_paulo)
         (mk_datetime 2023 12 31 23 59 59 0 sao_paulo)
       = Ok ts
    /\ ts_total_days ts = 31%Z.
Proof.
  apply (last_month_is_the_month_before decimal iso_or_nothing
           sao_paulo_offset january_first_noon []
           (sample_app failing_service) empty_tallies).
  - vm_compute. repeat split; try reflexivity; discriminate.
  - left. simpl. lia.
Defined.

Lemma year_periods_are_whole_years_witness :
  exists ts,
    get_date_range decimal iso_or_nothing sao_paulo_offset march_15_2024 []
      "last_year"
    = Returned
        (mk_datetime 2023 1 1 0 0 0 0 (Some sao_paulo_offset),
         mk_datetime 2023 12 31 23 59 59 0 (Some sao_paulo_offset))
    /\ summarize_time (sample_app failing_service) empty_tallies
         (mk_datetime 2023 1 1 0 0 0 0 (Some sao_paulo_offset))
         (mk_datetime 2023 12 31 23 59 59 0 (Some sao_paulo_offset))
       = Ok ts
    /\ ts_total_days ts = 365%Z.
Proof.
  apply (year_periods_are_whole_years decimal iso_or_nothing
           sao_paulo_offset march_15_2024 [] "last_year" 2023
           (sample_app failing_service) empty_tallies).
  - right. split; reflexivity.
  - lia.
Defined.

Lemma custom_range_is_ordered_witness :
  exists start_date end_date ts,
    get_date_range decimal iso_or_nothing sao_paulo_offset march_15_2024
      ["tomorrow"; "2024-03-10"; "2024-03-01"; "10/03"; "2024-03-12"]
      "custom"
    = Returned (start_date, end_date)
    /\ Calendar.strftime_Ymd start_date = "20240310"%string
    /\ Calendar.strftime_Ymd end_date = "20240312"%string
    /\ Dates.before end_date start_date = Ok false
    /\ summarize_time (sample_app failing_service) empty_tallies start_date
         end_date = Ok ts
    /\ (1 <= ts_total_days ts)%Z.
Proof.
  assert (exists start_date end_date,
             get_date_range decimal iso_or_nothing sao_paulo_offset
               march_15_2024
               ["tomorrow"; "2024-03-10"; "2024-03-01"; "10/03";
                "2024-03-12"] "custom"
             = Returned (start_date, end_date)
             /\ Calendar.strftime_Ymd start_date = "20240310"%string
             /\ Calendar.strftime_Ymd end_date = "20240312"%string)
    as (start_date & end_date & Hrange & Hstart & Hend)
    by (eexists; eexists; repeat split; reflexivity).
  destruct (custom_range_is_ordered decimal iso_or_nothing sao_paulo_offset
              march_15_2024 _ start_date end_date
              (sample_app failing_service) empty_tallies Hrange)
    as (_ & _ & _ & _ & _ & _ & ts & _ & _ & _ & _ & _ & _ & _ & Hbefore
        & Hts & Hdays).
  exists start_date, end_date, ts. repeat split; assumption.
Defined.

Lemma period_key_is_fixed_within_a_month_witness :
  exists start_date end_date start_date' end_date',
    get_date_range decimal iso_or_nothing sao_paulo_offset march_15_2024 []
      "last_month" = Returned (start_date, end_date)
    /\ get_date_range decimal iso_or_nothing sao_paulo_offset march_31_2024
         [] "last_month" = Returned (start_date', end_date')
    /\ get_period_key "last_month" start_date end_date
       = get_period_key "last_month" start_date' end_date'.
Proof.
  assert (exists start_date end_date,
             get_date_range decimal iso_or_nothing sao_paulo_offset
               march_15_2024 [] "last_month"
             = Returned (start_date, end_date))
    as (start_date & end_date & Hrange)
    by (eexists; eexists; reflexivity).
  destruct (period_key_is_fixed_within_a_month decimal iso_or_nothing
              sao_paulo_offset march_15_2024 march_31_2024 [] []
              "last_month" start_date end_date)
    as (start_date' & end_date' & Hrange' & _ & _ & Hkey).
  - reflexivity.
  - reflexivity.
  - discriminate.
  - exact Hrange.
  - exists start_date, end_date, start_date', end_date'.
    repeat split; assumption.
Defined.
